(* ===== verification/_CoqProject ===== *)
-Q . S2P
Prelude.v
GoStrings.v
Strconv.v
Regexp.v
Mask.v
DSN.v
World.v
Config.v
TLS.v
MySQL.v
DAO.v
Sql.v
Demo.v
