(* ===== verification/Prelude.v ===== *)
(** * A verification development for devfabric/dao

    The repository is a small Go data-access layer: it loads a TOML
    database configuration ([src/config/config.go]), opens a MySQL
    connection pool with an optional client TLS profile, retrying the
    first ping with a linear back-off, creates the target database if
    it is missing ([src/dao/mysql.go]), wraps the pool in a handle
    ([SqlxDB] in [src/dao/dao.go]) that can be fetched and closed, and
    redacts credentials in data-source strings with a regular
    expression ([MaskDBCred]).  [src/main.go] is a demonstration
    driver: it opens the database with [NewDB], recreates a table
    [users], inserts and reads users through [sqlx] and prints them.

    ** How the parts interact

      LoadDBConfig --> NewDB --(type = "mysql")--> NewUserRegistryMySQL
                                                    |-- getDBName, connStr regexp
                                                    |-- GetClientTLSConfig
                                                    |      '-- checkCertDates
                                                    |             '-- GetX509CertificateFromPEM
                                                    |-- Ping retry loop
                                                    |-- createMySQLDatabase
                                                    '-- createMySQLTables
      the returned handle --> GetSqlxIns / CloseDB
      main --> NewDB, defer CloseDB, GetSqlxIns --> Begin/Exec/NamedExec/
               NamedQuery/MustBegin/MustExec/Commit/Queryx on the pool

    ** Files of the development, in dependency order

    - [Prelude] (this file): Go byte strings as [list ascii]; the
      [outcome] type of a Go call (a value, an [error] carrying its
      message, or a run-time panic); the state-and-outcome monad [st]
      with its [let*] notation in [dao_scope]; the character classes
      of Go's RE2 syntax; the generic list lemmas the components
      share; the hint database [dao] and the development's tactics.
    - [GoStrings]: the functions of Go's [strings] package that the
      code calls ([ToLower], [Index], [HasPrefix], [Replace] with
      n = 1) and byte slicing [s[a:b]], on byte strings.
    - [Strconv]: [strconv.FormatInt], [strconv.ParseInt] (Go's digit
      loop with the [uint64] wrap written out; the round trip holds
      on all of [int64]) and [strconv.Quote], for what [main] prints
      and for scanning the [id] column.
    - [Regexp]: Go's [regexp] package for the three patterns of the
      code: a syntax of regular expressions, a backtracking matcher
      in continuation-passing style with capture groups (Go's
      leftmost-first semantics: the match that a backtracking engine
      finds first, at the leftmost start), [FindStringSubmatchIndex],
      [FindStringSubmatch] and [ReplaceAllString] (with its rule for
      empty matches, run with fuel and proved fuel-independent).
    - [Mask]: [dbURLRegex] and [MaskDBCred] (src/dao/dao.go).
    - [DSN]: [getDBName], the connection-string rewrite of
      [NewUserRegistryMySQL] and [getConnStr] (src/dao/mysql.go), and
      a reference scanner [db_name_scan] for [getDBName].
    - [World]: the environment the code acts on, as one record: files
      (with paths that exist but cannot be read, and paths that cannot
      be written), a clock in nanoseconds that [Sleep] advances, the
      time from which the MySQL server accepts connections, its
      databases, the driver's TLS registry, the [database/sql] pools
      (open or closed, with the idle and open limits and the limit
      rules of [SetMaxIdleConns]/[SetMaxOpenConns]) and a trace of the
      calls.  [M] is [st World].  PEM/X.509 decoding and the driver's
      DSN parser are the interfaces [CryptoLib] and [MySQLDriver].
    - [Config]: [DataBaseConfig], the defaults, [CheckFileIsExist] and
      [LoadDBConfig] (src/config/config.go); the path functions and
      the TOML codec are the interface [GoConfigLibs], and
      [TomlRoundTrip] is the law a codec promises.
    - [TLS]: [GetX509CertificateFromPEM], [checkCertDates] and
      [GetClientTLSConfig] (src/dao/dao.go lines 82-155).
    - [MySQL]: the handle record [SqlxDB], [createMySQLDatabase],
      [createMySQLTables], the ping retry loop [ping_loop] and
      [NewUserRegistryMySQL] (src/dao/mysql.go lines 15-75).
    - [DAO]: [NewDB], [CloseDB], [GetSqlxIns] (src/dao/dao.go lines
      18-80), and the handle's state machine of the specification
      ([spec_step]) with the uses of a handle as sequences of steps.
    - [Sql]: what [main] calls on the pool, as computations [dm] that
      end with an outcome or block for ever ([Blocked], with the
      state reached): a connection request waits while [MaxOpen]
      connections are in use (the pool counts them in
      [pool_in_use]), a transaction holds one until [Commit];
      [sqlx]'s [compileNamedQuery] and [bindMapArgs]; and a MySQL
      server that parses and runs the statement shapes of the demo on
      the tables of the world, with MySQL's error numbers.
    - [Demo]: [src/main.go]: the [Users] struct, its [%#v] line,
      [StructScan], [defer] (run on return and panic, not on
      [os.Exit]), the four blocks and [main].

    ** What the theorems show

    - Retry loop ([MySQL]): it ends (fuel [ping_fuel] = 12 is enough
      and more changes nothing); on an open pool it succeeds exactly
      when the server is up within 66 s of the first ping; against a
      server that never comes up it pings 12 times and sleeps 1..11 s
      (the specification says 10 retries and 55 s).
    - Bootstrap ([MySQL]): the successful run (database created,
      bootstrap pool closed, second pool with the configured limits);
      a failed run leaves the bootstrap pool open; with TLS on, the
      builder's error is returned before any pool is opened and a
      profile is registered as [custom]; [CREATE DATABASE IF NOT
      EXISTS] is idempotent.
    - Masking ([Mask]): [u:p@host] becomes [****:****@host] (the user
      is masked too, unlike the specification's example); strings
      without credentials are unchanged.
    - Data sources ([DSN]): [getDBName] equals, on every input, a
      direct left-to-right scan for the first [/name] or
      [dbname=name]; the name it extracts from a path-style and from
      a key-style data source; the connection string of a path-style
      data source; [getConnStr] replaces the name, [getDBName] reads
      back the new one, and the new name is a regexp template: [a$2b]
      is written as [a], the old name, [b].
    - Bounds ([MySQL]): every sleep of the retry loop lasts 1..11 s,
      so the [int64] product never wraps.
    - Configuration ([Config]): the first run writes the defaults; for
      every codec satisfying [TomlRoundTrip] a second load returns what
      the first returned and changes nothing.
    - TLS ([TLS]): expired and not-yet-valid certificates are rejected;
      a CA file without certificates makes the code panic on a nil
      error; a key without a certificate is ignored; without a CA file
      name the builder fails (after checking the client certificate,
      whose error comes first) and changes nothing.
    - Handle ([DAO]): every sequence of uses is a run of the
      specification's state machine labelled with the errors returned
      (a ready handle closes exactly when closing reports no error); a closed handle stays closed; closing twice is an
      error; [NewDB]'s result for each driver type (the [postgres]
      handle is flagged initialized but holds no pool); [NewDB] keeps
      the world well formed and returns a handle on an open pool or
      on none.
    - Demo ([Demo], [Sql]): from the world [NewDB] leaves, with an
      open pool, a running server and [max_open] other than 1, [main]
      returns, prints its 106 lines, leaves [users] holding exactly
      the 101 users it wrote whatever the tables held, and closes the
      pool last; with [max_open = 1] it blocks for ever at line 52
      (the transaction holds the only connection) without closing
      the pool; with the [postgres] stub or a failing [NewDB] it
      prints the error and returns.  A user inserted and read back
      with [SELECT *] and [StructScan] is the same value;
      [compileNamedQuery] adds one [?] per name.

    Each property with hypotheses has a witness that applies it in a
    concrete world, with concrete instances of the library interfaces
    ([demo_libs], [demo_crypto], [demo_driver]).

    ** Bounds and fuel

    - [ping_loop] takes fuel; 12 iterations are enough because the
      counter starts at 0, grows by one per failed ping, and the ping
      after it exceeds 10 returns.  [ReplaceAllString] runs with fuel
      [|s| + 2], enough because every iteration advances the search
      position by at least one byte.
    - Go's [int] fields are kept as [Z]: the code only copies them and
      compares them with constants, so no overflow arises.  The one
      [int64] product, the retry loop's sleep, is reduced with
      [wrap64] and proved never to wrap.
    - [FormatUint] takes fuel 20, the number of digits of the largest
      [uint64].  The parsers of [Sql] take the length of the
      statement as fuel, enough because each item consumes a byte.
    - [main]'s bulk loop is the [Fixpoint] [insert_loop] run for the
      source's 100 iterations.

    ** Not modelled

    - The libraries the code calls (regexp, strings, strconv, fmt, os,
      time, database/sql, sqlx, go-sql-driver/mysql, crypto) are given
      by the semantics above, not verified: the RE2 parser, Unicode
      case mapping, real PEM/X.509 parsing, networking and concurrency
      of the pool are outside the development.
    - The MySQL server runs only the statement shapes the code sends.
      It does not interpret column types, [NOT NULL] or table options
      (every column but the [AUTO_INCREMENT] one is required, as in
      the demo's table).  An [INSERT] naming the [AUTO_INCREMENT]
      column is answered as a syntax error.  [WHERE] compares text in
      the demo's collation ([utf8_general_ci] on ASCII).
    - The statements of a transaction take effect when they run.  A
      rollback when the process dies with the transaction open is not
      modelled; in [main] no statement of the bulk transaction can
      fail.
    - A query's rows are all read at once, and the connection goes
      back when the last one is read, as [main]'s loops do.
    - [log.Fatalln]'s time-stamp prefix is not part of the line
      recorded.  [strconv.Quote] copies bytes >= 0x80, which is right
      for valid UTF-8.

    ** Modelling conventions

    - A Go [string] is its sequence of bytes, [list ascii] (an
      [ascii] is an 8-bit byte).  The three patterns only test ASCII
      characters, and every class they use either accepts all bytes
      >= 0x80 or rejects all of them, so matching byte by byte gives
      the same match positions as Go's rune-by-rune matching on valid
      UTF-8.  [strings.ToLower] is modelled on ASCII input, which is
      Go's own fast path.
    - A Go [error] is its message; [fmt.Errorf] is byte
      concatenation, so the theorems state the exact message.
    - A run-time panic (a nil dereference) is the [Panic] outcome.
*)

From Stdlib Require Export String Ascii ZArith Lia.
From stdpp Require Export base list gmap strings.

Declare Scope dao_scope.
Delimit Scope dao_scope with dao.
Open Scope dao_scope.

(** ** Byte strings *)

Abbreviation bytes := (list ascii).

(** A Rocq string literal as the bytes of a Go string literal. *)
Definition str (s : string) : bytes := list_ascii_of_string s.
Arguments str : simpl never.

(** ** Outcomes of a Go call *)

Inductive outcome (A : Type) : Type :=
| Ok (a : A)
| Err (msg : bytes)
| Panic (msg : bytes).
Arguments Ok {A} a.
Arguments Err {A} msg.
Arguments Panic {A} msg.

Definition obind {A B} (o : outcome A) (f : A -> outcome B) : outcome B :=
  match o with
  | Ok a => f a
  | Err e => Err e
  | Panic p => Panic p
  end.

Notation "'let?' x ':=' o 'in' k" := (obind o (fun x => k))
  (at level 10, x name, o at level 100, k at level 200) : dao_scope.

(** ** The state-and-outcome monad

    [st S A] threads a state [S] (the world the Go code acts on) and
    returns an [outcome]: an error or a panic stops the computation
    with the state reached so far. *)

Definition st (S A : Type) : Type := S -> outcome A * S.

Section StateMonad.
Context {S : Type}.

Definition retS {A} (a : A) : st S A := fun w => (Ok a, w).
Definition errS {A} (e : bytes) : st S A := fun w => (Err e, w).
Definition panicS {A} (p : bytes) : st S A := fun w => (Panic p, w).
Definition getS : st S S := fun w => (Ok w, w).
Definition putS (w' : S) : st S unit := fun _ => (Ok tt, w').
Definition modifyS (f : S -> S) : st S unit := fun w => (Ok tt, f w).

(** A pure fallible step. *)
Definition liftO {A} (o : outcome A) : st S A := fun w => (o, w).

(** [fmt.Errorf] around the error of a call. *)
Definition wrapS {A} (f : bytes -> bytes) (m : st S A) : st S A :=
  fun w =>
    match m w with
    | (Err e, w') => (Err (f e), w')
    | r => r
    end.

Definition bindS {A B} (m : st S A) (k : A -> st S B) : st S B :=
  fun w =>
    match m w with
    | (Ok a, w') => k a w'
    | (Err e, w') => (Err e, w')
    | (Panic p, w') => (Panic p, w')
    end.

Lemma bindS_ok {A B} (m : st S A) (k : A -> st S B) w a w' :
  m w = (Ok a, w') -> bindS m k w = k a w'.
Proof. unfold bindS. by intros ->. Qed.

Lemma bindS_err {A B} (m : st S A) (k : A -> st S B) w e w' :
  m w = (Err e, w') -> bindS m k w = (Err e, w').
Proof. unfold bindS. by intros ->. Qed.

Lemma bindS_panic {A B} (m : st S A) (k : A -> st S B) w p w' :
  m w = (Panic p, w') -> bindS m k w = (Panic p, w').
Proof. unfold bindS. by intros ->. Qed.
Lemma wrapS_ok {A} f (m : st S A) w a w' :
  m w = (Ok a, w') -> wrapS f m w = (Ok a, w').
Proof. unfold wrapS. by intros ->. Qed.

Lemma wrapS_err {A} f (m : st S A) w e w' :
  m w = (Err e, w') -> wrapS f m w = (Err (f e), w').
Proof. unfold wrapS. by intros ->. Qed.

(** A computation that leaves the state as it found it. *)
Definition read_only {A} (m : st S A) : Prop := forall w, snd (m w) = w.

Lemma read_only_ret {A} (a : A) : read_only (retS a).
Proof. done. Qed.
Lemma read_only_err {A} e : read_only (A := A) (errS e).
Proof. done. Qed.
Lemma read_only_panic {A} e : read_only (A := A) (panicS e).
Proof. done. Qed.
Lemma read_only_liftO {A} (o : outcome A) : read_only (liftO o).
Proof. done. Qed.
Lemma read_only_get : read_only getS.
Proof. done. Qed.

Lemma read_only_bind {A B} (m : st S A) (k : A -> st S B) :
  read_only m -> (forall a, read_only (k a)) -> read_only (bindS m k).
Proof.
  intros Hm Hk w. unfold bindS. specialize (Hm w).
  destruct (m w) as [[a|e|e] w'] eqn:E; simpl in *; subst; [apply Hk|done|done].
Qed.

Lemma read_only_wrap {A} f (m : st S A) : read_only m -> read_only (wrapS f m).
Proof.
  intros Hm w. unfold wrapS. specialize (Hm w).
  destruct (m w) as [[a|e|e] w']; simpl in *; done.
Qed.

Lemma read_only_if {A} (b : bool) (m1 m2 : st S A) :
  read_only m1 -> read_only m2 -> read_only (if b then m1 else m2).
Proof. by destruct b. Qed.
Lemma bindS_Ok_inv {A B} (m : st S A) (k : A -> st S B) w b w2 :
  bindS m k w = (Ok b, w2) -> exists a w1, m w = (Ok a, w1) /\ k a w1 = (Ok b, w2).
Proof. unfold bindS. destruct (m w) as [[a|e|e] w1]; [eauto|done|done]. Qed.

Lemma wrapS_Ok_inv {A} f (m : st S A) w a w' :
  wrapS f m w = (Ok a, w') -> m w = (Ok a, w').
Proof. unfold wrapS. by destruct (m w) as [[|e|e] w1]. Qed.

(** A computation that keeps an invariant of the state, whatever its
    outcome. *)
Definition preserves {A} (P : S -> Prop) (m : st S A) : Prop :=
  forall w, P w -> P (snd (m w)).

Lemma preserves_ret {A} P (a : A) : preserves P (retS a).
Proof. by intros w. Qed.
Lemma preserves_err {A} P e : preserves (A := A) P (errS e).
Proof. by intros w. Qed.
Lemma preserves_panic {A} P e : preserves (A := A) P (panicS e).
Proof. by intros w. Qed.
Lemma preserves_liftO {A} P (o : outcome A) : preserves P (liftO o).
Proof. by intros w. Qed.

Lemma preserves_bind {A B} P (m : st S A) (k : A -> st S B) :
  preserves P m -> (forall a, preserves P (k a)) -> preserves P (bindS m k).
Proof.
  intros Hm Hk w Hw. unfold bindS. specialize (Hm w Hw).
  destruct (m w) as [[a|e|e] w']; simpl in *; [by apply Hk|done|done].
Qed.

Lemma preserves_wrap {A} P f (m : st S A) : preserves P m -> preserves P (wrapS f m).
Proof.
  intros Hm w Hw. unfold wrapS. specialize (Hm w Hw).
  destruct (m w) as [[a|e|e] w']; simpl in *; done.
Qed.

Lemma preserves_if {A} P (b : bool) (m1 m2 : st S A) :
  preserves P m1 -> preserves P m2 -> preserves P (if b then m1 else m2).
Proof. by destruct b. Qed.

Lemma preserves_read_only {A} P (m : st S A) : read_only m -> preserves P m.
Proof. intros Hm w Hw. by rewrite Hm. Qed.

End StateMonad.

Notation "'let*' x ':=' m 'in' k" := (bindS m (fun x => k))
  (at level 10, x name, m at level 100, k at level 200) : dao_scope.

(** ** Go's 64-bit integers

    An [int64] result is the mathematical one reduced into
    [[-2^63, 2^63)]. *)
Definition int64_modulus : Z := 18446744073709551616.
Definition int64_min : Z := -9223372036854775808.

Definition wrap64 (z : Z) : Z := (z - int64_min) mod int64_modulus + int64_min.

Lemma wrap64_small z : (int64_min <= z < int64_min + int64_modulus)%Z -> wrap64 z = z.
Proof.
  intros Hz. unfold wrap64. rewrite Z.mod_small by lia. lia.
Qed.

Lemma wrap64_range z : (int64_min <= wrap64 z < int64_min + int64_modulus)%Z.
Proof.
  unfold wrap64. pose proof (Z.mod_pos_bound (z - int64_min) int64_modulus).
  unfold int64_modulus in *. lia.
Qed.

(** ** Character classes of Go's RE2 syntax *)

Definition ch_tab : ascii := ascii_of_nat 9.
Definition ch_nl : ascii := ascii_of_nat 10.
Definition ch_ff : ascii := ascii_of_nat 12.
Definition ch_cr : ascii := ascii_of_nat 13.

(** [\s] is the Perl class [[\t\n\f\r ]] (RE2 leaves out [\v]). *)
Definition is_space (c : ascii) : bool :=
  (c =? ch_tab)%char || (c =? ch_nl)%char || (c =? ch_ff)%char
  || (c =? ch_cr)%char || (c =? " ")%char.

Definition not_space (c : ascii) : bool := negb (is_space c).

(** [.] matches any character but a newline. *)
Definition not_newline (c : ascii) : bool := negb (c =? ch_nl)%char.

Definition ascii_between (lo hi c : ascii) : bool :=
  (nat_of_ascii lo <=? nat_of_ascii c) && (nat_of_ascii c <=? nat_of_ascii hi).

Definition is_upper (c : ascii) : bool := ascii_between "A" "Z" c.

(** ** Generic lists *)

Section Lists.
Context {A : Type}.

(** Length of the longest prefix whose elements satisfy [p]. *)
Fixpoint span (p : A -> bool) (l : list A) : nat :=
  match l with
  | [] => 0
  | x :: l' => if p x then S (span p l') else 0
  end.

Lemma span_le p l : span p l <= length l.
Proof. induction l as [|x l IH]; simpl; [lia|]. destruct (p x); simpl; lia. Qed.

Lemma span_take_all p l i x :
  i < span p l -> l !! i = Some x -> p x = true.
Proof.
  revert i. induction l as [|y l IH]; intros i Hi Hl; simpl in *; [lia|].
  destruct (p y) eqn:Hy; [|lia].
  destruct i as [|i]; simpl in Hl; [by simplify_eq|].
  apply (IH i); [lia|done].
Qed.

Lemma span_stop p l x :
  l !! span p l = Some x -> p x = false.
Proof.
  induction l as [|y l IH]; simpl; [done|].
  destruct (p y) eqn:Hy; simpl; [exact IH|]. intros; by simplify_eq.
Qed.

Lemma span_app_all p l1 l2 :
  forallb p l1 = true -> span p (l1 ++ l2) = length l1 + span p l2.
Proof.
  induction l1 as [|x l1 IH]; simpl; [done|].
  intros [-> H]%andb_prop. by rewrite IH.
Qed.

Lemma span_app_stop p l1 x l2 :
  forallb p l1 = true -> p x = false -> span p (l1 ++ x :: l2) = length l1.
Proof.
  intros H1 Hx. rewrite span_app_all by done. simpl. rewrite Hx. lia.
Qed.

Lemma span_drop (p : A -> bool) t e :
  e <= span p t -> span p (drop e t) = span p t - e.
Proof.
  revert e. induction t as [|a t IH]; intros e; simpl; [intros; rewrite drop_nil; simpl; lia|].
  destruct (p a) eqn:Hp; simpl.
  2:{ intros He. replace e with 0 by lia. simpl. by rewrite Hp. }
  destruct e as [|e]; simpl; [intros; rewrite Hp; lia|]. intros. apply IH. lia.
Qed.

(** [prefixb w l]: the list [l] starts with [w]. *)
Context `{EqDecision A}.

Fixpoint prefixb (w l : list A) : bool :=
  match w, l with
  | [], _ => true
  | a :: w', b :: l' => bool_decide (a = b) && prefixb w' l'
  | _ :: _, [] => false
  end.

Lemma prefixb_spec w l : prefixb w l = true <-> exists t, l = w ++ t.
Proof.
  revert l. induction w as [|a w IH]; intros [|b l]; simpl.
  - split; eauto.
  - split; eauto.
  - split; [done|]. intros [t Ht]. done.
  - rewrite andb_true_iff, bool_decide_eq_true, IH. split.
    + intros [-> [t ->]]. eauto.
    + intros [t Ht]. simplify_eq. eauto.
Qed.

Lemma prefixb_app w t : prefixb w (w ++ t) = true.
Proof. apply prefixb_spec. eauto. Qed.

(** Whether [w] is a prefix depends only on the first [|w|] elements. *)
Lemma prefixb_long w l y : length w <= length l -> prefixb w (l ++ y) = prefixb w l.
Proof.
  revert l. induction w as [|a w IH]; intros [|b l] Hl; simpl in *; try done; [lia|].
  by rewrite IH by lia.
Qed.
End Lists.


(** ** More list lemmas *)

Section MoreLists.
Context {A : Type}.

Lemma drop_cons_lookup (t s' : list A) i b : drop i t = b :: s' -> t !! i = Some b.
Proof. intros E. rewrite <- (Nat.add_0_r i), <- lookup_drop, E. done. Qed.

Lemma drop_cons (t s' : list A) i b :
  drop i t = b :: s' -> t !! i = Some b /\ drop (S i) t = s'.
Proof.
  intros E. split; [by eapply drop_cons_lookup|].
  by rewrite <- Nat.add_1_r, <- drop_drop, E.
Qed.

Lemma forallb_lookup (f : A -> bool) l i x :
  forallb f l = true -> l !! i = Some x -> f x = true.
Proof.
  intros H Hi. eapply forallb_forall; [exact H|].
  apply list_elem_of_In, list_elem_of_lookup. eauto.
Qed.

Lemma lookup_span_lt (p : A -> bool) t i x :
  i <= span p t -> t !! i = Some x -> p x = true -> i < span p t.
Proof.
  intros Hi Ht Hx. destruct (decide (i = span p t)) as [->|]; [|lia].
  apply span_stop in Ht. congruence.
Qed.

Lemma elem_of_drop_l (x : A) (t : list A) n : x ∈ drop n t -> x ∈ t.
Proof.
  revert n. induction t as [|a t IH]; intros [|n]; simpl; try done.
  intros H. apply list_elem_of_further, (IH n), H.
Qed.

Lemma drop_app_split (w1 w2 s : list A) n :
  s = w1 ++ w2 -> n = length w1 -> drop n s = w2.
Proof. intros -> ->. apply drop_app_length. Qed.

Lemma prefixb_app_sep `{EqDecision A} (w u t : list A) (a : A) :
  a ∉ w -> a ∉ u -> prefixb (w ++ [a]) (u ++ a :: t) = true -> u = w.
Proof.
  revert u. induction w as [|c w IH]; intros [|b u] Hw Hu; simpl; try done.
  - rewrite andb_true_r. intros ?%bool_decide_eq_true. subst. set_solver.
  - intros [?%bool_decide_eq_true _]%andb_prop. subst. set_solver.
  - intros [?%bool_decide_eq_true H]%andb_prop. subst. f_equal.
    apply IH; [set_solver|set_solver|done].
Qed.

Lemma not_in_lookup (x : A) (l : list A) i : x ∉ l -> l !! i <> Some x.
Proof. intros H Hi. apply H, list_elem_of_lookup. eauto. Qed.

(** A string that does not contain [a] occurs in [l1 ++ a :: l2] only
    inside [l1]. *)
Lemma prefixb_before_sep `{EqDecision A} (w l1 l2 : list A) a :
  a ∉ w -> prefixb w (l1 ++ a :: l2) = true -> prefixb w l1 = true.
Proof.
  revert l1. induction w as [|b w IH]; intros [|c l1] Ha; simpl; try done.
  - intros [?%bool_decide_eq_true _]%andb_prop. subst. set_solver.
  - intros [?%bool_decide_eq_true H]%andb_prop. subst.
    rewrite bool_decide_true by done. simpl. apply IH; [set_solver|done].
Qed.

End MoreLists.

(** Close goals about list lengths and about re-associated appends. *)
Ltac list_len := repeat (rewrite ?length_app; simpl); lia.
Ltac list_app := simpl; rewrite <- ?app_assoc; simpl; rewrite <- ?app_assoc; reflexivity.

(** ** Automation *)

Create HintDb dao discriminated.
Create Rewrite HintDb dao_rw.
#[export] Hint Resolve span_le prefixb_app : dao.
#[export] Hint Resolve read_only_ret read_only_err read_only_panic read_only_liftO
  read_only_get read_only_wrap read_only_if : dao.

(** Prove that a monadic program only reads its state. *)
#[export] Hint Resolve preserves_ret preserves_err preserves_panic preserves_liftO
  preserves_wrap preserves_if : dao.

(** Prove that a monadic program keeps an invariant, from the
    invariant lemmas of what it calls (in the hint database [dao]). *)
Ltac solve_preserves :=
  repeat first
    [ solve [eauto with dao]
    | apply preserves_bind; [|intros ?]
    | apply preserves_if
    | apply preserves_wrap
    | progress (eauto with dao) ].

Ltac solve_read_only :=
  repeat first
    [ apply read_only_bind; [|intros ?]
    | apply read_only_if
    | apply read_only_wrap
    | progress (auto with dao) ].
#[export] Hint Rewrite @span_app_all @span_app_stop using done : dao_rw.

(** Evaluate a concrete run completely. *)
Ltac run := vm_compute; reflexivity.

(** Split on the outcome of a call and on the state it returns. *)
Ltac case_outcome o :=
  let r := fresh "r" in
  let w := fresh "w" in
  let E := fresh "E" in
  destruct o as [[r|r|r] w] eqn:E.
