(* ===== verification/GoStrings.v ===== *)
(** * Go's [strings] package on byte strings

    The functions of Go's standard [strings] package that
    [src/dao/dao.go] and [src/dao/mysql.go] call, written from their
    Go definitions on byte strings, with the lemmas the masking and
    data-source proofs use: [Index] and [Replace] with a count of 1
    (used by [MaskDBCred]), [ToLower] (used by [getDBName]) and byte
    slicing [s[a:b]]. *)

From S2P Require Import Prelude.

(** [s[a:b]]; the code only slices within bounds (Go panics
    otherwise). *)
Definition slice (s : bytes) (a b : nat) : bytes := take (b - a) (drop a s).

(** The first position at or after [i] where [sub] occurs in [s]. *)
Fixpoint find_from (sub s : bytes) (i : nat) : option nat :=
  if prefixb sub s then Some i
  else match s with
       | [] => None
       | _ :: s' => find_from sub s' (S i)
       end.

Definition find (sub s : bytes) : option nat := find_from sub s 0.

(** [strings.Index(s, sub)]: the first index, or -1. *)
Definition Index (s sub : bytes) : Z :=
  match find sub s with
  | Some i => Z.of_nat i
  | None => (-1)%Z
  end.

(** [strings.HasPrefix(s, prefix)]. *)
Definition HasPrefix (s pre : bytes) : bool := prefixb pre s.

(** [strings.Replace(s, old, new, 1)]: if [old = new] or [old] does
    not occur, [s]; otherwise the first occurrence is replaced (an
    empty [old] matches at the start). *)
Definition Replace1 (s old new : bytes) : bytes :=
  if bool_decide (old = new) then s
  else match find old s with
       | None => s
       | Some j => take j s ++ new ++ drop (j + length old) s
       end.

(** [strings.ToLower] on ASCII input: [A]-[Z] become [a]-[z]. *)
Definition lower_byte (c : ascii) : ascii :=
  if is_upper c then ascii_of_nat (nat_of_ascii c + 32) else c.

Definition ToLower (s : bytes) : bytes := map lower_byte s.

(** ** Lemmas *)

Lemma find_from_shift sub s i :
  find_from sub s i = (fun j => j + i) <$> find sub s.
Proof.
  unfold find. revert i. induction s as [|c s IH]; intros i; simpl.
  - by destruct (prefixb sub []).
  - destruct (prefixb sub (c :: s)); [done|].
    rewrite (IH (S i)), (IH 1). destruct (find_from sub s 0); simpl; f_equal; lia.
Qed.

Lemma find_prefix sub s : prefixb sub s = true -> find sub s = Some 0.
Proof. unfold find. destruct s; simpl; by intros ->. Qed.

Lemma find_cons_skip sub c s :
  prefixb sub (c :: s) = false -> find sub (c :: s) = S <$> find sub s.
Proof.
  unfold find. simpl. intros ->. rewrite find_from_shift.
  unfold find. destruct (find_from sub s 0); simpl; [f_equal; lia|done].
Qed.

(** An occurrence found by [find] is an occurrence. *)
Lemma find_some sub s j :
  find sub s = Some j -> s = take j s ++ sub ++ drop (j + length sub) s.
Proof.
  revert j. induction s as [|c s IH]; intros j.
  - unfold find. simpl. destruct (prefixb sub []) eqn:E; [|done].
    intros [= <-]. apply prefixb_spec in E as [t Ht]. destruct sub; simpl in *; done.
  - destruct (prefixb sub (c :: s)) eqn:E.
    + rewrite find_prefix by done. intros [= <-].
      apply prefixb_spec in E as [t Ht]. by rewrite Ht, Nat.add_0_l, drop_app_length.
    + rewrite find_cons_skip by done.
      destruct (find sub s) as [j'|] eqn:Ej; simpl; [|done].
      intros [= <-]. simpl. f_equal. by apply IH.
Qed.

Lemma find_none_app_l sub s1 s2 :
  (forall i, i < length s1 -> prefixb sub (drop i (s1 ++ s2)) = false) ->
  find sub (s1 ++ s2) = (fun j => length s1 + j) <$> find sub s2.
Proof.
  induction s1 as [|c s1 IH]; intros H; simpl.
  - by destruct (find sub s2).
  - rewrite find_cons_skip by (apply (H 0); simpl; lia).
    rewrite IH; [by destruct (find sub s2)|].
    intros i Hi. apply (H (S i)). simpl; lia.
Qed.

Lemma Index_zero s sub : Index s sub = 0%Z <-> prefixb sub s = true.
Proof.
  unfold Index. split.
  - destruct s as [|c s].
    + unfold find. simpl. by destruct (prefixb sub []).
    + destruct (prefixb sub (c :: s)) eqn:E; [done|].
      rewrite find_cons_skip by done. destruct (find sub s); simpl; lia.
  - intros H. by rewrite find_prefix.
Qed.

(** [Replace1] of a prefix rewrites the head of the string. *)
Lemma Replace1_prefix s old new :
  prefixb old s = true -> Replace1 s old new = new ++ drop (length old) s.
Proof.
  intros H. unfold Replace1. rewrite find_prefix by done. simpl.
  case_bool_decide as E; [|done].
  subst. apply prefixb_spec in H as [t ->]. by rewrite drop_app_length.
Qed.

Lemma Replace1_app_skip s1 s2 old new :
  (forall i, i < length s1 -> prefixb old (drop i (s1 ++ s2)) = false) ->
  Replace1 (s1 ++ s2) old new = s1 ++ Replace1 s2 old new.
Proof.
  intros H. unfold Replace1. case_bool_decide; [done|].
  rewrite find_none_app_l by done.
  destruct (find old s2) as [j|]; simpl; [|done].
  rewrite take_app_add, <- Nat.add_assoc, drop_app_add. by rewrite <- app_assoc.
Qed.

Lemma find_complete (w t : bytes) n :
  n <= length t -> prefixb w (drop n t) = true -> is_Some (find w t).
Proof.
  revert n. induction t as [|a t IH]; intros n Hn Hp.
  - unfold find. simpl in *. replace n with 0 in Hp by lia. simpl in Hp. by rewrite Hp.
  - destruct (prefixb w (a :: t)) eqn:E; [by rewrite find_prefix|].
    rewrite find_cons_skip by done. destruct n as [|n]; [simpl in Hp; congruence|].
    simpl in Hn, Hp. destruct (IH n) as [j Hj]; [lia|done|]. rewrite Hj. by eexists.
Qed.

Lemma find_some_prefix w s j :
  find w s = Some j -> j <= length s /\ prefixb w (drop j s) = true.
Proof.
  revert j. induction s as [|c s IH]; intros j.
  - unfold find. simpl. destruct (prefixb w []) eqn:E; [|done]. intros [= <-]. done.
  - destruct (prefixb w (c :: s)) eqn:E.
    + rewrite find_prefix by done. intros [= <-]. simpl. split; [lia|done].
    + rewrite find_cons_skip by done. destruct (find w s) as [j'|] eqn:Ej; [|done].
      intros [= <-]. destruct (IH j') as [? ?]; [done|]. simpl. split; [lia|done].
Qed.

Lemma find_drop_some w t i : is_Some (find w (drop i t)) -> is_Some (find w t).
Proof.
  intros [j (Hj & Hp)%find_some_prefix]. rewrite drop_drop in Hp.
  rewrite length_drop in Hj.
  destruct (decide (i <= length t)).
  - apply (find_complete _ _ (i + j)); [lia|done].
  - rewrite drop_ge in Hp by lia. apply (find_complete _ _ (length t)); [lia|].
    by rewrite drop_ge by lia.
Qed.

Lemma slice_app3 (w1 w2 w3 : bytes) s a b :
  s = w1 ++ w2 ++ w3 -> a = length w1 -> b = length w1 + length w2 ->
  slice s a b = w2.
Proof.
  intros -> -> ->. unfold slice. rewrite drop_app_length.
  replace (length w1 + length w2 - length w1) with (length w2) by lia.
  by rewrite take_app_length.
Qed.

(** A byte string whose first byte is [b] does not start with a
    string whose first byte differs. *)
Lemma prefixb_head_ne (w l : bytes) a b :
  head w = Some a -> a <> b -> prefixb w (b :: l) = false.
Proof. destruct w as [|a' w]; simpl; [done|]. intros [= ->] Hne. by rewrite bool_decide_false. Qed.

#[export] Hint Rewrite Replace1_prefix using done : dao_rw.
