(* ===== verification/Strconv.v ===== *)
(** * Go's [strconv] and the [fmt] verbs the demo uses

    Decimal printing and parsing of 64-bit integers
    ([strconv.FormatInt], [strconv.ParseInt] in base 10, the
    conversion [database/sql] applies when it scans a column into an
    [int64]) and Go string quoting ([strconv.Quote], what [%q] and
    [%#v] print for a string).  [ParseInt] follows Go's loop digit by
    digit, with the [uint64] wrap-around written out; the round trip
    [ParseInt (FormatInt z) = Ok z] holds on the whole [int64]
    range. *)

From S2P Require Import Prelude.

(** ** [strconv.FormatInt(z, 10)] *)

Definition digit (d : Z) : ascii := ascii_of_nat (48 + Z.to_nat d).

(** The decimal digits of [n >= 0], most significant first; the fuel
    bounds the number of digits and 20 is enough for every [uint64]. *)
Fixpoint digits_of (fuel : nat) (n : Z) : bytes :=
  match fuel with
  | O => []
  | S f => if (n <? 10)%Z then [digit n] else digits_of f (n / 10) ++ [digit (n mod 10)]
  end.

Definition FormatUint (n : Z) : bytes := digits_of 20 n.

Definition FormatInt (z : Z) : bytes :=
  if (z <? 0)%Z then "-"%char :: FormatUint (- z) else FormatUint z.

(** ** [strconv.ParseInt(s, 10, 64)] *)

Definition uint64_max : Z := 18446744073709551615.
Definition err_syntax_num : bytes := str "invalid syntax".
Definition err_range : bytes := str "value out of range".

(** The value of a decimal digit byte. *)
Definition digit_val (c : ascii) : option Z :=
  if ascii_between "0" "9" c then Some (Z.of_nat (nat_of_ascii c) - 48)%Z else None.

(** One iteration of [ParseUint]'s loop: [cutoff = maxUint64/10 + 1];
    the sum is taken modulo 2^64 as Go's [uint64] does and a wrap is
    caught by [n1 < n]. *)
Definition parse_step (n : Z) (c : ascii) : outcome Z :=
  match digit_val c with
  | None => Err err_syntax_num
  | Some d =>
      if (uint64_max / 10 + 1 <=? n)%Z then Err err_range
      else
        let n := (n * 10)%Z in
        let n1 := ((n + d) mod 18446744073709551616)%Z in
        if (n1 <? n)%Z || (uint64_max <? n1)%Z then Err err_range else Ok n1
  end.

Fixpoint parse_digits (s : bytes) (n : Z) : outcome Z :=
  match s with
  | [] => Ok n
  | c :: s' => let? n1 := parse_step n c in parse_digits s' n1
  end.

(** [strconv.ParseUint(s, 10, 64)] *)
Definition ParseUint (s : bytes) : outcome Z :=
  match s with
  | [] => Err err_syntax_num
  | _ => parse_digits s 0
  end.

(** [strconv.ParseInt(s, 10, 64)]: the error is the [NumError]'s
    [Err], which is what [database/sql] reports. *)
Definition ParseInt (s : bytes) : outcome Z :=
  match s with
  | [] => Err err_syntax_num
  | c :: s' =>
      let '(neg, u) := if (c =? "+")%char then (false, s')
                       else if (c =? "-")%char then (true, s') else (false, s) in
      let? un := ParseUint u in
      if negb neg && (2 ^ 63 <=? un)%Z then Err err_range
      else if neg && (2 ^ 63 <? un)%Z then Err err_range
      else Ok (if neg then - un else un)%Z
  end.

(** ** [strconv.Quote] *)

Definition ch_dq : ascii := ascii_of_nat 34.   (* the double quote *)

Definition hex_digit (d : nat) : ascii :=
  if d <? 10 then ascii_of_nat (48 + d) else ascii_of_nat (87 + d).

(** One byte of a quoted string.  Bytes of multi-byte UTF-8
    characters are copied: Go keeps printable characters as they
    are. *)
Definition quote_byte (c : ascii) : bytes :=
  let n := nat_of_ascii c in
  if (c =? ch_dq)%char || (c =? "\")%char then ["\"%char; c]
  else if (32 <=? n) && (n <? 127) then [c]
  else if 128 <=? n then [c]
  else if n =? 7 then str "\a" else if n =? 8 then str "\b"
  else if n =? 12 then str "\f" else if n =? 10 then str "\n"
  else if n =? 13 then str "\r" else if n =? 9 then str "\t"
  else if n =? 11 then str "\v"
  else ["\"%char; "x"%char; hex_digit (n / 16); hex_digit (n mod 16)].

Definition Quote (s : bytes) : bytes := ch_dq :: flat_map quote_byte s ++ [ch_dq].

(** ** Lemmas *)

Lemma parse_digits_app s1 s2 n :
  parse_digits (s1 ++ s2) n = obind (parse_digits s1 n) (parse_digits s2).
Proof.
  revert n. induction s1 as [|c s1 IH]; intros n; simpl; [done|].
  destruct (parse_step n c); simpl; auto.
Qed.

Lemma digit_val_digit d : (0 <= d < 10)%Z -> digit_val (digit d) = Some d.
Proof.
  intros Hd. unfold digit_val, digit, ascii_between.
  rewrite nat_ascii_embedding by lia.
  change (nat_of_ascii "0") with 48. change (nat_of_ascii "9") with 57.
  rewrite (proj2 (Nat.leb_le _ _)), (proj2 (Nat.leb_le _ _)) by lia. simpl. f_equal. lia.
Qed.

Lemma parse_step_digit n d :
  (0 <= n)%Z -> (0 <= d < 10)%Z -> (n * 10 + d <= uint64_max)%Z ->
  parse_step n (digit d) = Ok (n * 10 + d)%Z.
Proof.
  intros Hn Hd Hb. unfold parse_step. rewrite digit_val_digit by done.
  unfold uint64_max in *.
  change (18446744073709551615 / 10 + 1)%Z with 1844674407370955162%Z.
  rewrite (proj2 (Z.leb_gt _ _)) by lia.
  rewrite Z.mod_small by lia.
  rewrite (proj2 (Z.ltb_ge _ _)), (proj2 (Z.ltb_ge _ _)) by lia. done.
Qed.

Lemma digits_of_parse f n :
  (0 <= n < 10 ^ Z.of_nat f)%Z -> (n <= uint64_max)%Z -> (1 <= f)%nat ->
  parse_digits (digits_of f n) 0 = Ok n.
Proof.
  revert n. induction f as [|f IH]; intros n Hn Hb Hf; [lia|]. cbn [digits_of].
  destruct (n <? 10)%Z eqn:E.
  - apply Z.ltb_lt in E. cbn [parse_digits].
    rewrite (parse_step_digit 0 n) by lia. cbn [obind parse_digits]. f_equal; lia.
  - apply Z.ltb_ge in E. rewrite parse_digits_app.
    assert (1 <= f)%nat.
    { destruct f; [|lia]. simpl in Hn. lia. }
    pose proof (Z.div_mod n 10). pose proof (Z.mod_pos_bound n 10).
    rewrite (IH (n / 10)%Z); [cbn [obind parse_digits]|..|lia].
    + rewrite parse_step_digit by (lia || (apply Z.div_pos; lia)).
      cbn [obind parse_digits]. f_equal; lia.
    + split; [apply Z.div_pos; lia|]. apply Z.div_lt_upper_bound; [lia|].
      rewrite Nat2Z.inj_succ, Z.pow_succ_r in Hn by lia. lia.
    + apply Z.div_le_upper_bound; lia.
Qed.

Lemma FormatUint_parse n : (0 <= n <= uint64_max)%Z -> parse_digits (FormatUint n) 0 = Ok n.
Proof. intros Hn. apply digits_of_parse; unfold uint64_max in *; simpl; lia. Qed.

Lemma digits_of_head f n :
  (1 <= f)%nat -> (0 <= n)%Z -> exists d s, digits_of f n = digit d :: s /\ (0 <= d < 10)%Z.
Proof.
  revert n. induction f as [|f IH]; intros n Hf Hn; [lia|]. simpl.
  destruct (n <? 10)%Z eqn:E.
  - apply Z.ltb_lt in E. exists n, []. split; [done|lia].
  - apply Z.ltb_ge in E. destruct f as [|f].
    + exists (n mod 10)%Z, []. split; [done|]. apply Z.mod_pos_bound. lia.
    + destruct (IH (n / 10)%Z) as (d & s & -> & Hd); [lia|apply Z.div_pos; lia|].
      by exists d, (s ++ [digit (n mod 10)]).
Qed.

Lemma digit_not_sign d : (0 <= d < 10)%Z -> (digit d =? "+")%char = false /\ (digit d =? "-")%char = false.
Proof.
  intros Hd. pose proof (digit_val_digit d Hd) as H.
  split; apply Ascii.eqb_neq; intros E; rewrite E in H; discriminate.
Qed.

(** [ParseInt] reads back what [FormatInt] prints, on the whole
    [int64] range. *)
Lemma ParseInt_FormatInt z :
  (int64_min <= z < int64_min + int64_modulus)%Z -> ParseInt (FormatInt z) = Ok z.
Proof.
  unfold int64_min, int64_modulus. intros Hz. unfold FormatInt.
  destruct (z <? 0)%Z eqn:E; [apply Z.ltb_lt in E|apply Z.ltb_ge in E];
    [pose proof (FormatUint_parse (- z)) as Hp; destruct (digits_of_head 20 (- z)) as (d & s & Hs & Hd)
    |pose proof (FormatUint_parse z) as Hp; destruct (digits_of_head 20 z) as (d & s & Hs & Hd)];
    try lia; unfold FormatUint in *; rewrite Hs in *; unfold uint64_max in Hp.
  - cbn [ParseInt]. change ("-" =? "+")%char with false. change ("-" =? "-")%char with true.
    cbn beta iota delta [ParseUint]. rewrite Hp by lia. cbn [obind negb andb].
    rewrite (proj2 (Z.ltb_ge _ _)) by lia. f_equal. lia.
  - destruct (digit_not_sign d Hd) as [H1 H2]. cbn [ParseInt]. rewrite H1, H2.
    cbn beta iota delta [ParseUint]. rewrite Hp by lia. cbn [obind negb andb].
    rewrite (proj2 (Z.leb_gt _ _)) by lia. done.
Qed.
