(* ===== verification/Regexp.v ===== *)
(** * Go's [regexp] package, for the patterns of the code

    A regular expression is compiled by hand from its Go source text
    into the syntax [re] below (Go's parser is not modelled).  The
    matcher [m] is a backtracking matcher in continuation-passing
    style: alternatives, optional parts and greedy stars are tried in
    the order a backtracking engine tries them, so the first success
    is the match Go's leftmost-first semantics reports, and capture
    groups record the positions of the successful path.  [search_from]
    tries the start positions from left to right.  On top of it,
    [FindStringSubmatchIndex], [FindStringSubmatch] and
    [ReplaceAllString] follow the Go library functions of those
    names; [ReplaceAllString] is Go's [replaceAll] loop, run with fuel,
    and proved independent of the fuel once it is large enough, with
    the template expansion of [Regexp.expand]. *)

From S2P Require Import Prelude GoStrings.

(** ** Syntax *)

Inductive re : Type :=
| RChar (c : ascii)                 (* a literal byte *)
| RClass (p : ascii -> bool)        (* one byte of a class: [.], [\S], [[^/?]] *)
| RSeq (r1 r2 : re)
| RAlt (r1 r2 : re)                 (* [r1|r2], [r1] tried first *)
| ROpt (r : re)                     (* [r?], greedy *)
| RStar (p : ascii -> bool)         (* [[class]*], greedy *)
| RGroup (n : nat) (r : re).        (* capture group number [n] *)

(** A literal string, and [x+] for a class [x] (which Go matches as
    [x x*]). *)
Fixpoint RLit (w : bytes) : re :=
  match w with
  | [] => RStar (fun _ => false)   (* matches the empty string *)
  | a :: w' => RSeq (RChar a) (RLit w')
  end.

Definition RPlus (p : ascii -> bool) : re := RSeq (RClass p) (RStar p).

(** A compiled [*regexp.Regexp]: the program and [NumSubexp]. *)
Record regexp := Regexp { re_prog : re; re_nsub : nat }.

(** ** The backtracking matcher *)

(** Capture slots: slot [n] holds the span of group [n]. *)
Abbreviation caps := (list (option (nat * nat))).

Abbreviation result := (option (nat * caps)).

Notation "a 'orelse' b" :=
  (match a with Some x => Some x | None => b end)
  (at level 50, left associativity) : dao_scope.

Section Matcher.
(** [k pos s c]: the rest of the match, from position [pos] with the
    remaining input [s] and the captures [c]. *)
Abbreviation cont := (nat -> bytes -> caps -> result).

Fixpoint star_m (p : ascii -> bool) (pos : nat) (s : bytes) (c : caps)
    (k : cont) : result :=
  match s with
  | a :: s' =>
      if p a then star_m p (S pos) s' c k orelse k pos s c
      else k pos s c
  | [] => k pos s c
  end.

Fixpoint m (r : re) (pos : nat) (s : bytes) (c : caps) (k : cont) : result :=
  match r with
  | RChar a =>
      match s with
      | b :: s' => if (a =? b)%char then k (S pos) s' c else None
      | [] => None
      end
  | RClass p =>
      match s with
      | b :: s' => if p b then k (S pos) s' c else None
      | [] => None
      end
  | RSeq r1 r2 => m r1 pos s c (fun pos' s' c' => m r2 pos' s' c' k)
  | RAlt r1 r2 => m r1 pos s c k orelse m r2 pos s c k
  | ROpt r1 => m r1 pos s c k orelse k pos s c
  | RStar p => star_m p pos s c k
  | RGroup n r1 =>
      m r1 pos s c (fun pos' s' c' => k pos' s' (<[n := Some (pos, pos')]> c'))
  end.
End Matcher.

Definition accept : nat -> bytes -> caps -> result := fun e _ c => Some (e, c).

Definition init_caps (re : regexp) : caps := replicate (S (re_nsub re)) None.

(** Leftmost start first: the match found at the first position where
    one exists.  [pos] is the absolute position of [s]. *)
Fixpoint search_from (re : regexp) (pos : nat) (s : bytes)
    : option (nat * nat * caps) :=
  match m (re_prog re) pos s (init_caps re) accept with
  | Some (e, c) => Some (pos, e, c)
  | None =>
      match s with
      | [] => None
      | _ :: s' => search_from re (S pos) s'
      end
  end.

(** [re.FindStringSubmatchIndex(s)]: slot 0 is the whole match. *)
Definition FindStringSubmatchIndex (re : regexp) (s : bytes) : option caps :=
  match search_from re 0 s with
  | Some (a, b, c) => Some (<[0 := Some (a, b)]> c)
  | None => None
  end.

Definition submatch_text (s : bytes) (o : option (nat * nat)) : bytes :=
  match o with
  | Some (a, b) => slice s a b
  | None => []
  end.

(** [re.FindStringSubmatch(s)]: [nil] (here [None]) without a match,
    otherwise [1 + NumSubexp] strings, [""] for a group that did not
    take part. *)
Definition FindStringSubmatch (re : regexp) (s : bytes) : option (list bytes) :=
  map (submatch_text s) <$> FindStringSubmatchIndex re s.

(** ** Templates: [Regexp.expand]

    [$$] is a [$]; [$name] and [${name}] insert the text of group
    [name] when the name is a number (at most 10^8, without leading
    zero) of a group that took part, and nothing otherwise, since the
    patterns of the code have no named groups; a [$] followed by no
    name is kept.  Names are made of ASCII letters, digits and [_]
    (Go also accepts non-ASCII letters; the code's templates are
    ASCII). *)

(** [strings.Cut(template, "$")] *)
Fixpoint cut_dollar (t : bytes) : option (bytes * bytes) :=
  match t with
  | [] => None
  | c :: t' =>
      if (c =? "$")%char then Some ([], t')
      else (fun '(b, a) => (c :: b, a)) <$> cut_dollar t'
  end.

Definition name_byte (c : ascii) : bool :=
  ascii_between "a" "z" c || ascii_between "A" "Z" c || ascii_between "0" "9" c
  || (c =? "_")%char.

(** The number loop of [extract]. *)
Fixpoint parse_num_from (num : Z) (name : bytes) : Z :=
  match name with
  | [] => num
  | c :: name' =>
      if negb (ascii_between "0" "9" c) || (10^8 <=? num)%Z then (-1)%Z
      else parse_num_from (num * 10 + (Z.of_nat (nat_of_ascii c) - 48))%Z name'
  end.

Definition parse_num (name : bytes) : Z :=
  if bool_decide (head name = Some "0"%char) && (1 <? length name) then (-1)%Z
  else parse_num_from 0 name.

(** [extract(str)]: the name after a [$], its number or -1, and the
    rest of the template. *)
Definition extract (str : bytes) : option (bytes * Z * bytes) :=
  match str with
  | [] => None
  | c0 :: _ =>
      let brace := (c0 =? "{")%char in
      let s := if brace then drop 1 str else str in
      let i := span name_byte s in
      if i =? 0 then None
      else if brace && negb (bool_decide (s !! i = Some "}"%char)) then None
      else Some (take i s, parse_num (take i s), drop (if brace then S i else i) s)
  end.

(** The text of group [num] of a match, if it took part. *)
Definition group_text (src : bytes) (mt : caps) (num : Z) : bytes :=
  if (0 <=? num)%Z then
    match mt !! Z.to_nat num with
    | Some (Some (a, b)) => slice src a b
    | _ => []
    end
  else [].

Fixpoint expand_loop (fuel : nat) (src : bytes) (mt : caps) (template : bytes) : bytes :=
  match fuel with
  | O => template
  | S fuel' =>
      match cut_dollar template with
      | None => template
      | Some (before, after) =>
          before ++
          match after with
          | "$"%char :: after' => "$"%char :: expand_loop fuel' src mt after'
          | _ =>
              match extract after with
              | None => "$"%char :: expand_loop fuel' src mt after
              | Some (_, num, rest) => group_text src mt num ++ expand_loop fuel' src mt rest
              end
          end
      end
  end.

(** Every round consumes a [$], so [|template| + 1] rounds are enough
    ([expand_enough_fuel]). *)
Definition expand (template src : bytes) (mt : caps) : bytes :=
  expand_loop (S (length template)) src mt template.

(** [re.ReplaceAllString(src, template)], as Go's [replaceAll]: copy
    the text before each match and the expanded template, skip the
    template for an empty match right after a match, and advance at
    least one byte.  [repl] gets the positions of the match and its
    groups. *)
Fixpoint replace_loop (fuel : nat) (re : regexp) (src : bytes) (repl : caps -> bytes)
    (searchPos lastMatchEnd : nat) : bytes :=
  match fuel with
  | 0 => drop lastMatchEnd src
  | S fuel' =>
      if searchPos <=? length src then
        match search_from re searchPos (drop searchPos src) with
        | None => drop lastMatchEnd src
        | Some (a0, a1, c) =>
            let width := if searchPos <? length src then 1 else 0 in
            let next :=
              if a1 <? searchPos + width then searchPos + width
              else if a1 <? searchPos + 1 then searchPos + 1
              else a1 in
            slice src lastMatchEnd a0
              ++ (if (lastMatchEnd <? a1) || (a0 =? 0) then repl (<[0 := Some (a0, a1)]> c) else [])
              ++ replace_loop fuel' re src repl next a1
        end
      else drop lastMatchEnd src
  end.

Definition ReplaceAllString (re : regexp) (src template : bytes) : bytes :=
  replace_loop (S (S (length src))) re src (expand template src) 0 0.

(** ** Lemmas on the matcher *)

(** Trying the candidates [n], [n-1], ..., [0] in turn. *)
Fixpoint first_down (n : nat) (f : nat -> result) : result :=
  match n with
  | 0 => f 0
  | S n' => f (S n') orelse first_down n' f
  end.

Lemma first_down_pick n f j x :
  j <= n -> f j = Some x -> (forall i, j < i <= n -> f i = None) ->
  first_down n f = Some x.
Proof.
  induction n as [|n IH]; intros Hj Hf Hi; simpl.
  - by replace j with 0 in Hf by lia.
  - destruct (decide (j = S n)) as [->|Hne]; [by rewrite Hf|].
    rewrite (Hi (S n)) by lia. apply IH; [lia|done|]. intros i ?. apply Hi. lia.
Qed.

Lemma first_down_none n f :
  (forall i, i <= n -> f i = None) -> first_down n f = None.
Proof.
  induction n as [|n IH]; intros Hi; simpl; [apply Hi; lia|].
  rewrite Hi by lia. apply IH. intros i ?. apply Hi. lia.
Qed.

Lemma first_down_some n f x :
  first_down n f = Some x -> exists i, i <= n /\ f i = Some x.
Proof.
  induction n as [|n IH]; simpl; [eauto|].
  destruct (f (S n)) eqn:E; [intros [= <-]; eauto|].
  intros (i & ? & ?)%IH. exists i. split; [lia|done].
Qed.

Lemma first_down_ext n f g :
  (forall i, i <= n -> f i = g i) -> first_down n f = first_down n g.
Proof.
  induction n as [|n IH]; intros H; simpl; [apply H; lia|].
  rewrite (H (S n)) by lia. rewrite IH; [done|]. intros i ?. apply H. lia.
Qed.

Lemma first_down_shift n g :
  first_down (S n) g = first_down n (fun i => g (S i)) orelse g 0.
Proof.
  induction n as [|n IH]; simpl; [done|].
  simpl in IH. rewrite IH. by destruct (g (S (S n))).
Qed.

(** A greedy star tries the longest run of the class first. *)
Lemma star_m_spec p pos s c k :
  star_m p pos s c k = first_down (span p s) (fun i => k (pos + i) (drop i s) c).
Proof.
  revert pos. induction s as [|a s IH]; intros pos; simpl.
  - by rewrite Nat.add_0_r.
  - destruct (p a) eqn:Hp; [|simpl; by rewrite Nat.add_0_r].
    rewrite IH, first_down_shift. cbn beta. rewrite Nat.add_0_r.
    erewrite (first_down_ext (span p s)); [reflexivity|].
    intros i _. simpl. by rewrite Nat.add_succ_r.
Qed.

(** Every success of [m] is a success of its continuation on a
    suffix of the input, at the matching position. *)
Lemma m_suffix r : forall pos s c k x,
  m r pos s c k = Some x ->
  exists n c', n <= length s /\ k (pos + n) (drop n s) c' = Some x.
Proof.
  induction r as [a|p|r1 IH1 r2 IH2|r1 IH1 r2 IH2|r1 IH1|p|g r1 IH1];
    intros pos s c k x; simpl.
  - destruct s as [|b s]; [done|]. destruct (a =? b)%char; [|done].
    intros H. exists 1, c. rewrite Nat.add_1_r. simpl. split; [lia|done].
  - destruct s as [|b s]; [done|]. destruct (p b); [|done].
    intros H. exists 1, c. rewrite Nat.add_1_r. simpl. split; [lia|done].
  - intros (n1 & c1 & Hn1 & H1)%IH1. apply IH2 in H1 as (n2 & c2 & Hn2 & H2).
    rewrite length_drop in Hn2. rewrite drop_drop, <- Nat.add_assoc in H2.
    exists (n1 + n2), c2. split; [lia|done].
  - destruct (m r1 pos s c k) eqn:E; [intros [= <-]; by apply IH1 in E|].
    apply IH2.
  - destruct (m r1 pos s c k) eqn:E; [intros [= <-]; by apply IH1 in E|].
    intros H. exists 0, c. rewrite Nat.add_0_r. split; [lia|done].
  - rewrite star_m_spec. intros (i & Hi & H)%first_down_some.
    exists i, c. split; [pose proof (span_le p s); lia|done].
  - intros (n & c' & Hn & H)%IH1. eauto.
Qed.

Lemma m_none r pos s c k :
  (forall n c', n <= length s -> k (pos + n) (drop n s) c' = None) ->
  m r pos s c k = None.
Proof.
  intros Hk. destruct (m r pos s c k) eqn:E; [|done].
  apply m_suffix in E as (n & c' & Hn & H). by rewrite Hk in H.
Qed.

(** A literal string is matched byte by byte. *)
Lemma m_lit w : forall pos s c k,
  m (RLit w) pos s c k =
  if prefixb w s then k (pos + length w) (drop (length w) s) c else None.
Proof.
  induction w as [|a w IH]; intros pos s c k; simpl.
  - rewrite Nat.add_0_r. by destruct s.
  - destruct s as [|a' s]; [done|]. simpl.
    destruct (Ascii.eqb_spec a a') as [<-|Hne].
    + rewrite bool_decide_true, andb_true_l, IH by done.
      destruct (prefixb w s); [|done]. by rewrite Nat.add_succ_r.
    + by rewrite bool_decide_false.
Qed.

(** A success of [RSeq r1 r2] passes through [r2] on a suffix. *)
Lemma m_seq_suffix r1 r2 pos s c k x :
  m (RSeq r1 r2) pos s c k = Some x ->
  exists n c', n <= length s /\ m r2 (pos + n) (drop n s) c' k = Some x.
Proof. simpl. apply m_suffix. Qed.

(** The leftmost match is found. *)
Lemma search_from_here re pos s e c :
  m (re_prog re) pos s (init_caps re) accept = Some (e, c) ->
  search_from re pos s = Some (pos, e, c).
Proof. destruct s; simpl; by intros ->. Qed.

Lemma search_from_skip re : forall j pos s,
  j <= length s ->
  (forall i, i < j -> m (re_prog re) (pos + i) (drop i s) (init_caps re) accept = None) ->
  search_from re pos s = search_from re (pos + j) (drop j s).
Proof.
  induction j as [|j IH]; intros pos s Hj Hi; [by rewrite Nat.add_0_r|].
  destruct s as [|a s]; simpl in Hj; [lia|].
  simpl. pose proof (Hi 0 ltac:(lia)) as H0. rewrite Nat.add_0_r in H0.
  simpl in H0. rewrite H0.
  rewrite IH; [by replace (pos + S j) with (S pos + j) by lia|lia|].
  intros i ?. replace (S pos + i) with (pos + S i) by lia. apply (Hi (S i)). lia.
Qed.

Lemma search_from_none re pos s :
  (forall i, i <= length s -> m (re_prog re) (pos + i) (drop i s) (init_caps re) accept = None) ->
  search_from re pos s = None.
Proof.
  revert pos. induction s as [|a s IH]; intros pos Hi; simpl.
  - pose proof (Hi 0 ltac:(simpl; lia)) as H. rewrite Nat.add_0_r in H. simpl in H.
    by rewrite H.
  - pose proof (Hi 0 ltac:(simpl; lia)) as H. rewrite Nat.add_0_r in H. simpl in H.
    rewrite H. apply IH. intros i ?. replace (S pos + i) with (pos + S i) by lia.
    apply (Hi (S i)). simpl; lia.
Qed.

(** [x+]: the candidates are the run lengths [span p t] down to 1. *)
Lemma m_plus_pick p pos t c k j x :
  1 <= j <= span p t -> k (pos + j) (drop j t) c = Some x ->
  (forall i, j < i <= span p t -> k (pos + i) (drop i t) c = None) ->
  m (RPlus p) pos t c k = Some x.
Proof.
  destruct t as [|a t]; simpl; [lia|]. destruct (p a); simpl; [|lia].
  destruct j as [|j]; [lia|]. intros Hj Hk Hi.
  rewrite star_m_spec. apply (first_down_pick _ _ j); [lia| |].
  - by replace (S pos + j) with (pos + S j) by lia.
  - intros i ?. replace (S pos + i) with (pos + S i) by lia. apply (Hi (S i)). lia.
Qed.

Lemma m_plus_none p pos t c k :
  (forall i, 1 <= i <= span p t -> k (pos + i) (drop i t) c = None) ->
  m (RPlus p) pos t c k = None.
Proof.
  destruct t as [|a t]; simpl; [done|]. destruct (p a); simpl; [|done].
  intros Hi. rewrite star_m_spec. apply first_down_none.
  intros i ?. replace (S pos + i) with (pos + S i) by lia. apply (Hi (S i)). lia.
Qed.


Lemma m_char_in a pos t c k x : m (RChar a) pos t c k = Some x -> a ∈ t.
Proof.
  destruct t as [|b t]; simpl; [done|].
  destruct (Ascii.eqb_spec a b) as [<-|]; [|done]. intros _. apply list_elem_of_here.
Qed.

Lemma m_seq_group_lit n w r r2 pos t c k x :
  m (RSeq (RGroup n (RSeq (RLit w) r)) r2) pos t c k = Some x -> prefixb w t = true.
Proof. cbn [m]. rewrite m_lit. by destruct (prefixb w t). Qed.

Lemma m_group_lit n w r pos t c k x :
  m (RGroup n (RSeq (RLit w) r)) pos t c k = Some x -> prefixb w t = true.
Proof. cbn [m]. rewrite m_lit. by destruct (prefixb w t). Qed.

Lemma search_from_bounds re : forall pos s a0 a1 c,
  search_from re pos s = Some (a0, a1, c) -> pos <= a0 <= a1 /\ a1 <= pos + length s.
Proof.
  intros pos s. revert pos. induction s as [|x s IH]; intros pos a0 a1 c; simpl.
  - destruct (m _ _ _ _ _) as [[e c']|] eqn:E; [|done]. intros [= <- <- <-].
    apply m_suffix in E as (n & c'' & Hn & [= <- _]). simpl in Hn. lia.
  - destruct (m _ _ _ _ _) as [[e c']|] eqn:E.
    + intros [= <- <- <-]. apply m_suffix in E as (n & c'' & Hn & [= <- _]).
      simpl in Hn. lia.
    + intros (? & ?)%IH. lia.
Qed.

(** Each round of [replace_loop] moves [searchPos] forward. *)
Lemma replace_next_gt re src sp a0 a1 c :
  search_from re sp (drop sp src) = Some (a0, a1, c) ->
  sp < (if a1 <? sp + (if sp <? length src then 1 else 0)
        then sp + (if sp <? length src then 1 else 0)
        else if a1 <? sp + 1 then sp + 1 else a1).
Proof.
  intros (Hb & _)%search_from_bounds.
  destruct (sp <? length src) eqn:Hw; [apply Nat.ltb_lt in Hw|apply Nat.ltb_ge in Hw];
    repeat case_match; rewrite ?Nat.ltb_lt, ?Nat.ltb_ge in *; lia.
Qed.

(** [ReplaceAllString] terminates: beyond [length src + 2] rounds the
    fuel no longer matters. *)
Lemma replace_loop_fuel re src repl : forall f1 f2 sp lme,
  S (length src) - sp < f1 -> S (length src) - sp < f2 ->
  replace_loop f1 re src repl sp lme = replace_loop f2 re src repl sp lme.
Proof.
  induction f1 as [|f1 IH]; intros f2 sp lme H1 H2; [lia|].
  destruct f2 as [|f2]; [lia|]. simpl.
  destruct (sp <=? length src) eqn:Hsp; [|done].
  destruct (search_from re sp (drop sp src)) as [[[a0 a1] c]|] eqn:Es; [|done].
  pose proof (replace_next_gt _ _ _ _ _ _ Es) as Hgt.
  f_equal. f_equal. apply IH; apply Nat.leb_le in Hsp; lia.
Qed.

Lemma ReplaceAllString_enough_fuel re src t fuel :
  S (S (length src)) <= fuel ->
  replace_loop fuel re src (expand t src) 0 0 = ReplaceAllString re src t.
Proof. intros H. apply replace_loop_fuel; lia. Qed.

Lemma cut_dollar_none t : "$"%char ∉ t -> cut_dollar t = None.
Proof.
  induction t as [|c t IH]; intros Ht; [done|]. simpl.
  destruct (Ascii.eqb_spec c "$") as [->|]; [set_solver|]. rewrite IH by set_solver. done.
Qed.

(** A template without [$] is copied as it is. *)
Lemma expand_no_dollar t src mt : "$"%char ∉ t -> expand t src mt = t.
Proof. intros Ht. unfold expand. simpl. by rewrite cut_dollar_none. Qed.

Lemma cut_dollar_some t b a : cut_dollar t = Some (b, a) -> t = b ++ "$"%char :: a.
Proof.
  revert b. induction t as [|c t IH]; intros b; simpl; [done|].
  destruct (Ascii.eqb_spec c "$") as [->|]; [by intros [= <- <-]|].
  destruct (cut_dollar t) as [[b' a']|] eqn:E; [|done]. intros [= <- <-]. by rewrite (IH b').
Qed.

Lemma cut_dollar_app a r : "$"%char ∉ a -> cut_dollar (a ++ "$"%char :: r) = Some (a, r).
Proof.
  induction a as [|c a IH]; intros Ha; [done|]. simpl.
  destruct (Ascii.eqb_spec c "$") as [->|]; [set_solver|]. rewrite IH by set_solver. done.
Qed.

(** [$2] followed by a byte that cannot continue a name (or by
    nothing) names group 2. *)
Lemma extract_2 b :
  (forall c b', b = c :: b' -> name_byte c = false) ->
  extract ("2"%char :: b) = Some (["2"%char], 2%Z, b).
Proof.
  intros Hb. unfold extract. cbn -[name_byte span].
  assert (Hs : span name_byte ("2"%char :: b) = 1).
  { destruct b as [|c b']; [done|]. cbn [span]. rewrite (Hb c b' eq_refl). done. }
  rewrite Hs. done.
Qed.

(** A template [a$2b], where [a] and [b] hold no [$] and [b] does
    not continue the name, expands to [a], the text of group 2, and
    [b]. *)
Lemma expand_group2 a b src mt :
  "$"%char ∉ a -> "$"%char ∉ b -> (forall c b', b = c :: b' -> name_byte c = false) ->
  expand (a ++ "$"%char :: "2"%char :: b) src mt = a ++ group_text src mt 2 ++ b.
Proof.
  intros Ha Hb Hn. unfold expand. cbn [expand_loop].
  rewrite cut_dollar_app by done. f_equal.
  rewrite extract_2 by done.
  destruct (length (a ++ "$"%char :: "2"%char :: b)) eqn:E; [rewrite length_app in E; simpl in E; lia|].
  cbn [expand_loop]. rewrite cut_dollar_none by done. done.
Qed.

Lemma extract_rest str name num rest :
  extract str = Some (name, num, rest) -> length rest < length str.
Proof.
  destruct str as [|c0 str']; [done|]. unfold extract.
  destruct (c0 =? "{")%char; cbn [andb negb drop]; rewrite ?drop_0.
  - destruct (span name_byte str' =? 0); [done|]. case_match; [done|].
    intros [= _ _ <-]. rewrite length_drop. simpl. lia.
  - destruct (span name_byte (c0 :: str') =? 0) eqn:Hi; [done|]. apply Nat.eqb_neq in Hi.
    intros [= _ _ <-]. rewrite length_drop. cbn [length span] in *.
    destruct (name_byte c0); lia.
Qed.

(** More rounds than bytes in the template change nothing. *)
Lemma expand_loop_fuel src mt : forall f1 f2 t,
  length t < f1 -> length t < f2 -> expand_loop f1 src mt t = expand_loop f2 src mt t.
Proof.
  induction f1 as [|f1 IH]; intros [|f2] t H1 H2; try lia. simpl.
  destruct (cut_dollar t) as [[b a]|] eqn:E; [|done].
  apply cut_dollar_some in E. subst t. rewrite length_app in H1, H2. simpl in H1, H2.
  f_equal. destruct a as [|c a']; [simpl; f_equal; apply IH; simpl; lia|].
  destruct (Ascii.eqb_spec c "$") as [->|Hc].
  - f_equal. apply IH; simpl in *; lia.
  - assert (Hm : forall X Y : bytes, (match c :: a' with "$"%char :: a'' => X | _ => Y end) = Y)
      by (intros; destruct c as [[] [] [] [] [] [] [] []]; try done; by destruct Hc).
    rewrite !Hm. destruct (extract (c :: a')) as [[[nm num] rest]|] eqn:Ex.
    + apply extract_rest in Ex. f_equal. apply IH; simpl in *; lia.
    + f_equal. apply IH; simpl in *; lia.
Qed.

Lemma expand_enough_fuel t src mt f :
  length t < f -> expand_loop f src mt t = expand t src mt.
Proof. intros Hf. apply expand_loop_fuel; lia. Qed.

Lemma m_alt r1 r2 pos t c k :
  m (RAlt r1 r2) pos t c k = m r1 pos t c k orelse m r2 pos t c k.
Proof. reflexivity. Qed.

Lemma m_seq_char_drop_none a r pos t i c k :
  t !! i <> Some a -> m (RSeq (RChar a) r) pos (drop i t) c k = None.
Proof.
  intros H. cbn [m]. destruct (drop i t) as [|b t'] eqn:E; [done|].
  apply drop_cons_lookup in E. destruct (Ascii.eqb_spec a b) as [<-|]; [done|done].
Qed.

Lemma m_seq_lit w r pos t c k :
  m (RSeq (RLit w) r) pos t c k =
  if prefixb w t then m r (pos + length w) (drop (length w) t) c k else None.
Proof. cbn [m]. apply m_lit. Qed.

Lemma replace_loop_match fuel re src repl sp lme a0 a1 c :
  sp <= length src ->
  search_from re sp (drop sp src) = Some (a0, a1, c) ->
  replace_loop (S fuel) re src repl sp lme =
  slice src lme a0
    ++ (if (lme <? a1) || (a0 =? 0) then repl (<[0 := Some (a0, a1)]> c) else [])
    ++ replace_loop fuel re src repl
         (let width := if sp <? length src then 1 else 0 in
          if a1 <? sp + width then sp + width
          else if a1 <? sp + 1 then sp + 1 else a1) a1.
Proof. intros Hsp Hs. cbn [replace_loop]. apply Nat.leb_le in Hsp. by rewrite Hsp, Hs. Qed.

Lemma replace_loop_nomatch fuel re src repl sp lme :
  sp <= length src -> search_from re sp (drop sp src) = None ->
  replace_loop (S fuel) re src repl sp lme = drop lme src.
Proof. intros Hsp Hs. cbn [replace_loop]. apply Nat.leb_le in Hsp. by rewrite Hsp, Hs. Qed.

(** A replacement with a single match: the text before it, the
    expanded template, the text after it. *)
Lemma ReplaceAllString_once re s t a0 a1 c :
  0 < a1 -> search_from re 0 s = Some (a0, a1, c) ->
  search_from re a1 (drop a1 s) = None ->
  ReplaceAllString re s t = take a0 s ++ expand t s (<[0 := Some (a0, a1)]> c) ++ drop a1 s.
Proof.
  intros Ha1 Hs Hn. pose proof (search_from_bounds _ _ _ _ _ _ Hs) as Hb. simpl in Hb.
  unfold ReplaceAllString.
  rewrite (replace_loop_match _ re s _ 0 0 a0 a1 c ltac:(lia) Hs).
  replace (let width := if 0 <? length s then 1 else 0 in
           if a1 <? 0 + width then 0 + width else if a1 <? 0 + 1 then 0 + 1 else a1) with a1
    by (cbn zeta; repeat case_match; rewrite ?Nat.ltb_lt, ?Nat.ltb_ge in *; lia).
  replace ((0 <? a1) || (a0 =? 0)) with true by (symmetry; apply orb_true_iff; left; apply Nat.ltb_lt; lia).
  rewrite replace_loop_nomatch by (lia || done).
  unfold slice. by rewrite drop_0, Nat.sub_0_r.
Qed.

(** [x+] followed by a rest that always succeeds takes the longest
    run of the class. *)
Lemma m_plus_total p pos t c k (h : nat -> caps -> caps) :
  (forall e t' c', k e t' c' = Some (e, h e c')) ->
  m (RPlus p) pos t c k =
  if 0 <? span p t then Some (pos + span p t, h (pos + span p t) c) else None.
Proof.
  intros Hk. destruct (Nat.ltb_spec 0 (span p t)).
  - apply (m_plus_pick _ _ _ _ _ (span p t)); [lia|apply Hk|lia].
  - apply m_plus_none. lia.
Qed.
