(* ===== verification/Mask.v ===== *)
(** * Credential masking: [dbURLRegex] and [MaskDBCred]

    [src/dao/dao.go] redacts the credentials of a data-source string
    before it is logged.  [dbURLRegex] has three alternatives,
    [user:password@] (groups 1-3), [user=... password=...] (groups
    4-6) and [password=... user=...] (groups 7-9), each with an
    optional [Datasource:] label; [MaskDBCred] takes the first match,
    replaces, in the matched text, the first occurrence of every
    non-empty group by a mask, and splices the result back.

    The theorems show what the function does on every branch: the
    text outside the match is kept, a string without a match is
    returned unchanged, and a [user:password@host] data source has
    both its user and its password masked. *)

From S2P Require Import Prelude GoStrings Regexp.

(** ** The pattern (dao.go line 25)

    Its source text, as Go reads the string literal of the code, is
    [dbURLRegex_source]; [dbURLRegex] is its compiled form. *)

Definition dbURLRegex_source : string :=
  "(Datasource:\s*)?(\S+):(\S+)@|(Datasource:.*\s)?(user=\S+).*\s(password=\S+)|(Datasource:.*\s)?(password=\S+).*\s(user=\S+)".

(** [(\S+)@] *)
Definition userpass_pass : re := RSeq (RGroup 3 (RPlus not_space)) (RChar "@").

(** [(\S+):(\S+)@] *)
Definition userpass_user : re :=
  RSeq (RGroup 2 (RPlus not_space)) (RSeq (RChar ":") userpass_pass).

Definition alt_userpass : re :=
  RSeq (ROpt (RGroup 1 (RSeq (RLit (str "Datasource:")) (RStar is_space))))
    userpass_user.

Definition alt_keyvalue (g : nat) (first second : bytes) : re :=
  RSeq (ROpt (RGroup g (RSeq (RLit (str "Datasource:"))
                          (RSeq (RStar not_newline) (RClass is_space)))))
    (RSeq (RGroup (S g) (RSeq (RLit first) (RPlus not_space)))
       (RSeq (RStar not_newline)
          (RSeq (RClass is_space) (RGroup (S (S g)) (RSeq (RLit second) (RPlus not_space)))))).

Definition dbURLRegex : regexp :=
  Regexp (RAlt alt_userpass
            (RAlt (alt_keyvalue 4 (str "user=") (str "password="))
                  (alt_keyvalue 7 (str "password=") (str "user="))))
         9.

(** ** [MaskDBCred] (dao.go lines 208-229) *)

(** The mask chosen for one submatch. *)
Definition mask_for (sub : bytes) : bytes :=
  if bool_decide (Index sub (str "user=") = 0%Z) then str "user=****"
  else if bool_decide (Index sub (str "password=") = 0%Z) then str "password=****"
  else str "****".

(** The loop over [matches[1..9]]: each non-empty submatch has its
    first occurrence in [substr] replaced by its mask. *)
Definition mask_step (substr sub : bytes) : bytes :=
  if bool_decide (sub = []) then substr else Replace1 substr sub (mask_for sub).

Definition mask_groups (subs : list bytes) (substr : bytes) : bytes :=
  fold_left mask_step subs substr.

Definition MaskDBCred (s : bytes) : bytes :=
  match FindStringSubmatch dbURLRegex s with
  | Some matches =>
      if length matches =? 10 then
        match FindStringSubmatchIndex dbURLRegex s with
        | Some (Some (a, b) :: _) =>
            take a s ++ mask_groups (drop 1 matches) (slice s a b) ++ drop b s
        | _ => s   (* not reached: both calls find the same match *)
        end
      else s
  | None => s
  end.

(** ** Lemmas on the matcher for [dbURLRegex] *)

(** Bytes of a user or password token: no space and no colon. *)
Definition token_byte (ch : ascii) : bool := not_space ch && negb (ch =? ":")%char.

(** No [@] in the run of non-space bytes at the head of [t]. *)
Definition no_at_run (t : bytes) : Prop :=
  forall i, i <= span not_space t -> t !! i <> Some "@"%char.

Lemma no_at_run_intro t :
  "@"%char ∉ take (span not_space t) t -> no_at_run t.
Proof.
  intros Hn i Hi Ht. destruct (decide (i < span not_space t)).
  - apply Hn. apply list_elem_of_lookup. exists i. by rewrite lookup_take_lt.
  - replace i with (span not_space t) in Ht by lia.
    apply span_stop in Ht. done.
Qed.

Lemma no_at_run_drop t e : e <= span not_space t -> no_at_run t -> no_at_run (drop e t).
Proof.
  intros He Hn i Hi. rewrite lookup_drop. apply Hn.
  rewrite span_drop in Hi by done. lia.
Qed.

Lemma pass_none pos t c k : no_at_run t -> m userpass_pass pos t c k = None.
Proof.
  intros Hn. unfold userpass_pass. cbn [m]. apply m_plus_none.
  intros i Hi. destruct (drop i t) as [|b s'] eqn:E; [done|].
  apply drop_cons_lookup in E.
  destruct (Ascii.eqb_spec "@" b) as [<-|]; [|done]. exfalso. apply (Hn i); [lia|done].
Qed.

Lemma not_space_at : not_space "@" = true. Proof. reflexivity. Qed.
Lemma not_space_colon : not_space ":" = true. Proof. reflexivity. Qed.

Lemma span_ns_at p post :
  forallb not_space p = true ->
  span not_space (p ++ "@"%char :: post) = length p + S (span not_space post).
Proof. intros Hp. rewrite span_app_all by done. cbn [span]. by rewrite not_space_at. Qed.

Lemma pass_ok pos p post c k x :
  p <> [] -> forallb not_space p = true -> no_at_run post ->
  k (pos + length p + 1) post (<[3 := Some (pos, pos + length p)]> c) = Some x ->
  m userpass_pass pos (p ++ "@"%char :: post) c k = Some x.
Proof.
  intros Hne Hp Hn Hk. unfold userpass_pass. cbn [m].
  assert (length p <> 0) by (destruct p; simpl; [done|lia]).
  apply (m_plus_pick _ _ _ _ _ (length p)).
  - rewrite span_ns_at by done. lia.
  - rewrite drop_app_length. simpl. by rewrite <- Nat.add_1_r.
  - intros i Hi. rewrite span_ns_at in Hi by done.
    rewrite drop_app_ge by lia.
    destruct (i - length p) as [|e] eqn:Ei; [lia|]. cbn [skipn].
    destruct (drop e post) as [|b s'] eqn:E; [done|].
    apply drop_cons_lookup in E.
    destruct (Ascii.eqb_spec "@" b) as [<-|]; [|done].
    exfalso. apply (Hn e); [lia|done].
Qed.

Lemma token_not_space l : forallb token_byte l = true -> forallb not_space l = true.
Proof.
  intros H. apply forallb_forall. intros x Hx.
  eapply forallb_forall in H; [|done]. unfold token_byte in H.
  by apply andb_prop in H as [? _].
Qed.

Lemma token_no_colon l : forallb token_byte l = true -> ":"%char ∉ l.
Proof.
  intros H Hin. apply list_elem_of_In in Hin.
  eapply forallb_forall in H; [|exact Hin]. done.
Qed.

Lemma user_ok pos u p post c k x :
  u <> [] -> p <> [] -> forallb token_byte u = true -> forallb token_byte p = true ->
  no_at_run post ->
  k (pos + length u + 1 + length p + 1) post
    (<[3 := Some (pos + length u + 1, pos + length u + 1 + length p)]>
       (<[2 := Some (pos, pos + length u)]> c)) = Some x ->
  m userpass_user pos (u ++ ":"%char :: p ++ "@"%char :: post) c k = Some x.
Proof.
  intros Hu Hp Htu Htp Hn Hk. unfold userpass_user. cbn [m].
  assert (length u <> 0) by (destruct u; simpl; [done|lia]).
  pose proof (token_not_space _ Htu). pose proof (token_not_space _ Htp).
  assert (Hspan : span not_space (u ++ ":"%char :: p ++ "@"%char :: post)
                  = length u + S (length p + S (span not_space post))).
  { rewrite span_app_all by done. cbn [span]. rewrite not_space_colon, span_ns_at; done. }
  apply (m_plus_pick _ _ _ _ _ (length u)).
  - rewrite Hspan. lia.
  - rewrite drop_app_length, Ascii.eqb_refl. apply pass_ok; [done|done|done|].
    rewrite <- Hk. f_equal; [lia|]. do 3 f_equal; lia.
  - intros i Hi. rewrite drop_app_ge by lia.
    destruct (i - length u) as [|e] eqn:Ei; [lia|]. cbn [skipn].
    destruct (drop e (p ++ "@"%char :: post)) as [|b s'] eqn:E; [done|].
    apply drop_cons in E as [Eb Es].
    destruct (Ascii.eqb_spec ":" b) as [<-|]; [|done].
    apply pass_none. subst s'.
    destruct (lt_eq_lt_dec e (length p)) as [[Hlt|Heq]|Hgt]; [| subst e |].
    + rewrite lookup_app_l in Eb by done.
      apply (forallb_lookup _ _ _ _ Htp) in Eb. done.
    + by rewrite list_lookup_middle in Eb.
    + rewrite lookup_app_r in Eb by lia.
      destruct (e - length p) as [|e'] eqn:Ee; [lia|]. simpl in Eb.
      rewrite drop_app_ge by lia. replace (S e - length p) with (S (S e')) by lia.
      cbn [skipn]. apply no_at_run_drop; [|done].
      apply (lookup_span_lt _ _ _ ":"%char); [rewrite Hspan in Hi; lia|done|reflexivity].
Qed.

Lemma alt_userpass_unlabelled pos s c k :
  prefixb (str "Datasource:") s = false ->
  m alt_userpass pos s c k = m userpass_user pos s c k.
Proof. intros H. unfold alt_userpass. cbn [m]. by rewrite m_lit, H. Qed.

Lemma find_userpass u p post :
  u <> [] -> p <> [] -> forallb token_byte u = true -> forallb token_byte p = true ->
  u <> str "Datasource" -> no_at_run post ->
  FindStringSubmatchIndex dbURLRegex (u ++ ":"%char :: p ++ "@"%char :: post) =
  Some [Some (0, length u + 1 + length p + 1); None; Some (0, length u);
        Some (length u + 1, length u + 1 + length p); None; None; None; None; None; None].
Proof.
  intros Hu Hp Htu Htp Hd Hn. unfold FindStringSubmatchIndex.
  rewrite search_from_here with
    (e := length u + 1 + length p + 1)
    (c := <[3 := Some (length u + 1, length u + 1 + length p)]>
            (<[2 := Some (0, length u)]> (init_caps dbURLRegex))); [done|].
  cbn [re_prog dbURLRegex m]. rewrite alt_userpass_unlabelled.
  - by erewrite user_ok.
  - destruct (prefixb (str "Datasource:") _) eqn:E; [|done].
    exfalso. apply Hd.
    change (str "Datasource:") with (str "Datasource" ++ [":"%char]) in E.
    apply (prefixb_app_sep (str "Datasource") u (p ++ "@"%char :: post) ":"%char);
      [by apply (bool_decide_unpack _)|by apply token_no_colon|exact E].
Qed.

Lemma mask_step_nil substr : mask_step substr [] = substr.
Proof. unfold mask_step. by rewrite bool_decide_true. Qed.

Lemma mask_step_cons substr sub :
  sub <> [] -> mask_step substr sub = Replace1 substr sub (mask_for sub).
Proof. intros H. unfold mask_step. by rewrite bool_decide_false. Qed.

Lemma mask_groups_userpass u p :
  u <> [] -> p <> [] -> mask_for u = str "****" -> mask_for p = str "****" ->
  head p <> Some "*"%char -> head p <> Some ":"%char ->
  mask_groups [[]; u; p; []; []; []; []; []; []] (u ++ ":"%char :: p ++ ["@"%char])
  = str "****:****@".
Proof.
  intros Hu Hp Hmu Hmp Hs Hc. unfold mask_groups. cbn [fold_left].
  rewrite !mask_step_nil, (mask_step_cons _ u), (mask_step_cons _ p) by done.
  rewrite Hmu, (Replace1_prefix _ u) by apply prefixb_app. rewrite drop_app_length.
  destruct p as [|a p']; [done|]. simpl in Hs, Hc.
  change (str "****" ++ ":"%char :: (a :: p') ++ ["@"%char])
    with (str "****:" ++ (a :: p') ++ ["@"%char]).
  rewrite Hmp, Replace1_app_skip.
  2:{ intros i Hi. change (length (str "****:")) with 5 in Hi.
      do 5 (destruct i as [|i]; [apply (prefixb_head_ne _ _ a); [done|congruence]|]). lia. }
  rewrite Replace1_prefix by apply prefixb_app. by rewrite drop_app_length.
Qed.

(** A match of the first alternative contains an [@]. *)
Lemma alt_userpass_at pos t c k x :
  m alt_userpass pos t c k = Some x -> "@"%char ∈ t.
Proof.
  unfold alt_userpass, userpass_user, userpass_pass.
  intros (n1 & c1 & _ & H1)%m_seq_suffix.
  apply m_seq_suffix in H1 as (n2 & c2 & _ & H2).
  apply m_seq_suffix in H2 as (n3 & c3 & _ & H3).
  apply m_seq_suffix in H3 as (n4 & c4 & _ & H4).
  apply m_char_in in H4. rewrite !drop_drop in H4. by apply elem_of_drop_l in H4.
Qed.

(** A match of a key=value alternative contains both keys. *)
Lemma alt_keyvalue_keys g first second pos t c k x :
  m (alt_keyvalue g first second) pos t c k = Some x ->
  is_Some (find first t) /\ is_Some (find second t).
Proof.
  unfold alt_keyvalue. intros (n1 & c1 & Hn1 & H1)%m_seq_suffix. split.
  - apply m_seq_group_lit in H1. by apply (find_complete _ _ n1).
  - apply m_seq_suffix in H1 as (n2 & c2 & Hn2 & H2).
    apply m_seq_suffix in H2 as (n3 & c3 & Hn3 & H3).
    apply m_seq_suffix in H3 as (n4 & c4 & Hn4 & H4).
    apply m_group_lit in H4. rewrite !drop_drop in H4.
    rewrite !length_drop in Hn2. rewrite !length_drop in Hn3. rewrite !length_drop in Hn4.
    apply (find_complete _ _ (n1 + (n2 + (n3 + n4)))); [lia|done].
Qed.

(** ** Properties of [MaskDBCred] *)


(** C3: A data source [u:p@post] whose user and password are tokens
    (no space, colon, [@] or the labels the masks recognise) is masked
    to [****:****@post]: both user and password are replaced, and the
    rest of the string is kept verbatim. *)
Theorem MaskDBCred_userpass u p post :
  u <> [] -> p <> [] ->
  forallb token_byte u = true -> forallb token_byte p = true ->
  u <> str "Datasource" ->
  mask_for u = str "****" -> mask_for p = str "****" ->
  head p <> Some "*"%char ->
  "@"%char ∉ take (span not_space post) post ->
  MaskDBCred (u ++ ":"%char :: p ++ "@"%char :: post) = str "****:****@" ++ post.
Proof.
  intros Hu Hp Htu Htp Hd Hmu Hmp Hs Hn. unfold MaskDBCred, FindStringSubmatch.
  rewrite find_userpass by auto using no_at_run_intro.
  cbn -[mask_groups slice str skipn firstn app].
  set (s := u ++ ":"%char :: p ++ "@"%char :: post).
  rewrite (slice_app3 [] (u ++ ":"%char :: p ++ ["@"%char]) post) by (subst s; list_len || list_app).
  rewrite (slice_app3 [] u (":"%char :: p ++ "@"%char :: post)) by (subst s; list_len || list_app).
  rewrite (slice_app3 (u ++ [":"%char]) p ("@"%char :: post)) by (subst s; list_len || list_app).
  rewrite (drop_app_split (u ++ ":"%char :: p ++ ["@"%char]) post) by (subst s; list_len || list_app).
  cbn [take drop skipn firstn app]. rewrite mask_groups_userpass; try done.
  destruct p as [|a p']; [done|]. simpl. apply token_no_colon in Htp. set_solver.
Qed.

(** C4: A string with no [@] that lacks [user=] or lacks [password=]
    holds no credential the pattern recognises, and [MaskDBCred]
    returns it unchanged. *)
Theorem MaskDBCred_no_credentials s :
  "@"%char ∉ s ->
  Index s (str "user=") = (-1)%Z \/ Index s (str "password=") = (-1)%Z ->
  MaskDBCred s = s.
Proof.
  intros Hat Hkey.
  assert (Hkv : forall g first second i c k,
             (first = str "user=" /\ second = str "password=") \/
             (first = str "password=" /\ second = str "user=") ->
             m (alt_keyvalue g first second) i (drop i s) c k = None).
  { intros g first second i c k Hfs. destruct (m _ _ _ _ _) eqn:E; [|done].
    apply alt_keyvalue_keys in E as [[j1 E1]%find_drop_some [j2 E2]%find_drop_some].
    unfold Index in Hkey. exfalso.
    destruct Hfs as [[-> ->]|[-> ->]], Hkey as [Hk|Hk];
      first [rewrite E1 in Hk | rewrite E2 in Hk]; lia. }
  assert (Hnone : search_from dbURLRegex 0 s = None).
  { apply search_from_none. intros i Hi. cbn [re_prog dbURLRegex m].
    destruct (m alt_userpass _ _ _ _) eqn:E1.
    { apply alt_userpass_at, elem_of_drop_l in E1. done. }
    rewrite !Hkv; auto. }
  unfold MaskDBCred, FindStringSubmatch, FindStringSubmatchIndex. by rewrite Hnone.
Qed.

(** The data source of the specification's scenario. *)
Lemma MaskDBCred_userpass_witness :
  MaskDBCred (str "root" ++ ":"%char :: str "secret" ++ "@"%char :: str "tcp(127.0.0.1:3306)/mydb")
  = str "****:****@" ++ str "tcp(127.0.0.1:3306)/mydb".
Proof.
  apply MaskDBCred_userpass; try reflexivity; try (vm_compute; discriminate).
  apply (bool_decide_unpack _). vm_compute. exact I.
Defined.

Lemma MaskDBCred_no_credentials_witness :
  MaskDBCred (str "tcp(127.0.0.1:3306)/mydb?user=root") = str "tcp(127.0.0.1:3306)/mydb?user=root".
Proof.
  apply MaskDBCred_no_credentials.
  - apply (bool_decide_unpack _). vm_compute. exact I.
  - right. vm_compute. reflexivity.
Defined.
