(* ===== verification/DSN.v ===== *)
(** * Data-source strings: [getDBName] and the connection string

    [src/dao/mysql.go] takes the database name out of the data source
    with a regular expression after lower-casing it ([getDBName]),
    and builds the bootstrap connection string by deleting every
    [/name] segment whose bytes are in [[0-9,a-z,A-Z$_$-]]
    ([NewUserRegistryMySQL], lines 19-20).  The two patterns differ:
    the first accepts any byte but [/] and [?] in a name, the second
    only the bytes of its class, and only the first is applied to the
    lower-cased string.  The theorems give the name found for a
    path-style and a key-style data source, the connection string of
    a path-style data source, and the cases where the two disagree. *)

From S2P Require Import Prelude GoStrings Regexp.

(** ** [getDBName] (mysql.go lines 145-159) *)

Definition not_slash_q (c : ascii) : bool := negb ((c =? "/")%char || (c =? "?")%char).

(** [(?:\/([^\/?]+))|(?:dbname=([^\s]+))] *)
Definition dbNameRegex : regexp :=
  Regexp (RAlt (RSeq (RChar "/") (RGroup 1 (RPlus not_slash_q)))
               (RSeq (RLit (str "dbname=")) (RGroup 2 (RPlus not_space))))
         2.

Definition getDBName (datasource : bytes) : bytes :=
  let datasource := ToLower datasource in
  match FindStringSubmatch dbNameRegex datasource with
  | Some getName =>
      let dbName := nth 1 getName [] in
      if bool_decide (dbName = []) then nth 2 getName [] else dbName
  | None => []
  end.

(** ** The connection string without the database (mysql.go lines 19-20) *)

(** [[0-9,a-z,A-Z$_$-]] *)
Definition conn_name_byte (c : ascii) : bool :=
  ascii_between "0" "9" c || (c =? ",")%char || ascii_between "a" "z" c
  || ascii_between "A" "Z" c || (c =? "$")%char || (c =? "_")%char || (c =? "-")%char.

(** [\/([0-9,a-z,A-Z$_$-]+)] *)
Definition connStrRegex : regexp :=
  Regexp (RSeq (RChar "/") (RGroup 1 (RPlus conn_name_byte))) 1.

Definition connStr (datasource : bytes) : bytes :=
  ReplaceAllString connStrRegex datasource (str "/").

(** ** [getConnStr] (mysql.go lines 161-166), which nothing calls *)

(** [(dbname=)([^\s]+)] *)
Definition dbNameKeyRegex : regexp :=
  Regexp (RSeq (RGroup 1 (RLit (str "dbname="))) (RGroup 2 (RPlus not_space))) 2.

(** [fmt.Sprintf("dbname=%s", dbname)] is the template. *)
Definition getConnStr (datasource dbname : bytes) : bytes :=
  ReplaceAllString dbNameKeyRegex datasource (str "dbname=" ++ dbname).

(** ** A reference reading of [getDBName]

    What the pattern of [getDBName] picks, written as a left-to-right
    scan of the lower-cased data source: at the first position where
    either works, a [/] followed by at least one byte other than [/]
    and [?] gives those bytes, else [dbname=] followed by at least one
    non-space byte gives those; the empty name when no position
    works. *)
Fixpoint db_name_scan (s : bytes) : bytes :=
  match s with
  | [] => []
  | c :: t =>
      if (c =? "/")%char && (0 <? span not_slash_q t) then take (span not_slash_q t) t
      else if prefixb (str "dbname=") s && (0 <? span not_space (drop 7 s))
      then take (span not_space (drop 7 s)) (drop 7 s)
      else db_name_scan t
  end.

Definition getDBName_ref (datasource : bytes) : bytes := db_name_scan (ToLower datasource).

(** ** Lemmas *)

Lemma lower_byte_not_slash_q c : not_slash_q (lower_byte c) = not_slash_q c.
Proof. destruct c as [[] [] [] [] [] [] [] []]; reflexivity. Qed.

Lemma lower_byte_slash c : lower_byte c = "/"%char <-> c = "/"%char.
Proof. destruct c as [[] [] [] [] [] [] [] []]; split; intros H; (reflexivity || discriminate). Qed.

Lemma ToLower_app s1 s2 : ToLower (s1 ++ s2) = ToLower s1 ++ ToLower s2.
Proof. apply map_app. Qed.

Lemma lower_byte_not_space c : not_space (lower_byte c) = not_space c.
Proof. destruct c as [[] [] [] [] [] [] [] []]; reflexivity. Qed.

Section CaseBlind.
(** A class that does not tell a byte from its lower case. *)
Variable p : ascii -> bool.
Hypothesis Hp : forall c, p (lower_byte c) = p c.

Lemma span_ToLower s : span p (ToLower s) = span p s.
Proof. induction s as [|c s IH]; simpl; [done|]. by rewrite Hp, IH. Qed.

Lemma forallb_ToLower s : forallb p (ToLower s) = forallb p s.
Proof. induction s as [|c s IH]; simpl; [done|]. by rewrite Hp, IH. Qed.

(** A name of such bytes followed by a byte outside the class is a
    full run of the class, in lower case too. *)
Lemma span_ToLower_name name rest :
  forallb p name = true -> span p rest = 0 ->
  span p (ToLower name ++ ToLower rest) = length (ToLower name).
Proof. intros Hn Hr. rewrite span_app_all, span_ToLower by (by rewrite forallb_ToLower). lia. Qed.
End CaseBlind.

Lemma slash_not_in_ToLower s : "/"%char ∉ s -> "/"%char ∉ ToLower s.
Proof.
  intros H Hin. unfold ToLower in Hin.
  apply list_elem_of_In in Hin. apply in_map_iff in Hin as (c & Hc & Hin).
  apply (proj1 (lower_byte_slash c)) in Hc. subst. apply H. by apply list_elem_of_In.
Qed.

(** [dbname=] does not overlap itself: an occurrence that starts less
    than seven bytes before another one is impossible. *)
Lemma dbname_no_overlap (d x : bytes) :
  1 <= length d <= 6 -> prefixb (str "dbname=") (d ++ str "dbname=" ++ x) = false.
Proof.
  intros Hd. destruct d as [|d1 [|d2 [|d3 [|d4 [|d5 [|d6 [|d7 d]]]]]]]; simpl in Hd; try lia;
  unfold str; simpl; repeat (case_bool_decide; simpl); simplify_eq; done.
Qed.

(** So the first [dbname=] of [P ++ dbname= ++ X] is the one after
    [P] when [P] holds none. *)
Lemma dbname_not_before P X i :
  find (str "dbname=") P = None -> i < length P ->
  prefixb (str "dbname=") (drop i (P ++ str "dbname=" ++ X)) = false.
Proof.
  intros Hf Hi. rewrite drop_app_le by lia.
  destruct (decide (7 <= length (drop i P))) as [Hl|Hl].
  - rewrite prefixb_long by done.
    destruct (prefixb _ (drop i P)) eqn:E; [|done].
    destruct (find_complete _ P i ltac:(lia) E) as [j Hj]. congruence.
  - apply dbname_no_overlap. rewrite length_drop in *. lia.
Qed.

(** The two alternatives of [dbNameRegex], each followed by the end
    of the pattern. *)
Lemma m_slash_group p pos t c :
  m (RSeq (RChar "/") (RGroup 1 (RPlus p))) pos t c accept =
  match t with
  | b :: t' =>
      if ("/" =? b)%char && (0 <? span p t')
      then Some (S pos + span p t', <[1 := Some (S pos, S pos + span p t')]> c)
      else None
  | [] => None
  end.
Proof.
  destruct t as [|b t']; [done|]. cbn [m].
  destruct ("/" =? b)%char; [|done]. simpl andb.
  by rewrite (m_plus_total _ _ _ _ _ (fun e c' => <[1 := Some (S pos, e)]> c')).
Qed.

Lemma m_lit_group w g p pos t c :
  m (RSeq (RLit w) (RGroup g (RPlus p))) pos t c accept =
  if prefixb w t && (0 <? span p (drop (length w) t))
  then Some (pos + length w + span p (drop (length w) t),
             <[g := Some (pos + length w, pos + length w + span p (drop (length w) t))]> c)
  else None.
Proof.
  rewrite m_seq_lit. destruct (prefixb w t); [|done]. simpl andb. cbn [m].
  by rewrite (m_plus_total _ _ _ _ _ (fun e c' => <[g := Some (pos + length w, e)]> c')).
Qed.

(** The search of [getDBName] from position [pos] of [s0] picks what
    the scan of the rest of [s0] picks. *)
Lemma search_dbName_scan t : forall pos s0,
  drop pos s0 = t ->
  match search_from dbNameRegex pos t with
  | Some (a, b, c) =>
      let g := map (submatch_text s0) (<[0 := Some (a, b)]> c) in
      if bool_decide (nth 1 g [] = []) then nth 2 g [] else nth 1 g []
  | None => []
  end = db_name_scan t.
Proof.
  induction t as [|c t IH]; intros pos s0 Ht.
  - reflexivity.
  - cbn [search_from re_prog dbNameRegex]. rewrite m_alt, m_slash_group, m_lit_group.
    assert (Ht' : drop (S pos) s0 = t).
    { replace (S pos) with (pos + 1) by lia. by rewrite <- drop_drop, Ht. }
    cbn [db_name_scan]. rewrite Ascii.eqb_sym.
    destruct ((c =? "/")%char && (0 <? span not_slash_q t)) eqn:E1.
    + apply andb_true_iff in E1 as [_ Hk]. apply Nat.ltb_lt in Hk.
      cbn. unfold slice. rewrite Nat.add_sub_swap, Nat.sub_diag by lia. simpl.
      rewrite Ht'. rewrite bool_decide_false; [done|].
      intros Hn. apply (f_equal length) in Hn. rewrite length_take in Hn.
      pose proof (span_le not_slash_q t). simpl in Hn. lia.
    + cbn iota beta. destruct (prefixb _ _ && _) eqn:E2.
      * unfold init_caps. cbn. change (length (str "dbname=")) with 7. unfold slice.
        rewrite Nat.add_sub_swap, Nat.sub_diag, Nat.add_0_l by lia.
        by rewrite <- drop_drop, Ht.
      * by apply IH.
Qed.

(** [dbname=] found after lower-casing was there before. *)
Lemma find_dbname_ToLower P :
  find (str "dbname=") (ToLower P) = None -> find (str "dbname=") P = None.
Proof.
  intros H. destruct (find _ P) as [j|] eqn:E; [|done].
  apply find_some_prefix in E as [Hj Hp]. exfalso.
  apply prefixb_spec in Hp as [t Ht].
  assert (Hl : prefixb (str "dbname=") (drop j (ToLower P)) = true).
  { apply prefixb_spec. exists (ToLower t). unfold ToLower. rewrite <- fmap_drop.
    change (fmap lower_byte (drop j P)) with (ToLower (drop j P)). by rewrite Ht, ToLower_app. }
  destruct (find_complete _ (ToLower P) j ltac:(unfold ToLower; rewrite length_map; lia) Hl)
    as [? ?]. congruence.
Qed.

(** ** Properties *)

(** C10: [getDBName] is the reference scan: on every data source its
    regular expression picks the name [db_name_scan] reads from the
    lower-cased string, leftmost first, a [/name] or a [dbname=name]
    whichever comes first, and the empty name when there is none. *)
Theorem getDBName_equiv datasource : getDBName datasource = getDBName_ref datasource.
Proof.
  unfold getDBName, getDBName_ref, FindStringSubmatch, FindStringSubmatchIndex.
  rewrite <- (search_dbName_scan (ToLower datasource) 0 (ToLower datasource)) by done.
  by destruct (search_from _ _ _) as [[[a b] c]|].
Qed.

(** C16: For a path-style data source [pre/name rest], where [pre] has
    no [/] and no [dbname=] and [rest] starts with [?] or [/] (or is
    empty), [getDBName] returns the lower-cased [name]. *)
Theorem getDBName_path pre name rest :
  "/"%char ∉ pre ->
  find (str "dbname=") (ToLower pre) = None ->
  name <> [] -> forallb not_slash_q name = true ->
  span not_slash_q rest = 0 ->
  getDBName (pre ++ "/"%char :: name ++ rest) = ToLower name.
Proof.
  intros Hsl Hdb Hne Hname Hrest. unfold getDBName.
  rewrite ToLower_app. change (ToLower ("/"%char :: name ++ rest))
    with ("/"%char :: ToLower (name ++ rest)). rewrite ToLower_app.
  set (P := ToLower pre). set (N := ToLower name). set (R := ToLower rest).
  assert (HN : N <> []) by (subst N; by destruct name).
  assert (HspN : span not_slash_q (N ++ R) = length N)
    by (apply span_ToLower_name; auto using lower_byte_not_slash_q).
  unfold FindStringSubmatch, FindStringSubmatchIndex.
  rewrite (search_from_skip _ (length P)); [|list_len|].
  2:{ intros i Hi. cbn [re_prog dbNameRegex]. rewrite m_alt.
      rewrite m_seq_char_drop_none.
      2:{ rewrite lookup_app_l by done. intros HP.
          apply (slash_not_in_ToLower pre Hsl). apply list_elem_of_lookup. eauto. }
      rewrite m_seq_lit.
      destruct (prefixb (str "dbname=") _) eqn:E; [|done]. exfalso.
      rewrite drop_app_le in E by lia.
      apply prefixb_before_sep in E; [|by apply (bool_decide_unpack _)].
      destruct (find_complete _ P i ltac:(lia) E) as [j Hj]. unfold P in Hj. congruence. }
  rewrite drop_app_length, Nat.add_0_l.
  rewrite search_from_here with (e := length P + 1 + length N)
    (c := <[1 := Some (length P + 1, length P + 1 + length N)]> (init_caps dbNameRegex)).
  2:{ cbn [re_prog dbNameRegex m]. rewrite Ascii.eqb_refl.
      rewrite (m_plus_pick _ _ _ _ _ (length N)
                 (S (length P) + length N,
                  <[1 := Some (S (length P), S (length P) + length N)]> (init_caps dbNameRegex)));
        [|rewrite HspN; destruct N; simpl; [done|lia]|by rewrite drop_app_length|lia].
      replace (S (length P)) with (length P + 1) by lia. reflexivity. }
  simpl. rewrite (slice_app3 (P ++ ["/"%char]) N R); [|list_app|list_len|list_len].
  by rewrite bool_decide_false.
Qed.

(** C17: For a path-style data source [pre/name rest] with no other [/]
    and a name of the bytes [[0-9,a-z,A-Z$_-]], the bootstrap
    connection string deletes exactly the name and keeps the [/]. *)
Theorem connStr_path pre name rest :
  "/"%char ∉ pre -> "/"%char ∉ rest ->
  name <> [] -> forallb conn_name_byte name = true ->
  span conn_name_byte rest = 0 ->
  connStr (pre ++ "/"%char :: name ++ rest) = pre ++ "/"%char :: rest.
Proof.
  intros Hpre Hrest Hne Hname Hsp.
  set (s := pre ++ "/"%char :: name ++ rest).
  assert (Hlen : length s = length pre + 1 + length name + length rest) by (subst s; list_len).
  assert (HspN : span conn_name_byte (name ++ rest) = length name).
  { rewrite span_app_all by done. lia. }
  assert (Hname0 : length name <> 0) by (destruct name; simpl; [done|lia]).
  assert (Hfirst : search_from connStrRegex 0 (drop 0 s) =
    Some (length pre, length pre + 1 + length name,
          <[1 := Some (length pre + 1, length pre + 1 + length name)]> (init_caps connStrRegex))).
  { rewrite drop_0, (search_from_skip _ (length pre)); [|subst s; list_len|].
    - rewrite Nat.add_0_l. subst s. rewrite drop_app_length. apply search_from_here.
      cbn [re_prog connStrRegex m]. rewrite Ascii.eqb_refl.
      rewrite (m_plus_pick _ _ _ _ _ (length name)
                 (S (length pre) + length name,
                  <[1 := Some (S (length pre), S (length pre) + length name)]>
                    (init_caps connStrRegex)));
        [|rewrite HspN; lia|by rewrite drop_app_length|rewrite HspN; lia].
      replace (S (length pre)) with (length pre + 1) by lia. reflexivity.
    - intros i Hi. cbn [re_prog connStrRegex]. apply m_seq_char_drop_none.
      subst s. rewrite lookup_app_l by done. by apply not_in_lookup. }
  rewrite drop_0 in Hfirst. unfold connStr.
  rewrite (ReplaceAllString_once connStrRegex s (str "/") (length pre) (length pre + 1 + length name) _ ltac:(lia) Hfirst).
  2:{ apply search_from_none. intros i Hi. cbn [re_prog connStrRegex].
      rewrite drop_drop. apply m_seq_char_drop_none.
      subst s. rewrite (drop_app_split (pre ++ "/"%char :: name) rest) in Hi; [|list_app|list_len].
      replace (pre ++ "/"%char :: name ++ rest) with ((pre ++ "/"%char :: name) ++ rest) by list_app.
      rewrite lookup_app_r by list_len. by apply not_in_lookup. }
  rewrite expand_no_dollar by (apply (bool_decide_unpack _); vm_compute; exact I).
  subst s. rewrite take_app_length.
  rewrite (drop_app_split (pre ++ "/"%char :: name) rest); [list_app|list_app|list_len].
Qed.

(** The name [getDBName] finds in a key-style data source. *)
Lemma getDBName_key pre name rest :
  "/"%char ∉ pre ->
  find (str "dbname=") (ToLower pre) = None ->
  name <> [] -> forallb not_space name = true ->
  span not_space rest = 0 ->
  getDBName (pre ++ str "dbname=" ++ name ++ rest) = ToLower name.
Proof.
  intros Hsl Hdb Hne Hname Hrest. unfold getDBName.
  rewrite !ToLower_app. change (ToLower (str "dbname=")) with (str "dbname=").
  set (P := ToLower pre). set (N := ToLower name). set (R := ToLower rest).
  assert (HN : N <> []) by (subst N; by destruct name).
  assert (HspN : span not_space (N ++ R) = length N)
    by (apply span_ToLower_name; auto using lower_byte_not_space).
  unfold FindStringSubmatch, FindStringSubmatchIndex.
  rewrite (search_from_skip _ (length P)); [|list_len|].
  2:{ intros i Hi. cbn [re_prog dbNameRegex]. rewrite m_alt.
      rewrite m_seq_char_drop_none.
      2:{ rewrite lookup_app_l by done. intros HP.
          apply (slash_not_in_ToLower pre Hsl). apply list_elem_of_lookup. eauto. }
      rewrite m_seq_lit. by rewrite dbname_not_before. }
  rewrite drop_app_length, Nat.add_0_l.
  rewrite search_from_here with (e := length P + 7 + length N)
    (c := <[2 := Some (length P + 7, length P + 7 + length N)]> (init_caps dbNameRegex)).
  2:{ cbn [re_prog dbNameRegex]. rewrite m_alt.
      rewrite (m_seq_char_drop_none _ _ _ (str "dbname=" ++ N ++ R) 0) by done. cbn beta iota.
      rewrite m_seq_lit, prefixb_app, drop_app_length. cbn [m].
      apply (m_plus_pick _ _ _ _ _ (length N)); [rewrite HspN; destruct N; simpl; [done|lia]| |lia].
      rewrite drop_app_length. reflexivity. }
  simpl. by rewrite (slice_app3 (P ++ str "dbname=") N R); [|list_app|list_len|list_len].
Qed.

(** The groups of the one match of [dbNameKeyRegex] in a key-style
    data source. *)
Definition key_caps (pre old : bytes) : caps :=
  <[0 := Some (length pre, length pre + 7 + length old)]> (<[2 := Some (length pre + 7, length pre + 7 + length old)]>
    (<[1 := Some (length pre, length pre + 7)]> (init_caps dbNameKeyRegex))).

(** [getConnStr] on a key-style data source replaces the one match
    by the expanded template. *)
Lemma getConnStr_one pre old rest new :
  find (str "dbname=") pre = None -> find (str "dbname=") rest = None ->
  old <> [] -> forallb not_space old = true -> span not_space rest = 0 ->
  getConnStr (pre ++ str "dbname=" ++ old ++ rest) new =
  pre ++ expand (str "dbname=" ++ new) (pre ++ str "dbname=" ++ old ++ rest) (key_caps pre old) ++ rest.
Proof.
  intros Hpre Hrest Hne Hold Hsp. unfold getConnStr, key_caps.
  set (W := str "dbname="). set (s := pre ++ W ++ old ++ rest).
  assert (HspO : span not_space (old ++ rest) = length old) by (rewrite span_app_all by done; lia).
  assert (Hold0 : length old <> 0) by (destruct old; simpl; [done|lia]).
  assert (Hfirst : search_from dbNameKeyRegex 0 s =
    Some (length pre, length pre + 7 + length old,
          <[2 := Some (length pre + 7, length pre + 7 + length old)]>
            (<[1 := Some (length pre, length pre + 7)]> (init_caps dbNameKeyRegex)))).
  { rewrite (search_from_skip _ (length pre)); [|subst s; list_len|].
    - rewrite Nat.add_0_l. subst s. rewrite drop_app_length. apply search_from_here.
      cbn [re_prog dbNameKeyRegex m]. rewrite m_lit, prefixb_app, drop_app_length.
      apply (m_plus_pick _ _ _ _ _ (length old)); [rewrite HspO; lia| |rewrite HspO; lia].
      rewrite drop_app_length. reflexivity.
    - intros i Hi. cbn [re_prog dbNameKeyRegex m]. rewrite m_lit.
      subst s W. by rewrite dbname_not_before. }
  rewrite (ReplaceAllString_once dbNameKeyRegex s (W ++ new) (length pre)
             (length pre + 7 + length old) _ ltac:(lia) Hfirst).
  2:{ apply search_from_none. intros i Hi. cbn [re_prog dbNameKeyRegex m]. rewrite m_lit.
      subst s. replace (pre ++ W ++ old ++ rest) with ((pre ++ W ++ old) ++ rest) in * by list_app.
      replace (length pre + 7 + length old) with (length (pre ++ W ++ old)) in * by list_len.
      rewrite drop_app_length in *.
      destruct (prefixb (str "dbname=") (drop i rest)) eqn:E; [|done].
      destruct (find_complete _ rest i Hi E) as [j Hj].
      congruence. }
  subst s. rewrite take_app_length.
  rewrite (drop_app_split (pre ++ W ++ old) rest); [reflexivity|list_app|list_len].
Qed.

(** The replacement [getConnStr] makes in a key-style data source. *)
Lemma getConnStr_replace pre old rest new :
  find (str "dbname=") pre = None -> find (str "dbname=") rest = None ->
  old <> [] -> forallb not_space old = true -> span not_space rest = 0 ->
  "$"%char ∉ new ->
  getConnStr (pre ++ str "dbname=" ++ old ++ rest) new = pre ++ str "dbname=" ++ new ++ rest.
Proof.
  intros Hpre Hrest Hne Hold Hsp Hnew. rewrite getConnStr_one by done.
  rewrite expand_no_dollar; [done|].
  intros Hd. apply elem_of_app in Hd as [Hd|Hd]; [|done]. revert Hd. by apply (bool_decide_unpack _).
Qed.

(** C18: [getConnStr] on a data source [pre dbname=old rest] with no
    other [dbname=] and a new name without [$] replaces exactly the old
    name by the new one. *)
Theorem getConnStr_key pre old rest new :
  find (str "dbname=") pre = None -> find (str "dbname=") rest = None ->
  old <> [] -> forallb not_space old = true -> span not_space rest = 0 ->
  "$"%char ∉ new ->
  getConnStr (pre ++ str "dbname=" ++ old ++ rest) new = pre ++ str "dbname=" ++ new ++ rest.
Proof. exact (getConnStr_replace pre old rest new). Qed.

(** C19: [getConnStr] and [getDBName] agree: after [getConnStr]
    puts a new name (without [$] or white space) in a key-style data
    source, [getDBName] reads that name back, in lower case. *)
Theorem getConnStr_getDBName pre old rest new :
  "/"%char ∉ pre -> find (str "dbname=") (ToLower pre) = None ->
  find (str "dbname=") rest = None ->
  old <> [] -> forallb not_space old = true -> span not_space rest = 0 ->
  new <> [] -> forallb not_space new = true -> "$"%char ∉ new ->
  getDBName (getConnStr (pre ++ str "dbname=" ++ old ++ rest) new) = ToLower new.
Proof.
  intros Hsl Hpre Hrest Hne Hold Hsp Hne' Hnew Hd.
  rewrite getConnStr_replace by auto using find_dbname_ToLower.
  by apply getDBName_key.
Qed.


Lemma getDBName_path_witness :
  getDBName (str "root:secret@tcp(127.0.0.1:3306)" ++ "/"%char :: str "MyDB" ++ str "?charset=utf8")
  = str "mydb".
Proof.
  apply getDBName_path; try reflexivity; try (vm_compute; discriminate).
  apply (bool_decide_unpack _). vm_compute. exact I.
Defined.

Lemma connStr_path_witness :
  connStr (str "root:secret@tcp(127.0.0.1:3306)" ++ "/"%char :: str "switch" ++ str "?charset=utf8")
  = str "root:secret@tcp(127.0.0.1:3306)" ++ "/"%char :: str "?charset=utf8".
Proof.
  apply connStr_path; try reflexivity; try (vm_compute; discriminate);
    apply (bool_decide_unpack _); vm_compute; exact I.
Defined.


Lemma getConnStr_key_witness :
  getConnStr (str "host=db " ++ str "dbname=" ++ str "orders" ++ str " sslmode=disable") (str "audit")
  = str "host=db " ++ str "dbname=" ++ str "audit" ++ str " sslmode=disable".
Proof.
  apply getConnStr_key; try reflexivity; try (vm_compute; discriminate).
  all: apply (bool_decide_unpack _); vm_compute; exact I.
Defined.

Lemma getConnStr_getDBName_witness :
  getDBName (getConnStr (str "host=db " ++ str "dbname=" ++ str "orders" ++ str " sslmode=disable")
               (str "Audit")) = str "audit".
Proof.
  apply getConnStr_getDBName; try reflexivity; try (vm_compute; discriminate).
  all: apply (bool_decide_unpack _); vm_compute; exact I.
Defined.

