(* ===== verification/World.v ===== *)
(** * The environment the code acts on

    Everything [src/config/config.go] and [src/dao] touch outside the
    process, as one state [World]: the file system, the wall clock,
    the MySQL server (when it accepts connections and which databases
    it has), the TLS profiles registered with the MySQL driver, the
    [database/sql] pools the code opened, and the trace of observable
    calls in the order they happen.  The Go library calls the code
    makes are operations of the monad [M] on this state, written from
    the behaviour of [os], [io/ioutil], [time] and [database/sql]:
    - [ioutil.ReadFile], [ioutil.WriteFile], [os.Stat];
    - [time.Now], [time.Sleep];
    - [mysql.RegisterTLSConfig];
    - [sqlx.Open], [DB.Ping], [DB.Exec], [DB.Close],
      [DB.SetMaxIdleConns], [DB.SetMaxOpenConns] (the last two as in
      [database/sql], including how they keep the idle limit under
      the open limit).
    What the libraries compute from bytes they do not own (PEM and
    X.509 decoding, the MySQL driver's DSN parser) is an interface,
    the classes [CryptoLib] and [MySQLDriver]: the theorems hold for
    every instance. *)

From S2P Require Import Prelude.

(** ** Certificates and TLS profiles *)

Record Cert := MkCert {
  cert_not_before : Z;   (* UTC, nanoseconds *)
  cert_not_after : Z;
  cert_raw : bytes
}.

(** A [*tls.Config] as the code builds it. *)
Record TlsConfig := MkTlsConfig {
  tls_certificates : list Cert;
  tls_root_cas : list Cert
}.

(** [encoding/pem], [crypto/x509] and [crypto/tls] on byte contents. *)
Class CryptoLib := {
  (** [pem.Decode]: the bytes of the first block, if any *)
  pem_decode : bytes -> option bytes;
  (** [x509.ParseCertificate] *)
  x509_parse : bytes -> outcome Cert;
  (** [tls.X509KeyPair(certPEM, keyPEM)] *)
  x509_key_pair : bytes -> bytes -> outcome Cert;
  (** the certificates [CertPool.AppendCertsFromPEM] adds *)
  pem_certs : bytes -> list Cert
}.

(** The DSN parser of [github.com/go-sql-driver/mysql], which
    [sqlx.Open] runs: [Some e] is the error it reports. *)
Class MySQLDriver := {
  parse_dsn : bytes -> option bytes
}.

(** ** State *)

Inductive fentry :=
| FReg (contents : bytes)    (* a readable regular file *)
| FNoPerm.                   (* a file that exists but cannot be read *)

(** A [*sql.DB] pool. [pool_max_idle] is [maxIdleCount] of
    [database/sql] (0: the default of 2, negative: no idle
    connection); [pool_close_err] is the error closing its idle
    connections reports, if one of them is broken; [pool_in_use]
    counts the connections handed out and not yet released (a
    transaction holds one until it commits). *)
Record Pool := MkPool {
  pool_dsn : bytes;
  pool_closed : bool;
  pool_max_idle : Z;
  pool_max_open : Z;
  pool_close_err : option bytes;
  pool_in_use : nat
}.

(** The rows of a table: the auto-increment identifier and the other
    columns by name. *)
Record Row := MkRow {
  row_id : Z;
  row_cols : list (bytes * bytes)
}.

(** A table: its columns in order, each with whether it is the
    [AUTO_INCREMENT] one, the next auto-increment value and the rows
    in identifier order. *)
Record Table := MkTable {
  tbl_schema : list (bytes * bool);
  tbl_auto : Z;
  tbl_rows : list Row
}.

Inductive event :=
| EvWriteFile (path : bytes)
| EvRegisterTLS (name : bytes)
| EvOpen (id : nat) (dsn : bytes)
| EvPing (id : nat) (ok : bool)
| EvSleep (ns : Z)
| EvExec (id : nat) (stmt : bytes)
| EvClose (id : nat)
| EvPrint (fd : nat) (line : bytes).   (* a line written to stdout (1) or stderr (2) *)

Record World := MkWorld {
  w_fs : gmap bytes fentry;
  w_write_err : gmap bytes bytes;   (* paths [WriteFile] cannot create, with the error *)
  w_now : Z;                        (* UTC, nanoseconds *)
  w_up_from : option Z;             (* the server accepts connections from then on *)
  w_dbs : gset bytes;               (* databases on the server *)
  w_tables : gmap bytes Table;      (* the tables of the database the demo uses *)
  w_tls : gmap bytes TlsConfig;     (* profiles registered with the driver *)
  w_pools : gmap nat Pool;
  w_next_pool : nat;
  w_trace : list event
}.

Abbreviation M := (st World).

Definition log (e : event) (w : World) : World :=
  MkWorld (w_fs w) (w_write_err w) (w_now w) (w_up_from w) (w_dbs w) (w_tables w) (w_tls w)
    (w_pools w) (w_next_pool w) (w_trace w ++ [e]).

Definition set_fs (fs : gmap bytes fentry) (w : World) : World :=
  MkWorld fs (w_write_err w) (w_now w) (w_up_from w) (w_dbs w) (w_tables w) (w_tls w)
    (w_pools w) (w_next_pool w) (w_trace w).

Definition set_now (t : Z) (w : World) : World :=
  MkWorld (w_fs w) (w_write_err w) t (w_up_from w) (w_dbs w) (w_tables w) (w_tls w)
    (w_pools w) (w_next_pool w) (w_trace w).

Definition set_dbs (d : gset bytes) (w : World) : World :=
  MkWorld (w_fs w) (w_write_err w) (w_now w) (w_up_from w) d (w_tables w) (w_tls w)
    (w_pools w) (w_next_pool w) (w_trace w).

Definition set_tables (t : gmap bytes Table) (w : World) : World :=
  MkWorld (w_fs w) (w_write_err w) (w_now w) (w_up_from w) (w_dbs w) t (w_tls w)
    (w_pools w) (w_next_pool w) (w_trace w).

Definition set_tls (t : gmap bytes TlsConfig) (w : World) : World :=
  MkWorld (w_fs w) (w_write_err w) (w_now w) (w_up_from w) (w_dbs w) (w_tables w) t
    (w_pools w) (w_next_pool w) (w_trace w).

Definition set_pools (p : gmap nat Pool) (n : nat) (w : World) : World :=
  MkWorld (w_fs w) (w_write_err w) (w_now w) (w_up_from w) (w_dbs w) (w_tables w) (w_tls w)
    p n (w_trace w).

(** ** Files ([os], [io/ioutil]) *)

Definition err_open (path reason : bytes) : bytes := str "open " ++ path ++ str ": " ++ reason.

(** [os.Stat(p)] followed by [os.IsNotExist(err)]: only a missing
    file counts as absent. *)
Definition stat_exists (p : bytes) : M bool :=
  fun w => (Ok (bool_decide (is_Some (w_fs w !! p))), w).

Definition ReadFile (p : bytes) : M bytes :=
  fun w =>
    match w_fs w !! p with
    | Some (FReg c) => (Ok c, w)
    | Some FNoPerm => (Err (err_open p (str "permission denied")), w)
    | None => (Err (err_open p (str "no such file or directory")), w)
    end.

Definition WriteFile (p data : bytes) : M unit :=
  fun w =>
    match w_write_err w !! p with
    | Some e => (Err e, w)
    | None => (Ok tt, log (EvWriteFile p) (set_fs (<[p := FReg data]> (w_fs w)) w))
    end.

Lemma read_only_stat_exists p : read_only (stat_exists p).
Proof. done. Qed.
Lemma read_only_ReadFile p : read_only (ReadFile p).
Proof. intros w. unfold ReadFile. by repeat case_match. Qed.

(** ** Clock ([time]) *)

Definition second : Z := 1000000000.

Definition Now : M Z := fun w => (Ok (w_now w), w).

Lemma read_only_Now : read_only Now.
Proof. done. Qed.

#[export] Hint Resolve read_only_stat_exists read_only_ReadFile read_only_Now : dao.

Definition Sleep (d : Z) : M unit :=
  fun w => (Ok tt, log (EvSleep d) (set_now (w_now w + d) w)).

(** ** The MySQL driver and server *)

Definition RegisterTLSConfig (name : bytes) (c : TlsConfig) : M unit :=
  fun w => (Ok tt, log (EvRegisterTLS name) (set_tls (<[name := c]> (w_tls w)) w)).

Definition server_up (w : World) : bool :=
  match w_up_from w with
  | Some t => bool_decide (t <= w_now w)%Z
  | None => false
  end.

Definition err_refused : bytes := str "dial tcp: connect: connection refused".
Definition err_closed : bytes := str "sql: database is closed".
Definition err_syntax : bytes := str "Error 1064: You have an error in your SQL syntax".

(** An unquoted MySQL identifier: letters, digits, [$], [_] and bytes
    of multi-byte characters, not only digits. *)
Definition ident_byte (c : ascii) : bool :=
  ascii_between "0" "9" c || ascii_between "a" "z" c || ascii_between "A" "Z" c
  || (c =? "$")%char || (c =? "_")%char || (128 <=? nat_of_ascii c).

Definition valid_ident (n : bytes) : bool :=
  bool_decide (n <> []) && forallb ident_byte n
  && negb (forallb (ascii_between "0" "9") n).

Definition create_db_prefix : bytes := str "CREATE DATABASE IF NOT EXISTS ".

(** The server's answer to a statement the code sends; [None] is
    success. *)
Definition server_exec (stmt : bytes) (dbs : gset bytes) : option bytes * gset bytes :=
  if prefixb create_db_prefix stmt then
    let name := drop (length create_db_prefix) stmt in
    if valid_ident name then (None, {[name]} ∪ dbs) else (Some err_syntax, dbs)
  else (Some err_syntax, dbs).

Section Driver.
Context `{MySQLDriver}.

(** [sqlx.Open("mysql", dsn)]: parses the DSN, connects to nothing. *)
Definition sqlx_Open (dsn : bytes) : M nat :=
  fun w =>
    match parse_dsn dsn with
    | Some e => (Err e, w)
    | None =>
        let id := w_next_pool w in
        (Ok id, log (EvOpen id dsn)
                  (set_pools (<[id := MkPool dsn false 0 0 None 0]> (w_pools w)) (S id) w))
    end.
End Driver.

Definition pool_open (id : nat) (w : World) : bool :=
  match w_pools w !! id with
  | Some p => negb (pool_closed p)
  | None => false
  end.

(** [db.Ping()]: the error it returns, [None] for success. *)
Definition Ping (id : nat) : M (option bytes) :=
  fun w =>
    if negb (pool_open id w) then (Ok (Some err_closed), w)
    else if server_up w then (Ok None, log (EvPing id true) w)
    else (Ok (Some err_refused), log (EvPing id false) w).

Lemma Ping_returns db w : exists r w', Ping db w = (Ok r, w').
Proof. unfold Ping. repeat case_match; eauto. Qed.

(** [db.Exec(stmt)]: the error it returns. *)
Definition Exec (id : nat) (stmt : bytes) : M (option bytes) :=
  fun w =>
    if negb (pool_open id w) then (Ok (Some err_closed), w)
    else if negb (server_up w) then (Ok (Some err_refused), log (EvExec id stmt) w)
    else
      let '(r, dbs) := server_exec stmt (w_dbs w) in
      (Ok r, log (EvExec id stmt) (set_dbs dbs w)).

(** [db.Close()]: idempotent; the first close reports the error of
    closing the idle connections. *)
Definition Close (id : nat) : M (option bytes) :=
  fun w =>
    match w_pools w !! id with
    | Some p =>
        if pool_closed p then (Ok None, w)
        else (Ok (pool_close_err p),
              log (EvClose id)
                (set_pools (<[id := MkPool (pool_dsn p) true (pool_max_idle p)
                                          (pool_max_open p) (pool_close_err p) (pool_in_use p)]> (w_pools w))
                           (w_next_pool w) w))
    | None => (Ok None, w)
    end.

Lemma Close_returns id w : exists r w', Close id w = (Ok r, w').
Proof. unfold Close. repeat case_match; eauto. Qed.

Lemma Close_open id p w :
  w_pools w !! id = Some p -> pool_closed p = false ->
  Close id w =
  (Ok (pool_close_err p),
   log (EvClose id) (set_pools (<[id := MkPool (pool_dsn p) true (pool_max_idle p)
                                             (pool_max_open p) (pool_close_err p) (pool_in_use p)]> (w_pools w))
                               (w_next_pool w) w)).
Proof. unfold Close. by intros -> ->. Qed.

(** [maxIdleConnsLocked]: the idle limit in effect. *)
Definition max_idle_effective (p : Pool) : Z :=
  if bool_decide (pool_max_idle p = 0%Z) then 2%Z
  else if bool_decide (pool_max_idle p < 0)%Z then 0%Z
  else pool_max_idle p.

Definition with_limits (p : Pool) (idle open : Z) : Pool :=
  MkPool (pool_dsn p) (pool_closed p) idle open (pool_close_err p) (pool_in_use p).

(** [db.SetMaxIdleConns(n)] *)
Definition set_max_idle (n : Z) (p : Pool) : Pool :=
  let idle := if bool_decide (0 < n)%Z then n else (-1)%Z in
  let p' := with_limits p idle (pool_max_open p) in
  if bool_decide (0 < pool_max_open p')%Z
     && bool_decide (pool_max_open p' < max_idle_effective p')%Z
  then with_limits p' (pool_max_open p') (pool_max_open p')
  else p'.

(** [db.SetMaxOpenConns(n)] *)
Definition set_max_open (n : Z) (p : Pool) : Pool :=
  let open := if bool_decide (n < 0)%Z then 0%Z else n in
  let p' := with_limits p (pool_max_idle p) open in
  if bool_decide (0 < open)%Z && bool_decide (open < max_idle_effective p')%Z
  then set_max_idle n p'
  else p'.

Definition update_pool (id : nat) (f : Pool -> Pool) : M unit :=
  fun w =>
    match w_pools w !! id with
    | Some p => (Ok tt, set_pools (<[id := f p]> (w_pools w)) (w_next_pool w) w)
    | None => (Ok tt, w)
    end.

Lemma update_pool_some id f p w :
  w_pools w !! id = Some p ->
  update_pool id f w = (Ok tt, set_pools (<[id := f p]> (w_pools w)) (w_next_pool w) w).
Proof. unfold update_pool. by intros ->. Qed.

Definition SetMaxIdleConns (id : nat) (n : Z) : M unit := update_pool id (set_max_idle n).
Definition SetMaxOpenConns (id : nat) (n : Z) : M unit := update_pool id (set_max_open n).

(** ** Well-formed worlds

    Pool identifiers are handed out in order: no pool exists at or
    beyond [w_next_pool]. *)
Definition wf_world (w : World) : Prop :=
  forall id, (w_next_pool w <= id)%nat -> w_pools w !! id = None.

(** The primitives that leave the pools alone. *)
Lemma wf_world_same_pools w w' :
  w_pools w' = w_pools w -> w_next_pool w' = w_next_pool w -> wf_world w -> wf_world w'.
Proof. intros Hp Hn Hw id. rewrite Hp, Hn. apply Hw. Qed.

Lemma wf_world_insert_old id p w :
  is_Some (w_pools w !! id) -> wf_world w ->
  wf_world (set_pools (<[id := p]> (w_pools w)) (w_next_pool w) w).
Proof.
  intros [q Hq] Hw j Hj. simpl in *. rewrite lookup_insert_ne; [by apply Hw|].
  intros <-. rewrite Hw in Hq by done. done.
Qed.

Ltac wf_prim :=
  intros w Hw; unfold WriteFile, Sleep, RegisterTLSConfig, Ping, Exec in *;
  repeat case_match; simplify_eq/=; try (eapply wf_world_same_pools; [..|exact Hw]; done).

Lemma wf_WriteFile p d : preserves wf_world (WriteFile p d).
Proof. wf_prim. Qed.
Lemma wf_Sleep d : preserves wf_world (Sleep d).
Proof. wf_prim. Qed.
Lemma wf_RegisterTLSConfig n c : preserves wf_world (RegisterTLSConfig n c).
Proof. wf_prim. Qed.
Lemma wf_Ping id : preserves wf_world (Ping id).
Proof. wf_prim. Qed.
Lemma wf_Exec id s : preserves wf_world (Exec id s).
Proof. wf_prim. Qed.

Lemma wf_Close id : preserves wf_world (Close id).
Proof.
  intros w Hw. unfold Close. destruct (w_pools w !! id) as [p|] eqn:E; [|done].
  destruct (pool_closed p); [done|]. by apply wf_world_insert_old.
Qed.

Lemma wf_update_pool id f : preserves wf_world (update_pool id f).
Proof.
  intros w Hw. unfold update_pool. destruct (w_pools w !! id) eqn:E; [|done].
  by apply wf_world_insert_old.
Qed.

Lemma wf_sqlx_Open `{MySQLDriver} d : preserves wf_world (sqlx_Open d).
Proof.
  intros w Hw. unfold sqlx_Open. destruct (parse_dsn d); [done|].
  intros j Hj. simpl in *. rewrite lookup_insert_ne by lia. apply Hw. lia.
Qed.

#[export] Hint Resolve wf_WriteFile wf_Sleep wf_RegisterTLSConfig wf_Ping wf_Exec wf_Close
  wf_update_pool wf_sqlx_Open : dao.
#[export] Hint Extern 1 (preserves _ (stat_exists _)) =>
  apply preserves_read_only, read_only_stat_exists : dao.
#[export] Hint Extern 1 (preserves _ (ReadFile _)) =>
  apply preserves_read_only, read_only_ReadFile : dao.
#[export] Hint Extern 1 (preserves _ Now) => apply preserves_read_only, read_only_Now : dao.
