(* ===== verification/Config.v ===== *)
(** * The configuration loader (src/config/config.go)

    [DataBaseConfig] and [ServerTLSConfig] as records, the default
    values, [CheckFileIsExist] and [LoadDBConfig], which reads
    [<dir>/configs/dao.toml] or, when the file is missing, returns the
    defaults and writes them there.  The TOML library and the path
    functions of [path/filepath] are interfaces ([GoConfigLibs]); the
    round trip of the configuration file is proved for every TOML
    codec whose decoder inverts its encoder ([TomlRoundTrip]). *)

From S2P Require Import Prelude World.

(** ** Data (config.go lines 24-38) *)

Record ServerTLSConfig := MkServerTLSConfig {
  Enabled : bool;
  CertFile : bytes;
  KeyFile : bytes;
  CaCert : bytes
}.

(** Go's [int] fields are 64-bit; the code only copies them, so they
    are kept as [Z]. *)
Record DataBaseConfig := MkDataBaseConfig {
  Type' : bytes;        (* the field [Type] *)
  DataSource : bytes;
  MaxIdle : Z;
  MaxOpen : Z;
  IsLoger : bool;
  TLS : ServerTLSConfig
}.

(** ** Defaults (config.go lines 12-22) *)

Definition DB_TYPE : bytes := str "mysql".
Definition DB_SOURCE : bytes :=
  str "root:Zsba@mysql2018*@tcp(127.0.0.1:3306)/switch?charset=utf8&parseTime=true".
Definition DB_MAXIDLE : Z := 30.
Definition DB_MAXOPEN : Z := 30.
Definition DB_ISLOGER : bool := true.
Definition DB_TLS_ENABLED : bool := false.
Definition DB_TLS_CLIENTCERT : bytes := str "db_client.pem".
Definition DB_TLS_CLIENTKEY : bytes := str "db_client.key".
Definition DB_TLS_CACERT : bytes := str "db_ca.pem".

(** The configuration [LoadDBConfig] fills in field by field (lines
    61-69) when the file is missing. *)
Definition default_config : DataBaseConfig :=
  MkDataBaseConfig DB_TYPE DB_SOURCE DB_MAXIDLE DB_MAXOPEN DB_ISLOGER
    (MkServerTLSConfig DB_TLS_ENABLED DB_TLS_CLIENTCERT DB_TLS_CLIENTKEY DB_TLS_CACERT).

(** ** Library interfaces *)

Class GoConfigLibs := {
  (** [filepath.Join] *)
  filepath_Join : bytes -> bytes -> bytes;
  (** [filepath.Abs], for the working directory of the process *)
  filepath_Abs : bytes -> outcome bytes;
  (** [toml.Decode] of a file's contents into a zero [DataBaseConfig] *)
  toml_decode : bytes -> outcome DataBaseConfig;
  (** [toml.NewEncoder(buf).Encode(config)] *)
  toml_encode : DataBaseConfig -> outcome bytes
}.

(** What a TOML codec promises: decoding what it encoded gives the
    configuration back. *)
Class TomlRoundTrip `{GoConfigLibs} :=
  toml_decode_encode : forall c s, toml_encode c = Ok s -> toml_decode s = Ok c.

Section Loader.
Context `{GoConfigLibs}.

(** ** [CheckFileIsExist] (config.go lines 40-46) *)
Definition CheckFileIsExist (filename : bytes) : M bool := stat_exists filename.

(** ** [LoadDBConfig] (config.go lines 48-81)

    [toml.DecodeFile] reads the file, then decodes it. *)
Definition LoadDBConfig (dir : bytes) : M DataBaseConfig :=
  let path := filepath_Join dir (str "./configs/dao.toml") in
  let* filePath := liftO (filepath_Abs path) in
  let* exists_ := CheckFileIsExist filePath in
  if exists_ then
    let* contents := ReadFile filePath in
    liftO (toml_decode contents)
  else
    let config := default_config in
    let* configBuf := liftO (toml_encode config) in
    let* _ := WriteFile filePath configBuf in
    retS config.

End Loader.

(** ** A concrete environment for the witnesses

    A working directory [/app], and a codec that stores the default
    configuration under a fixed text and rejects anything else. *)

#[global] Instance ServerTLSConfig_eq_dec : EqDecision ServerTLSConfig.
Proof. solve_decision. Defined.
#[global] Instance DataBaseConfig_eq_dec : EqDecision DataBaseConfig.
Proof. solve_decision. Defined.

Definition default_toml : bytes := str "Type = mysql; MaxIdle = 30; MaxOpen = 30".

Definition demo_libs : GoConfigLibs := {|
  filepath_Join := fun d f => d ++ str "/" ++ f;
  filepath_Abs := fun p => Ok p;
  toml_decode := fun s =>
    if bool_decide (s = default_toml) then Ok default_config else Err (str "toml: bare keys only");
  toml_encode := fun c =>
    if bool_decide (c = default_config) then Ok default_toml else Err (str "toml: unsupported value")
|}.

Definition empty_world : World := MkWorld ∅ ∅ 0 None ∅ ∅ ∅ ∅ 0 [].

(** ** Properties of [LoadDBConfig] *)

Section LoaderProofs.
Context `{GoConfigLibs}.

(** The path [LoadDBConfig] resolves. *)
Definition config_path (dir : bytes) : outcome bytes :=
  filepath_Abs (filepath_Join dir (str "./configs/dao.toml")).

(** Resolve the path: with [config_path dir = Ok p] the loader goes
    on with [p]. *)
Ltac load_unfold Hp :=
  let Hq := fresh "Hq" in
  pose proof Hp as Hq; unfold config_path in Hq;
  unfold LoadDBConfig at 1; unfold bindS at 1; cbn [liftO]; rewrite Hq; clear Hq.
(** C11: When the configuration file is missing and can be written,
    [LoadDBConfig] returns the defaults (type [mysql], limits 30 and
    30) and writes their encoding at the resolved path. *)
Theorem LoadDBConfig_first_run dir w p s :
  config_path dir = Ok p ->
  w_fs w !! p = None -> w_write_err w !! p = None ->
  toml_encode default_config = Ok s ->
  LoadDBConfig dir w =
  (Ok default_config, log (EvWriteFile p) (set_fs (<[p := FReg s]> (w_fs w)) w)).
Proof.
  intros Hp Hfs Hwe Henc. load_unfold Hp.
  unfold bindS, CheckFileIsExist, stat_exists. rewrite Hfs. simpl.
  unfold liftO. rewrite Henc. unfold WriteFile. by rewrite Hwe.
Qed.

(** When the configuration file exists and is readable,
    [LoadDBConfig] returns what the TOML decoder makes of its contents
    and changes nothing. *)
Theorem LoadDBConfig_existing dir w p c :
  config_path dir = Ok p ->
  w_fs w !! p = Some (FReg c) ->
  LoadDBConfig dir w = (toml_decode c, w).
Proof.
  intros Hp Hfs. load_unfold Hp.
  unfold bindS, CheckFileIsExist, stat_exists. rewrite Hfs. simpl.
  unfold ReadFile. rewrite Hfs. by destruct (toml_decode c).
Qed.

(** When the configuration file exists but cannot be read,
    [LoadDBConfig] fails with the open error and writes nothing: it
    does not fall back to the defaults. *)
Theorem LoadDBConfig_unreadable dir w p :
  config_path dir = Ok p ->
  w_fs w !! p = Some FNoPerm ->
  LoadDBConfig dir w = (Err (err_open p (str "permission denied")), w).
Proof.
  intros Hp Hfs. load_unfold Hp.
  unfold bindS, CheckFileIsExist, stat_exists. rewrite Hfs. simpl.
  unfold ReadFile. by rewrite Hfs.
Qed.

Lemma LoadDBConfig_path_fails dir w :
  (forall p, config_path dir <> Ok p) ->
  LoadDBConfig dir w = (match config_path dir with
                        | Err e => Err e | Panic e => Panic e | Ok _ => Err [] end, w).
Proof.
  unfold LoadDBConfig, config_path. intros Hp. unfold bindS at 1. simpl.
  destruct (filepath_Abs _) as [p|e|e]; [by destruct (Hp p)|done|done].
Qed.

(** C7: Loading twice: the second load reads back what the first one
    returned (writing it first if the file was missing) and changes
    nothing. *)
Theorem LoadDBConfig_roundtrip `{!TomlRoundTrip} dir w c w1 :
  LoadDBConfig dir w = (Ok c, w1) ->
  LoadDBConfig dir w1 = (Ok c, w1).
Proof.
  destruct (config_path dir) as [p|e|e] eqn:Hp.
  2,3: rewrite LoadDBConfig_path_fails by congruence; by rewrite Hp.
  destruct (w_fs w !! p) as [[contents|]|] eqn:Hfs.
  - rewrite (LoadDBConfig_existing _ _ _ _ Hp Hfs). intros [= Hdec <-].
    by rewrite (LoadDBConfig_existing _ _ _ _ Hp Hfs), Hdec.
  - by rewrite (LoadDBConfig_unreadable _ _ _ Hp Hfs).
  - load_unfold Hp.
    unfold bindS, CheckFileIsExist, stat_exists. rewrite Hfs. simpl.
    unfold liftO. destruct (toml_encode default_config) as [s|e|e] eqn:Henc; [|done|done].
    unfold WriteFile. destruct (w_write_err w !! p) eqn:Hwe; [done|].
    intros [= <- <-].
    rewrite (LoadDBConfig_existing _ _ _ s Hp); [|simpl; by rewrite lookup_insert_eq].
    by erewrite toml_decode_encode.
Qed.

(** The loader only writes files: it keeps every invariant of the
    pools. *)
Lemma wf_LoadDBConfig dir : preserves wf_world (LoadDBConfig dir).
Proof. unfold LoadDBConfig, CheckFileIsExist. solve_preserves. Qed.

End LoaderProofs.

#[export] Hint Resolve wf_LoadDBConfig : dao.

#[local] Instance demo_roundtrip : @TomlRoundTrip demo_libs.
Proof.
  intros c s. simpl. case_bool_decide as Hc; [|done]. intros [= <-].
  rewrite bool_decide_true by done. by subst.
Qed.

Lemma LoadDBConfig_first_run_witness :
  @LoadDBConfig demo_libs (str "/app") empty_world =
  (Ok default_config,
   log (EvWriteFile (str "/app/./configs/dao.toml"))
     (set_fs {[str "/app/./configs/dao.toml" := FReg default_toml]} empty_world)).
Proof. apply (@LoadDBConfig_first_run demo_libs); reflexivity. Defined.

Lemma LoadDBConfig_roundtrip_witness :
  let w1 := snd (@LoadDBConfig demo_libs (str "/app") empty_world) in
  @LoadDBConfig demo_libs (str "/app") w1 = (Ok default_config, w1).
Proof.
  intros w1. apply (@LoadDBConfig_roundtrip demo_libs _ _ empty_world). reflexivity.
Defined.
