(* ===== verification/TLS.v ===== *)
(** * The TLS builder (src/dao/dao.go lines 82-155)

    [GetX509CertificateFromPEM], [checkCertDates], [tls.LoadX509KeyPair]
    and [GetClientTLSConfig], over the file system and clock of
    [World], with PEM and X.509 decoding taken from [CryptoLib].  The
    theorems classify every outcome of the validity-window check,
    show that the CA file is required, that a key file without a
    certificate is ignored, and that a CA file holding no certificate
    makes the code dereference a nil error (a panic). *)

From S2P Require Import Prelude World Config.

(** The panic of a method call on a nil [error]. *)
Definition nil_deref : bytes :=
  str "runtime error: invalid memory address or nil pointer dereference".

Section Builder.
Context `{CryptoLib}.

(** ** [GetX509CertificateFromPEM] (lines 82-92) *)
Definition GetX509CertificateFromPEM (cert : bytes) : outcome Cert :=
  match pem_decode cert with
  | None => Err (str "Failed to PEM decode certificate")
  | Some block =>
      match x509_parse block with
      | Ok c => Ok c
      | Err e => Err (str "Error parsing certificate " ++ e)
      | Panic p => Panic p
      end
  end.

Definition err_expired : bytes := str "Certificate provided has expired".
Definition err_not_yet_valid : bytes := str "Certificate provided not valid until later date".

(** ** [checkCertDates] (lines 94-118) *)
Definition checkCertDates (certFile : bytes) : M unit :=
  let* certPEM := wrapS (fun e => str "Failed to read file '" ++ certFile ++ str "' " ++ e)
                        (ReadFile certFile) in
  let* cert := liftO (GetX509CertificateFromPEM certPEM) in
  let notAfter := cert_not_after cert in
  let* currentTime := Now in
  if bool_decide (notAfter < currentTime)%Z then errS err_expired
  else
    let notBefore := cert_not_before cert in
    if bool_decide (currentTime < notBefore)%Z then errS err_not_yet_valid
    else retS tt.

(** [tls.LoadX509KeyPair(certFile, keyFile)] *)
Definition LoadX509KeyPair (certFile keyFile : bytes) : M Cert :=
  let* certPEMBlock := ReadFile certFile in
  let* keyPEMBlock := ReadFile keyFile in
  liftO (x509_key_pair certPEMBlock keyPEMBlock).

(** ** [GetClientTLSConfig] (lines 120-155) *)
(** The client certificates (lines 121-134): none without a
    certificate file, else the key pair once its dates are checked. *)
Definition client_certs (cert key : bytes) : M (list Cert) :=
  if bool_decide (cert <> []) then
    let* _ := checkCertDates cert in
    let* clientCert := LoadX509KeyPair cert key in
    retS [clientCert]
  else retS [].

Definition GetClientTLSConfig (cacert key cert : bytes) : M TlsConfig :=
  let* certs := client_certs cert key in
  if bool_decide (length cacert = 0) then
    errS (str "No trusted root certificates for TLS were provided")
  else
    let* caCert := wrapS (fun e => str "Failed to read '" ++ cacert ++ str "' " ++ e)
                         (ReadFile cacert) in
    let roots := pem_certs caCert in
    if bool_decide (roots = []) then
      (* fmt.Errorf(..., err.Error()) with err == nil *)
      panicS nil_deref
    else retS (MkTlsConfig certs roots).

End Builder.

(** ** Properties *)

Section BuilderProofs.
Context `{CryptoLib}.

(** Unfold the monad and the file and clock primitives. *)
Ltac tls_unfold :=
  unfold checkCertDates, LoadX509KeyPair, GetClientTLSConfig, client_certs, bindS, wrapS, liftO,
    retS, errS, panicS, ReadFile, Now; simpl.

Lemma checkCertDates_read f w c cert :
  w_fs w !! f = Some (FReg c) -> GetX509CertificateFromPEM c = Ok cert ->
  checkCertDates f w =
  ((if bool_decide (cert_not_after cert < w_now w)%Z then Err err_expired
    else if bool_decide (w_now w < cert_not_before cert)%Z then Err err_not_yet_valid
    else Ok tt), w).
Proof.
  intros Hf Hc. tls_unfold. rewrite Hf, Hc. simpl.
  by repeat case_bool_decide.
Qed.

(** C12: A certificate whose [NotAfter] is before the current time is
    rejected as expired. *)
Theorem checkCertDates_expired f w c cert :
  w_fs w !! f = Some (FReg c) -> GetX509CertificateFromPEM c = Ok cert ->
  (cert_not_after cert < w_now w)%Z ->
  checkCertDates f w = (Err err_expired, w).
Proof. intros Hf Hc Ha. rewrite (checkCertDates_read _ _ _ _ Hf Hc). by case_bool_decide. Qed.

(** C13: A certificate not expired whose [NotBefore] is after the current
    time is rejected as not yet valid. *)
Theorem checkCertDates_not_yet_valid f w c cert :
  w_fs w !! f = Some (FReg c) -> GetX509CertificateFromPEM c = Ok cert ->
  (w_now w <= cert_not_after cert)%Z -> (w_now w < cert_not_before cert)%Z ->
  checkCertDates f w = (Err err_not_yet_valid, w).
Proof.
  intros Hf Hc Ha Hb. rewrite (checkCertDates_read _ _ _ _ Hf Hc).
  rewrite bool_decide_false by lia. by rewrite bool_decide_true.
Qed.

Lemma checkCertDates_read_only f : read_only (checkCertDates f).
Proof. unfold checkCertDates. solve_read_only. Qed.

Lemma LoadX509KeyPair_read_only c k : read_only (LoadX509KeyPair c k).
Proof. unfold LoadX509KeyPair. solve_read_only. Qed.

#[local] Hint Resolve checkCertDates_read_only LoadX509KeyPair_read_only : dao.

Lemma client_certs_read_only cert key : read_only (client_certs cert key).
Proof. unfold client_certs. solve_read_only. Qed.

(** The builder only reads: it never changes the world. *)
Lemma GetClientTLSConfig_read_only cacert key cert : read_only (GetClientTLSConfig cacert key cert).
Proof. unfold GetClientTLSConfig. pose proof client_certs_read_only. solve_read_only. Qed.

(** C35: Without a CA file name the builder never succeeds and
    changes nothing: whatever the client certificate, it first checks
    and loads the certificate, returns that error if there is one,
    and otherwise fails with "No trusted root certificates for TLS
    were provided". *)
Theorem GetClientTLSConfig_no_ca key cert w :
  GetClientTLSConfig [] key cert w =
  (match fst (client_certs cert key w) with
   | Ok _ => Err (str "No trusted root certificates for TLS were provided")
   | Err e => Err e
   | Panic p => Panic p
   end, w).
Proof.
  pose proof (client_certs_read_only cert key w) as Hro.
  unfold GetClientTLSConfig, bindS. destruct (client_certs cert key w) as [[c|e|p] w'].
  all: simpl in *; subst w'; done.
Qed.

(** C34: A key file given without a certificate file is ignored. *)
Theorem GetClientTLSConfig_key_ignored cacert key1 key2 w :
  GetClientTLSConfig cacert key1 [] w = GetClientTLSConfig cacert key2 [] w.
Proof. by tls_unfold. Qed.

(** C14: A CA file that holds no certificate makes the code call [Error()]
    on a nil error: the builder panics instead of failing. *)
Theorem GetClientTLSConfig_bad_ca_panics cacert key w a :
  cacert <> [] -> w_fs w !! cacert = Some (FReg a) -> pem_certs a = [] ->
  GetClientTLSConfig cacert key [] w = (Panic nil_deref, w).
Proof.
  intros Hne Hf Hp. tls_unfold.
  rewrite bool_decide_false by (destruct cacert; simpl; done || lia).
  rewrite Hf. simpl. rewrite Hp. by rewrite bool_decide_true.
Qed.

(** C33: With a client certificate in its validity window, a matching key
    and a CA file with certificates, the profile holds both. *)
Theorem GetClientTLSConfig_ok cacert key cert w c k a cc x :
  cert <> [] -> cacert <> [] ->
  w_fs w !! cert = Some (FReg c) -> GetX509CertificateFromPEM c = Ok x ->
  (cert_not_before x <= w_now w <= cert_not_after x)%Z ->
  w_fs w !! key = Some (FReg k) -> x509_key_pair c k = Ok cc ->
  w_fs w !! cacert = Some (FReg a) -> pem_certs a <> [] ->
  GetClientTLSConfig cacert key cert w = (Ok (MkTlsConfig [cc] (pem_certs a)), w).
Proof.
  intros Hc Hca Hf Hx Hw Hk Hkp Ha Hp.
  unfold GetClientTLSConfig, bindS at 1. unfold client_certs. rewrite bool_decide_true by done.
  unfold bindS at 1. rewrite (checkCertDates_read _ _ _ _ Hf Hx).
  rewrite !bool_decide_false by lia.
  tls_unfold. rewrite Hf, Hk, Hkp. simpl.
  rewrite bool_decide_false by (destruct cacert; simpl; done || lia).
  rewrite Ha. simpl. by rewrite bool_decide_false.
Qed.

Lemma wf_GetClientTLSConfig cacert key cert : preserves wf_world (GetClientTLSConfig cacert key cert).
Proof. apply preserves_read_only. unfold GetClientTLSConfig. solve_read_only. Qed.

End BuilderProofs.

#[export] Hint Resolve wf_GetClientTLSConfig : dao.

(** ** A concrete environment for the witnesses

    PEM files are [PEM:] followed by the block; every parsed
    certificate is valid from time 10 to time 20; the only key that
    matches a certificate is [k]. *)

Definition demo_crypto : CryptoLib := {|
  pem_decode := fun s =>
    if prefixb (str "PEM:") s then Some (drop 4 s) else None;
  x509_parse := fun b => Ok (MkCert 10 20 b);
  x509_key_pair := fun c k =>
    if bool_decide (k = str "k") then Ok (MkCert 10 20 c)
    else Err (str "tls: private key does not match public key");
  pem_certs := fun s => if prefixb (str "PEM:") s then [MkCert 0 100 (drop 4 s)] else []
|}.

Definition tls_world (now : Z) : World :=
  set_now now (set_fs {[str "client.pem" := FReg (str "PEM:client");
                         str "client.key" := FReg (str "k");
                         str "ca.pem" := FReg (str "PEM:ca");
                         str "empty.pem" := FReg []]} empty_world).

Lemma checkCertDates_expired_witness :
  @checkCertDates demo_crypto (str "client.pem") (tls_world 30) = (Err err_expired, tls_world 30).
Proof.
  apply (@checkCertDates_expired demo_crypto _ _ (str "PEM:client") (MkCert 10 20 (str "client")));
    reflexivity.
Defined.

Lemma checkCertDates_not_yet_valid_witness :
  @checkCertDates demo_crypto (str "client.pem") (tls_world 5) = (Err err_not_yet_valid, tls_world 5).
Proof.
  apply (@checkCertDates_not_yet_valid demo_crypto _ _ (str "PEM:client")
           (MkCert 10 20 (str "client"))); reflexivity || (simpl; lia).
Defined.

Lemma GetClientTLSConfig_bad_ca_panics_witness :
  @GetClientTLSConfig demo_crypto (str "empty.pem") (str "client.key") [] (tls_world 15)
  = (Panic nil_deref, tls_world 15).
Proof. apply (@GetClientTLSConfig_bad_ca_panics demo_crypto _ _ _ []); reflexivity || discriminate. Defined.

Lemma GetClientTLSConfig_ok_witness :
  @GetClientTLSConfig demo_crypto (str "ca.pem") (str "client.key") (str "client.pem") (tls_world 15)
  = (Ok (MkTlsConfig [MkCert 10 20 (str "PEM:client")] [MkCert 0 100 (str "ca")]), tls_world 15).
Proof.
  apply (@GetClientTLSConfig_ok demo_crypto _ _ _ _ (str "PEM:client") (str "k") (str "PEM:ca")
           _ (MkCert 10 20 (str "client"))); try reflexivity; try discriminate; simpl; lia.
Defined.
