(* ===== verification/MySQL.v ===== *)
(** * The connection bootstrapper (src/dao/mysql.go, src/dao/dao.go)

    [NewUserRegistryMySQL] with its retry loop, [createMySQLDatabase]
    and [createMySQLTables], over the pools, clock and server of
    [World].  The theorems give the outcome of the retry loop for
    every server start time (it pings twelve times and waits 66
    seconds before giving up), show that [CREATE DATABASE IF NOT
    EXISTS] is idempotent, that the pool limits the code sets keep
    the idle limit under the open limit, the result of a successful
    bootstrap, and that a failed one leaves its first pool open. *)

From S2P Require Import Prelude GoStrings Regexp DSN World Config TLS.

(** ** The handle (dao.go lines 28-32)

    [DB] is the pool's identifier in [w_pools], [None] for [nil]. *)
Record SqlxDB := MkSqlxDB {
  DB : option nat;
  IsDBInitialized : bool;
  DatabaseType : bytes
}.

(** ** [createMySQLDatabase] and [createMySQLTables] (dao.go lines 157-206) *)

Definition createMySQLDatabase (dbName : bytes) (db : nat) : M unit :=
  let* err := Exec db (create_db_prefix ++ dbName) in
  match err with
  | Some e => errS (str "Failed to execute create database query " ++ e)
  | None => retS tt
  end.

(** Every statement of its body is commented out. *)
Definition createMySQLTables (dbName : bytes) (db : nat) : M unit := retS tt.

(** ** The retry loop (mysql.go lines 34-46)

    The loop ends because [count] grows by one per failed ping and the
    twelfth failed ping returns; [ping_fuel] is that bound, and more
    fuel changes nothing (see the properties of the loop below). *)

Definition err_connect (e : bytes) : bytes := str "Failed to connect to MySQL database " ++ e.
Definition out_of_fuel : bytes := str "retry loop: out of fuel".

Fixpoint ping_loop (fuel : nat) (db : nat) (count : Z) : M unit :=
  match fuel with
  | O => panicS out_of_fuel
  | S fuel' =>
      let* err := Ping db in
      match err with
      | Some e =>
          if bool_decide (count > 10)%Z then errS (err_connect e)
          else
            let count := (count + 1)%Z in
            (* time.Second * time.Duration(count), an int64 product *)
            let* _ := Sleep (wrap64 (second * count)) in
            ping_loop fuel' db count
      | None => retS tt
      end
  end.

Definition ping_fuel : nat := 12.

(** ** [NewUserRegistryMySQL] (mysql.go lines 15-75) *)

Section Bootstrap.
Context `{CryptoLib} `{MySQLDriver}.

Definition NewUserRegistryMySQL (datasource : bytes) (dbConfig : DataBaseConfig) : M SqlxDB :=
  let dbName := getDBName datasource in
  let cs := connStr datasource in
  let* _ :=
    if Enabled (TLS dbConfig) then
      let* tlsConfig :=
        wrapS (fun e => str "Failed to get client TLS for MySQL " ++ e)
          (GetClientTLSConfig (CaCert (TLS dbConfig)) (KeyFile (TLS dbConfig))
                              (CertFile (TLS dbConfig))) in
      RegisterTLSConfig (str "custom") tlsConfig
    else retS tt in
  let* db := wrapS (fun e => str "Failed to open MySQL database " ++ cs ++ str ", " ++ e)
                   (sqlx_Open cs) in
  let* _ := ping_loop ping_fuel db 0 in
  let* _ := createMySQLDatabase dbName db in
  let* _ := Close db in
  let* db := wrapS (fun e => str "Failed to open database (" ++ dbName ++ str ") in MySQL server " ++ e)
                   (sqlx_Open datasource) in
  let* _ := SetMaxIdleConns db (MaxIdle dbConfig) in
  let* _ := SetMaxOpenConns db (MaxOpen dbConfig) in
  let* _ := wrapS (fun e => str "Failed to create MySQL tables " ++ e) (createMySQLTables dbName db) in
  retS (MkSqlxDB (Some db) true []).

End Bootstrap.

(** ** The bootstrap keeps the world well formed *)

Lemma wf_createMySQLDatabase n db : preserves wf_world (createMySQLDatabase n db).
Proof. unfold createMySQLDatabase. solve_preserves. case_match; eauto with dao. Qed.

Lemma wf_ping_loop f db c : preserves wf_world (ping_loop f db c).
Proof.
  revert c. induction f as [|f IH]; intros c; simpl; [eauto with dao|].
  solve_preserves. case_match; [|eauto with dao]. solve_preserves.
Qed.

#[export] Hint Resolve wf_createMySQLDatabase wf_ping_loop : dao.

Lemma wf_NewUserRegistryMySQL `{CryptoLib} `{MySQLDriver} ds cfg :
  preserves wf_world (NewUserRegistryMySQL ds cfg).
Proof.
  unfold NewUserRegistryMySQL, SetMaxIdleConns, SetMaxOpenConns, createMySQLTables.
  solve_preserves.
Qed.

#[export] Hint Resolve wf_NewUserRegistryMySQL : dao.

(** Changing the limits of a pool never closes it. *)
Lemma pool_closed_set_max_idle n p : pool_closed (set_max_idle n p) = pool_closed p.
Proof. unfold set_max_idle. by case_match. Qed.

Lemma pool_closed_set_max_open n p : pool_closed (set_max_open n p) = pool_closed p.
Proof. unfold set_max_open. case_match; [|done]. by rewrite pool_closed_set_max_idle. Qed.

Lemma pool_open_update_pool id f j w r w' :
  (forall p, pool_closed (f p) = pool_closed p) ->
  update_pool id f w = (r, w') -> pool_open j w' = pool_open j w.
Proof.
  intros Hf. unfold update_pool, pool_open. destruct (w_pools w !! id) as [p|] eqn:E;
    intros [= <- <-]; [|done]. simpl.
  destruct (decide (j = id)) as [->|]; [rewrite lookup_insert_eq, E; by rewrite Hf|].
  by rewrite lookup_insert_ne.
Qed.

Lemma pool_open_sqlx_Open `{MySQLDriver} d w id w' :
  sqlx_Open d w = (Ok id, w') -> pool_open id w' = true.
Proof.
  unfold sqlx_Open, pool_open. destruct (parse_dsn d); [done|]. intros [= <- <-]. simpl.
  by rewrite lookup_insert_eq.
Qed.

(** Take apart a successful run of a sequence of binds. *)
Ltac invert_ok H :=
  repeat match type of H with
  | bindS _ _ _ = (Ok _, _) =>
      let a := fresh "a" in let w := fresh "w" in let Hm := fresh "Hm" in
      apply bindS_Ok_inv in H as (a & w & Hm & H)
  end.

(** The handle a successful bootstrap returns holds a pool that is
    open in the world it leaves. *)
Lemma NewUserRegistryMySQL_handle `{CryptoLib} `{MySQLDriver} ds cfg w h w' :
  NewUserRegistryMySQL ds cfg w = (Ok h, w') ->
  exists id, DB h = Some id /\ pool_open id w' = true.
Proof.
  unfold NewUserRegistryMySQL. intros H1. invert_ok H1.
  unfold retS in H1. injection H1 as <- <-. exists a4. split; [done|].
  unfold createMySQLTables, retS in Hm7. apply wrapS_Ok_inv in Hm7. injection Hm7 as _ <-.
  unfold SetMaxOpenConns in Hm6. unfold SetMaxIdleConns in Hm5.
  rewrite (pool_open_update_pool _ _ _ _ _ _ (pool_closed_set_max_open _) Hm6).
  rewrite (pool_open_update_pool _ _ _ _ _ _ (pool_closed_set_max_idle _) Hm5).
  by apply wrapS_Ok_inv, pool_open_sqlx_Open in Hm4.
Qed.

(** ** Timing of the retry loop *)

(** The server is up [d] nanoseconds after the current time. *)
Definition up_by (w : World) (d : Z) : bool :=
  match w_up_from w with
  | Some t => bool_decide (t <= w_now w + d)%Z
  | None => false
  end.

(** The time the loop still sleeps when it starts at count [11 - n]
    and every ping fails. *)
Fixpoint retry_wait (n : nat) : Z :=
  match n with
  | O => 0
  | S n => ((11 - Z.of_nat n) * second + retry_wait n)%Z
  end.

(** The events of the loop started at count [11 - n] when every ping
    fails. *)
Fixpoint retry_trace (db n : nat) : list event :=
  match n with
  | O => [EvPing db false]
  | S n => EvPing db false :: EvSleep ((11 - Z.of_nat n) * second) :: retry_trace db n
  end.

Definition is_ping (e : event) : bool := if e is EvPing _ _ then true else false.
Definition sleep_of (e : event) : option Z := if e is EvSleep d then Some d else None.

(** ** Lemmas on the retry loop *)

Lemma pool_open_log db e w : pool_open db (log e w) = pool_open db w.
Proof. done. Qed.
Lemma pool_open_set_now db t w : pool_open db (set_now t w) = pool_open db w.
Proof. done. Qed.
Lemma server_up_log e w : server_up (log e w) = server_up w.
Proof. done. Qed.
#[export] Hint Rewrite pool_open_log pool_open_set_now server_up_log : dao_rw.

Lemma up_by_0 w : up_by w 0 = server_up w.
Proof. unfold up_by, server_up. by rewrite Z.add_0_r. Qed.

Lemma up_by_advance w e d d' :
  up_by (log e (set_now (w_now w + d) w)) d' = up_by w (d + d').
Proof. unfold up_by. simpl. case_match; [|done]. by rewrite Z.add_assoc. Qed.

Lemma up_by_mono w d : server_up w = true -> (0 <= d)%Z -> up_by w d = true.
Proof.
  unfold up_by, server_up. case_match; [|done].
  intros Hb Hd. apply bool_decide_eq_true in Hb. apply bool_decide_eq_true. lia.
Qed.

Lemma retry_wait_nonneg n : (n <= 11)%nat -> (0 <= retry_wait n)%Z.
Proof. induction n; simpl; unfold second; lia. Qed.

(** One iteration of the loop on an open pool, by whether the server
    answers. *)
Lemma ping_loop_up f db c w :
  pool_open db w = true -> server_up w = true ->
  ping_loop (S f) db c w = (Ok tt, log (EvPing db true) w).
Proof. intros Ho Hu. simpl. unfold bindS, Ping. by rewrite Ho, Hu. Qed.

Lemma ping_loop_down f db c w :
  pool_open db w = true -> server_up w = false ->
  ping_loop (S f) db c w =
  if bool_decide (c > 10)%Z then (Err (err_connect err_refused), log (EvPing db false) w)
  else ping_loop f db (c + 1)
         (log (EvSleep (wrap64 (second * (c + 1))))
            (set_now (w_now (log (EvPing db false) w) + wrap64 (second * (c + 1)))
                                                     (log (EvPing db false) w))).
Proof. intros Ho Hu. simpl. unfold bindS, Ping. rewrite Ho, Hu. simpl. by case_bool_decide. Qed.

Lemma ping_loop_S f db c :
  ping_loop (S f) db c =
  let* err := Ping db in
  match err with
  | Some e =>
      if bool_decide (c > 10)%Z then errS (err_connect e)
      else let* _ := Sleep (wrap64 (second * (c + 1))) in ping_loop f db (c + 1)
  | None => retS tt
  end.
Proof. reflexivity. Qed.

(** More fuel than the count still allows changes nothing. *)
Lemma ping_loop_fuel_from n f db w :
  (n <= f)%nat -> ping_loop (S f) db (11 - Z.of_nat n) w = ping_loop (S n) db (11 - Z.of_nat n) w.
Proof.
  revert f w. induction n as [|n IH]; intros f w Hf; rewrite !ping_loop_S; unfold bindS;
    destruct (Ping db w) as [[[e|]|e|e] w1]; try done.
  rewrite bool_decide_false by lia. destruct f as [|f]; [lia|].
  destruct (Sleep _ w1) as [[]]; try done.
  replace (11 - Z.of_nat (S n) + 1)%Z with (11 - Z.of_nat n)%Z by lia. apply IH. lia.
Qed.

Lemma up_by_log e w d : up_by (log e w) d = up_by w d.
Proof. done. Qed.

(** The product never wraps: the count is at most 11. *)
Lemma wrap64_sleep n :
  (n <= 11)%nat -> wrap64 (second * (11 - Z.of_nat (S n) + 1)) = (second * (11 - Z.of_nat (S n) + 1))%Z.
Proof. intros Hn. apply wrap64_small. unfold second, int64_min, int64_modulus. lia. Qed.

Lemma retry_wait_S_count n :
  (second * (11 - Z.of_nat (S n) + 1) + retry_wait n)%Z = retry_wait (S n).
Proof. simpl. lia. Qed.

(** The loop started at count [11 - n] on an open pool succeeds when
    the server is up within the time it still sleeps, and otherwise
    fails with the error of its last ping. *)
Lemma ping_loop_outcome_from n db w :
  (n <= 11)%nat -> pool_open db w = true ->
  fst (ping_loop (S n) db (11 - Z.of_nat n) w) =
  if up_by w (retry_wait n) then Ok tt else Err (err_connect err_refused).
Proof.
  revert w. induction n as [|n IH]; intros w Hn Ho.
  all: destruct (server_up w) eqn:Hu;
    [rewrite ping_loop_up by done; by rewrite up_by_mono by auto using retry_wait_nonneg|].
  all: rewrite ping_loop_down by done.
  - rewrite bool_decide_true by lia. simpl retry_wait. by rewrite up_by_0, Hu.
  - rewrite bool_decide_false by lia. rewrite wrap64_sleep by lia.
    replace (11 - Z.of_nat (S n) + 1)%Z with (11 - Z.of_nat n)%Z at 1 by lia.
    rewrite IH by (lia || by autorewrite with dao_rw).
    by rewrite up_by_advance, up_by_log, retry_wait_S_count.
Qed.

(** The world [d] nanoseconds later, with the events [tr] appended. *)
Definition advance (w : World) (d : Z) (tr : list event) : World :=
  MkWorld (w_fs w) (w_write_err w) (w_now w + d) (w_up_from w) (w_dbs w) (w_tables w) (w_tls w)
    (w_pools w) (w_next_pool w) (w_trace w ++ tr).

Lemma advance_advance w d d' tr tr' :
  advance (advance w d tr) d' tr' = advance w (d + d') (tr ++ tr').
Proof. unfold advance. simpl. by rewrite Z.add_assoc, app_assoc. Qed.

(** Against a server that never comes up, the loop started at count
    [11 - n] pings [n + 1] times, sleeps between pings, and fails. *)
Lemma ping_loop_unreachable_from n db w :
  (n <= 11)%nat -> w_up_from w = None -> pool_open db w = true ->
  ping_loop (S n) db (11 - Z.of_nat n) w =
  (Err (err_connect err_refused), advance w (retry_wait n) (retry_trace db n)).
Proof.
  revert w. induction n as [|n IH]; intros w Hn Hup Ho.
  all: assert (Hu : server_up w = false) by (unfold server_up; by rewrite Hup).
  all: rewrite ping_loop_down by done.
  - rewrite bool_decide_true by lia. unfold advance, log. simpl. by rewrite Z.add_0_r.
  - rewrite bool_decide_false by lia. rewrite wrap64_sleep by lia.
    replace (11 - Z.of_nat (S n) + 1)%Z with (11 - Z.of_nat n)%Z at 1 by lia.
    rewrite IH by (done || lia).
    set (d := (second * (11 - Z.of_nat (S n) + 1))%Z).
    replace (log (EvSleep d) _) with
      (advance w d [EvPing db false; EvSleep d]) by (unfold advance, log; simpl; by rewrite <- app_assoc).
    rewrite advance_advance. unfold d. rewrite retry_wait_S_count. simpl retry_trace.
    by replace (second * (11 - Z.of_nat (S n) + 1))%Z with ((11 - Z.of_nat n) * second)%Z by lia.
Qed.

Lemma ping_loop_no_panic_from n db w p :
  fst (ping_loop (S n) db (11 - Z.of_nat n) w) <> Panic p.
Proof.
  revert w. induction n as [|n IH]; intros w; rewrite ping_loop_S; unfold bindS;
    destruct (Ping_returns db w) as ([e|] & w1 & ->); try done.
  all: case_bool_decide; [done|]; try lia.
  unfold Sleep. cbn beta iota.
  replace (11 - Z.of_nat (S n) + 1)%Z with (11 - Z.of_nat n)%Z by lia. apply IH.
Qed.

(** Every sleep appended to the trace since [tr0] lasts between one
    and eleven seconds. *)
Definition sleeps_within (tr0 : list event) (w : World) : Prop :=
  exists t, w_trace w = tr0 ++ t /\ forall d, EvSleep d ∈ t -> (second <= d <= 11 * second)%Z.

Lemma sleeps_within_log tr0 w e :
  (forall d, e <> EvSleep d \/ (second <= d <= 11 * second)%Z) ->
  sleeps_within tr0 w -> sleeps_within tr0 (log e w).
Proof.
  intros He (t & Ht & Hs). exists (t ++ [e]). simpl. rewrite Ht, app_assoc. split; [done|].
  intros d Hd. apply elem_of_app in Hd as [Hd|Hd]; [by apply Hs|].
  apply list_elem_of_singleton in Hd. subst e. by destruct (He d) as [?|?].
Qed.

Lemma sleeps_within_Ping tr0 db : preserves (sleeps_within tr0) (Ping db).
Proof.
  intros w Hw. unfold Ping. repeat case_match; simpl; try done;
    apply sleeps_within_log; auto; intros d; left; discriminate.
Qed.

Lemma sleeps_within_Sleep tr0 d :
  (second <= d <= 11 * second)%Z -> preserves (sleeps_within tr0) (Sleep d).
Proof.
  intros Hd w Hw. apply sleeps_within_log.
  - intros d'. destruct (decide (d' = d)) as [->|Hne]; [by right|left; congruence].
  - destruct Hw as (t & Ht & Hs). by exists t.
Qed.

Lemma sleeps_within_ping_loop tr0 n db :
  (n <= 11)%nat -> preserves (sleeps_within tr0) (ping_loop (S n) db (11 - Z.of_nat n)).
Proof.
  induction n as [|n IH]; intros Hn; rewrite ping_loop_S.
  all: apply preserves_bind; [apply sleeps_within_Ping|intros [e|]; [|by intros w]].
  all: case_bool_decide; [by intros w|]; try lia.
  rewrite wrap64_sleep by lia. apply preserves_bind.
  - apply sleeps_within_Sleep. unfold second. lia.
  - intros _. replace (11 - Z.of_nat (S n) + 1)%Z with (11 - Z.of_nat n)%Z by lia. apply IH. lia.
Qed.

(** ** Properties of the retry loop *)

(** C21: The retry loop ends: with at least [ping_fuel] iterations of
    fuel its result does not depend on the fuel, and it never runs out
    (its outcome is never the out-of-fuel panic), whatever the state
    of the pool and the server. *)
Theorem ping_loop_terminates f db w :
  (ping_fuel <= f)%nat ->
  ping_loop f db 0 w = ping_loop ping_fuel db 0 w /\
  fst (ping_loop ping_fuel db 0 w) <> Panic out_of_fuel.
Proof.
  intros Hf. destruct f as [|f]; [unfold ping_fuel in Hf; lia|]. split.
  - apply (ping_loop_fuel_from 11). unfold ping_fuel in Hf. lia.
  - apply (ping_loop_no_panic_from 11).
Qed.

(** C2: On an open pool the retry loop succeeds exactly when the
    server is up within 66 seconds of the first ping (the sum of the
    sleeps 1 s, 2 s, ..., 11 s), and otherwise fails with the error of
    its last ping. *)
Theorem ping_loop_outcome db w :
  pool_open db w = true ->
  fst (ping_loop ping_fuel db 0 w) =
  if up_by w (66 * second) then Ok tt else Err (err_connect err_refused).
Proof. intros Ho. apply (ping_loop_outcome_from 11); [lia|done]. Qed.

(** C1: Against a server that never comes up the loop pings twelve
    times, sleeps 1, 2, ..., 11 seconds between the pings (66 seconds
    in all), and fails; nothing but the clock and the trace changes. *)
Theorem ping_loop_unreachable db w :
  w_up_from w = None -> pool_open db w = true ->
  ping_loop ping_fuel db 0 w =
    (Err (err_connect err_refused), advance w (66 * second) (retry_trace db 11)) /\
  length (filter is_ping (retry_trace db 11)) = 12%nat /\
  omap sleep_of (retry_trace db 11) = map (fun k => Z.of_nat k * second)%Z (seq 1 11).
Proof.
  intros Hup Ho. split; [|split; reflexivity].
  apply (ping_loop_unreachable_from 11); [lia|done|done].
Qed.

(** C15: Whatever the state of the pool and the server, every sleep of
    the retry loop lasts between one and eleven seconds: the int64
    product [time.Second * time.Duration(count)] never wraps around,
    since the count stays at most 11. *)
Theorem ping_loop_sleeps_bounded db w :
  exists t, w_trace (snd (ping_loop ping_fuel db 0 w)) = w_trace w ++ t /\
    forall d, EvSleep d ∈ t -> (second <= d <= 11 * second)%Z /\ (d < 2 ^ 63)%Z.
Proof.
  destruct (sleeps_within_ping_loop (w_trace w) 11 db ltac:(lia) w) as (t & Ht & Hs).
  { exists []. rewrite app_nil_r. split; [done|]. intros d Hd. inversion Hd. }
  exists t. split; [done|]. intros d Hd. specialize (Hs d Hd). unfold second in *. lia.
Qed.

(** A world with one open pool [0] and a server up from [up]. *)
Definition boot_world (up : option Z) : World :=
  MkWorld ∅ ∅ 0 up ∅ ∅ ∅ {[0%nat := MkPool (str "root@/") false 0 0 None 0]} 1 [].

Lemma ping_loop_terminates_witness :
  ping_loop 20 0 0 (boot_world None) = ping_loop ping_fuel 0 0 (boot_world None) /\
  fst (ping_loop ping_fuel 0 0 (boot_world None)) <> Panic out_of_fuel.
Proof. apply ping_loop_terminates. unfold ping_fuel. lia. Defined.

Lemma ping_loop_outcome_witness :
  fst (ping_loop ping_fuel 0 0 (boot_world (Some (10 * second)%Z))) = Ok tt.
Proof. rewrite ping_loop_outcome; reflexivity. Defined.

Lemma ping_loop_unreachable_witness :
  ping_loop ping_fuel 0 0 (boot_world None) =
    (Err (err_connect err_refused), advance (boot_world None) (66 * second) (retry_trace 0 11)) /\
  length (filter is_ping (retry_trace 0 11)) = 12%nat /\
  omap sleep_of (retry_trace 0 11) = map (fun k => Z.of_nat k * second)%Z (seq 1 11).
Proof. apply ping_loop_unreachable; reflexivity. Defined.

(** ** Pool limits *)

(** What [database/sql] keeps: with an open limit, the idle limit in
    effect is at most that limit. *)
Definition limits_ok (p : Pool) : Prop :=
  (0 < pool_max_open p)%Z -> (max_idle_effective p <= pool_max_open p)%Z.

Lemma limits_ok_set_max_idle n p : limits_ok (set_max_idle n p).
Proof.
  unfold limits_ok, set_max_idle, max_idle_effective, with_limits.
  repeat (case_bool_decide || case_match); simpl in *; lia.
Qed.

Lemma limits_ok_set_max_open n p : limits_ok (set_max_open n p).
Proof.
  unfold set_max_open. cbv zeta. destruct (_ && _) eqn:E; [apply limits_ok_set_max_idle|].
  unfold limits_ok, max_idle_effective, with_limits in *; simpl in *.
  apply andb_false_iff in E as [E|E]; apply bool_decide_eq_false in E;
    repeat case_bool_decide; simpl in *; lia.
Qed.

(** ** [CREATE DATABASE IF NOT EXISTS] *)

Lemma create_stmt_name name : drop (length create_db_prefix) (create_db_prefix ++ name) = name.
Proof. by rewrite drop_app_length. Qed.

Lemma server_exec_create name dbs :
  server_exec (create_db_prefix ++ name) dbs =
  if valid_ident name then (None, {[name]} ∪ dbs) else (Some err_syntax, dbs).
Proof. unfold server_exec. by rewrite prefixb_app, create_stmt_name. Qed.

Lemma createMySQLDatabase_ok name db w :
  pool_open db w = true -> server_up w = true -> valid_ident name = true ->
  createMySQLDatabase name db w =
  (Ok tt, log (EvExec db (create_db_prefix ++ name)) (set_dbs ({[name]} ∪ w_dbs w) w)).
Proof.
  intros Ho Hu Hv. unfold createMySQLDatabase, bindS, Exec. rewrite Ho, Hu.
  cbn -[create_db_prefix server_exec]. by rewrite server_exec_create, Hv.
Qed.

Lemma createMySQLDatabase_bad_name name db w :
  pool_open db w = true -> server_up w = true -> valid_ident name = false ->
  createMySQLDatabase name db w =
  (Err (str "Failed to execute create database query " ++ err_syntax),
   log (EvExec db (create_db_prefix ++ name)) (set_dbs (w_dbs w) w)).
Proof.
  intros Ho Hu Hv. unfold createMySQLDatabase, bindS, Exec. rewrite Ho, Hu.
  cbn -[create_db_prefix server_exec]. by rewrite server_exec_create, Hv.
Qed.

(** C22: [createMySQLDatabase] on an open pool and a running server
    creates the database when the name is a valid identifier, and
    running it again succeeds and leaves the set of databases as the
    first run left it; an invalid name is an error that creates
    nothing. *)
Theorem createMySQLDatabase_idempotent name db w :
  pool_open db w = true -> server_up w = true ->
  if valid_ident name then
    let '(r1, w1) := createMySQLDatabase name db w in
    let '(r2, w2) := createMySQLDatabase name db w1 in
    r1 = Ok tt /\ r2 = Ok tt /\ name ∈ w_dbs w1 /\ w_dbs w2 = w_dbs w1
  else
    createMySQLDatabase name db w =
    (Err (str "Failed to execute create database query " ++ err_syntax),
     log (EvExec db (create_db_prefix ++ name)) w).
Proof.
  intros Ho Hu. destruct (valid_ident name) eqn:Hv.
  - rewrite createMySQLDatabase_ok by done.
    rewrite createMySQLDatabase_ok by (done || by rewrite pool_open_log).
    simpl. split_and!; [done|done|apply elem_of_union_l, elem_of_singleton_2; done|].
    by rewrite union_assoc_L, union_idemp_L.
  - by rewrite createMySQLDatabase_bad_name by done.
Qed.

(** ** The bootstrap *)

Section BootstrapProofs.
Context `{CryptoLib} `{MySQLDriver}.

(** The world after [sqlx.Open] of [d] succeeded. *)
Definition opened (d : bytes) (w : World) : World :=
  log (EvOpen (w_next_pool w) d)
    (set_pools (<[w_next_pool w := MkPool d false 0 0 None 0]> (w_pools w)) (S (w_next_pool w)) w).

Lemma sqlx_Open_ok d w :
  parse_dsn d = None -> sqlx_Open d w = (Ok (w_next_pool w), opened d w).
Proof. unfold sqlx_Open. by intros ->. Qed.

Lemma sqlx_Open_err d w e : parse_dsn d = Some e -> sqlx_Open d w = (Err e, w).
Proof. unfold sqlx_Open. by intros ->. Qed.

Lemma pool_open_opened d w : pool_open (w_next_pool w) (opened d w) = true.
Proof. unfold pool_open, opened. simpl. by rewrite lookup_insert_eq. Qed.

Lemma server_up_opened d w : server_up (opened d w) = server_up w.
Proof. done. Qed.

Lemma up_by_opened d w t : up_by (opened d w) t = up_by w t.
Proof. done. Qed.

(** Run the prologue of the bootstrap: with TLS off, the first
    [sqlx.Open] succeeds and the rest runs on the world it leaves. *)
Ltac bootstrap_prologue Htls Hp :=
  unfold NewUserRegistryMySQL; rewrite Htls;
  unfold bindS at 1; cbn [retS]; unfold bindS at 1;
  rewrite (wrapS_ok _ _ _ _ _ (sqlx_Open_ok _ _ Hp)).

(** Project the fields of a world built by the primitives. *)
Ltac world_simpl :=
  cbn [w_fs w_write_err w_now w_up_from w_dbs w_tables w_tls w_pools w_next_pool w_trace
       log set_fs set_now set_dbs set_tables set_tls set_pools opened advance].

(** C5: With TLS off, data sources the driver accepts, a running
    server and a database name that is a valid identifier, the
    bootstrap succeeds: it creates the database, closes the bootstrap
    pool, and returns a handle on a second pool opened on the full
    data source with the configured limits. *)
Theorem NewUserRegistryMySQL_ok ds cfg w :
  Enabled (TLS cfg) = false -> parse_dsn (connStr ds) = None -> parse_dsn ds = None ->
  server_up w = true -> valid_ident (getDBName ds) = true ->
  exists w',
    NewUserRegistryMySQL ds cfg w = (Ok (MkSqlxDB (Some (S (w_next_pool w))) true []), w') /\
    w_pools w' !! w_next_pool w = Some (MkPool (connStr ds) true 0 0 None 0) /\
    w_pools w' !! S (w_next_pool w) =
      Some (set_max_open (MaxOpen cfg) (set_max_idle (MaxIdle cfg) (MkPool ds false 0 0 None 0))) /\
    w_dbs w' = {[getDBName ds]} ∪ w_dbs w.
Proof.
  intros Htls Hp1 Hp2 Hu Hv. bootstrap_prologue Htls Hp1.
  set (id := w_next_pool w).
  erewrite bindS_ok by (apply ping_loop_up; [apply pool_open_opened|done]).
  erewrite bindS_ok by (apply createMySQLDatabase_ok; [apply pool_open_opened|done|done]).
  erewrite bindS_ok by (apply Close_open; [world_simpl; by rewrite lookup_insert_eq|done]).
  erewrite bindS_ok by (apply wrapS_ok, sqlx_Open_ok, Hp2).
  erewrite bindS_ok by (apply update_pool_some; world_simpl; by rewrite lookup_insert_eq).
  erewrite bindS_ok by (apply update_pool_some; world_simpl; by rewrite lookup_insert_eq).
  eexists. split; [reflexivity|]. world_simpl.
  split_and!; [by simplify_map_eq..|done].
Qed.

(** C6: When the server never comes up, the bootstrap fails after
    its retries and returns without closing the pool it opened: the
    pool stays open in the world it leaves. *)
Theorem NewUserRegistryMySQL_leaks_pool ds cfg w :
  Enabled (TLS cfg) = false -> parse_dsn (connStr ds) = None -> w_up_from w = None ->
  exists w',
    NewUserRegistryMySQL ds cfg w = (Err (err_connect err_refused), w') /\
    pool_open (w_next_pool w) w' = true /\
    w_now w' = (w_now w + 66 * second)%Z.
Proof.
  intros Htls Hp Hup. bootstrap_prologue Htls Hp.
  pose proof (ping_loop_unreachable_from 11 (w_next_pool w) (opened (connStr ds) w)
                ltac:(lia) Hup (pool_open_opened _ _)) as E.
  change (11 - Z.of_nat 11)%Z with 0%Z in E.
  rewrite (bindS_err _ _ _ _ _ E). eexists. split; [reflexivity|].
  split; [apply (pool_open_opened (connStr ds) w)|]. simpl. lia.
Qed.

(** The configuration with TLS turned off. *)
Definition tls_off (cfg : DataBaseConfig) : DataBaseConfig :=
  MkDataBaseConfig (Type' cfg) (DataSource cfg) (MaxIdle cfg) (MaxOpen cfg) (IsLoger cfg)
    (MkServerTLSConfig false (CertFile (TLS cfg)) (KeyFile (TLS cfg)) (CaCert (TLS cfg))).

(** C23: With TLS on, the bootstrap first builds the TLS profile: an
    error of the builder is returned with the prefix "Failed to get
    client TLS for MySQL " before any pool is opened, a panic of the
    builder propagates, and a profile is registered under the name
    [custom], after which the bootstrap goes on as with TLS off. *)
Theorem NewUserRegistryMySQL_tls ds cfg w :
  Enabled (TLS cfg) = true ->
  NewUserRegistryMySQL ds cfg w =
  match GetClientTLSConfig (CaCert (TLS cfg)) (KeyFile (TLS cfg)) (CertFile (TLS cfg)) w with
  | (Ok t, w') =>
      NewUserRegistryMySQL ds (tls_off cfg)
        (log (EvRegisterTLS (str "custom")) (set_tls (<[str "custom" := t]> (w_tls w')) w'))
  | (Err e, w') => (Err (str "Failed to get client TLS for MySQL " ++ e), w')
  | (Panic p, w') => (Panic p, w')
  end.
Proof.
  intros Htls. unfold NewUserRegistryMySQL at 1. rewrite Htls.
  unfold bindS at 1, bindS at 1, wrapS.
  destruct (GetClientTLSConfig _ _ _ w) as [[t|e|p] w']; [|done|done].
  unfold RegisterTLSConfig. reflexivity.
Qed.

End BootstrapProofs.

(** Whatever the pool and the values, [SetMaxIdleConns] and
    [SetMaxOpenConns] leave a pool whose idle limit in effect is at
    most its open limit when that limit is set. *)
Theorem pool_limits_ok n p :
  limits_ok (set_max_idle n p) /\ limits_ok (set_max_open n p).
Proof. split; [apply limits_ok_set_max_idle|apply limits_ok_set_max_open]. Qed.

(** ** A concrete driver for the witnesses

    The DSN parser of the driver rejects a data source without [/]. *)
Definition demo_driver : MySQLDriver := {|
  parse_dsn := fun d =>
    if bool_decide ("/"%char ∈ d) then None
    else Some (str "invalid DSN: missing the slash separating the database name")
|}.

Lemma createMySQLDatabase_idempotent_witness :
  let '(r1, w1) := createMySQLDatabase (str "switch") 0 (boot_world (Some 0%Z)) in
  let '(r2, w2) := createMySQLDatabase (str "switch") 0 w1 in
  r1 = Ok tt /\ r2 = Ok tt /\ str "switch" ∈ w_dbs w1 /\ w_dbs w2 = w_dbs w1.
Proof. apply (createMySQLDatabase_idempotent (str "switch") 0 (boot_world (Some 0%Z))); reflexivity. Defined.

Lemma NewUserRegistryMySQL_ok_witness :
  exists w',
    @NewUserRegistryMySQL demo_crypto demo_driver DB_SOURCE default_config (boot_world (Some 0%Z))
      = (Ok (MkSqlxDB (Some 2%nat) true []), w') /\
    w_pools w' !! 1%nat = Some (MkPool (connStr DB_SOURCE) true 0 0 None 0) /\
    w_pools w' !! 2%nat = Some (set_max_open 30 (set_max_idle 30 (MkPool DB_SOURCE false 0 0 None 0))) /\
    w_dbs w' = {[getDBName DB_SOURCE]} ∪ ∅.
Proof. apply (@NewUserRegistryMySQL_ok demo_crypto demo_driver); vm_compute; reflexivity. Defined.

Lemma NewUserRegistryMySQL_leaks_pool_witness :
  exists w',
    @NewUserRegistryMySQL demo_crypto demo_driver DB_SOURCE default_config (boot_world None)
      = (Err (err_connect err_refused), w') /\
    pool_open 1 w' = true /\ w_now w' = (0 + 66 * second)%Z.
Proof. apply (@NewUserRegistryMySQL_leaks_pool demo_crypto demo_driver); vm_compute; reflexivity. Defined.

Definition tls_cfg (ca : bytes) : DataBaseConfig :=
  MkDataBaseConfig DB_TYPE DB_SOURCE DB_MAXIDLE DB_MAXOPEN DB_ISLOGER
    (MkServerTLSConfig true (str "client.pem") (str "client.key") ca).

Lemma NewUserRegistryMySQL_tls_witness :
  @NewUserRegistryMySQL demo_crypto demo_driver DB_SOURCE (tls_cfg (str "missing.pem")) (tls_world 15)
  = (Err (str "Failed to get client TLS for MySQL " ++ str "Failed to read '" ++ str "missing.pem" ++
          str "' " ++ err_open (str "missing.pem") (str "no such file or directory")),
     tls_world 15).
Proof. rewrite NewUserRegistryMySQL_tls by reflexivity. vm_compute. reflexivity. Defined.
