(* ===== verification/DAO.v ===== *)
(** * The entry points of package [dao] (src/dao/dao.go lines 18-80)

    [NewDB] loads the configuration and dispatches on the driver type;
    [CloseDB] and [GetSqlxIns] use the handle.  The handle's life is
    the state machine of the specification (uninitialized, ready,
    closed); the theorems show that each handle operation is a step
    of that machine, that a closed handle stays closed whatever
    follows, and the outcome of [NewDB] for every driver type. *)

From S2P Require Import Prelude GoStrings Regexp DSN World Config TLS MySQL.

Definition DB_TYPE_UNDEFINED : bytes := str "undefined".
Definition DB_TYPE_MYSQL : bytes := str "mysql".
Definition DB_TYPE_POSTGRES : bytes := str "postgres".

Definition err_invalid_type (t : bytes) : bytes :=
  str "Invalid db.type in config file: '" ++ t ++ str "'; must be 'mysql'".

Section Entry.
Context `{GoConfigLibs} `{CryptoLib} `{MySQLDriver}.

(** ** [NewDB] (lines 34-61) *)
Definition NewDB (dir : bytes) : M SqlxDB :=
  let* dbConfig := LoadDBConfig dir in
  let ds := DataSource dbConfig in
  if bool_decide (Type' dbConfig = DB_TYPE_MYSQL) then
    let* dbIns := wrapS (fun e => str "Failed to create MySQL Object " ++ e)
                        (NewUserRegistryMySQL ds dbConfig) in
    retS (MkSqlxDB (DB dbIns) true DB_TYPE_MYSQL)
  else if bool_decide (Type' dbConfig = DB_TYPE_POSTGRES) then
    retS (MkSqlxDB None true DB_TYPE_POSTGRES)
  else errS (err_invalid_type (Type' dbConfig)).

End Entry.

Definition err_not_initialized : bytes := str "sqlx handle not initialized".

(** ** [CloseDB] (lines 63-73)

    The method's receiver is a pointer: the handle it leaves is
    returned beside the error. *)
Definition CloseDB (sdb : SqlxDB) : M (SqlxDB * option bytes) :=
  match DB sdb with
  | Some db =>
      if IsDBInitialized sdb then
        let* err := Close db in
        match err with
        | Some e => retS (sdb, Some e)
        | None => retS (MkSqlxDB None (IsDBInitialized sdb) (DatabaseType sdb), None)
        end
      else retS (sdb, Some err_not_initialized)
  | None => retS (sdb, Some err_not_initialized)
  end.

(** ** [GetSqlxIns] (lines 75-80) *)
Definition GetSqlxIns (sdb : SqlxDB) : outcome nat :=
  match DB sdb with
  | Some db => if IsDBInitialized sdb then Ok db else Err err_not_initialized
  | None => Err err_not_initialized
  end.

(** ** The handle's state machine *)

Inductive phase := Uninitialized | Ready | Closed.

#[global] Instance phase_eq_dec : EqDecision phase.
Proof. solve_decision. Defined.

(** The phase of a handle: its flag says whether it was initialized,
    its pool whether it is still open. *)
Definition phase_of (sdb : SqlxDB) : phase :=
  if IsDBInitialized sdb then
    match DB sdb with Some _ => Ready | None => Closed end
  else Uninitialized.

Inductive handle_op := OpCloseDB | OpGetSqlxIns.

Definition err_of {A} (o : outcome A) : option bytes :=
  match o with Ok _ => None | Err e | Panic e => Some e end.

(** One use of the handle, with the error it returns. *)
Definition handle_step (o : handle_op) (sdb : SqlxDB) : M (SqlxDB * option bytes) :=
  match o with
  | OpCloseDB => CloseDB sdb
  | OpGetSqlxIns => retS (sdb, err_of (GetSqlxIns sdb))
  end.

(** A sequence of uses, in order, with the errors they return. *)
Fixpoint run_handle (os : list handle_op) (sdb : SqlxDB) : M (SqlxDB * list (option bytes)) :=
  match os with
  | [] => retS (sdb, [])
  | o :: os =>
      let* r := handle_step o sdb in
      let* rs := run_handle os (fst r) in
      retS (fst rs, snd r :: snd rs)
  end.



(** ** Properties of the handle *)



Lemma handle_step_closed o sdb w :
  phase_of sdb = Closed -> handle_step o sdb w = (Ok (sdb, Some err_not_initialized), w).
Proof.
  unfold phase_of. intros Hc.
  destruct (IsDBInitialized sdb) eqn:Hi, (DB sdb) eqn:Hd; try done.
  destruct o; unfold handle_step, CloseDB, GetSqlxIns; by rewrite Hd.
Qed.

(** C25: A closed handle stays closed: every later use fails with
    "sqlx handle not initialized" and changes neither the handle nor
    the world. *)
Theorem closed_handle_terminal os sdb w :
  phase_of sdb = Closed ->
  run_handle os sdb w = (Ok (sdb, replicate (length os) (Some err_not_initialized)), w).
Proof.
  intros Hc. induction os as [|o os IH]; [done|].
  simpl. unfold bindS. rewrite handle_step_closed by done. simpl. by rewrite IH.
Qed.

(** Closing a ready handle whose pool closes cleanly: the pool is
    closed and the handle forgets it. *)
Lemma CloseDB_ready sdb id p w :
  DB sdb = Some id -> IsDBInitialized sdb = true ->
  w_pools w !! id = Some p -> pool_closed p = false -> pool_close_err p = None ->
  exists w', CloseDB sdb w = (Ok (MkSqlxDB None true (DatabaseType sdb), None), w') /\
             pool_open id w' = false.
Proof.
  intros Hd Hi Hp Hc He. unfold CloseDB. rewrite Hd, Hi.
  erewrite bindS_ok by (by apply Close_open). rewrite He.
  eexists. split; [reflexivity|]. unfold pool_open. simpl. by rewrite lookup_insert_eq.
Qed.

(** C26: Closing a ready handle whose pool closes cleanly succeeds and
    closes the pool; closing it a second time is an error, not a
    no-op. *)
Theorem CloseDB_twice sdb id p w :
  DB sdb = Some id -> IsDBInitialized sdb = true ->
  w_pools w !! id = Some p -> pool_closed p = false -> pool_close_err p = None ->
  exists w', run_handle [OpCloseDB; OpCloseDB] sdb w =
               (Ok (MkSqlxDB None true (DatabaseType sdb), [None; Some err_not_initialized]), w') /\
             pool_open id w' = false.
Proof.
  intros Hd Hi Hp Hc He.
  destruct (CloseDB_ready sdb id p w Hd Hi Hp Hc He) as (w' & Hcl & Ho).
  exists w'. split; [|done]. simpl. unfold bindS. simpl in Hcl. rewrite Hcl. simpl.
  done.
Qed.

(** ** Properties of [NewDB] *)

Section EntryProofs.
Context `{GoConfigLibs} `{CryptoLib} `{MySQLDriver}.

Lemma NewDB_loaded dir w cfg w1 :
  LoadDBConfig dir w = (Ok cfg, w1) ->
  NewDB dir w =
  (if bool_decide (Type' cfg = DB_TYPE_MYSQL) then
     let* dbIns := wrapS (fun e => str "Failed to create MySQL Object " ++ e)
                         (NewUserRegistryMySQL (DataSource cfg) cfg) in
     retS (MkSqlxDB (DB dbIns) true DB_TYPE_MYSQL)
   else if bool_decide (Type' cfg = DB_TYPE_POSTGRES) then
     retS (MkSqlxDB None true DB_TYPE_POSTGRES)
   else errS (err_invalid_type (Type' cfg))) w1.
Proof. intros Hl. unfold NewDB. by erewrite bindS_ok by apply Hl. Qed.

(** C29: [NewDB] returns the error of the configuration loader
    unchanged, and with the type [mysql] the bootstrap's result: its
    handle tagged [mysql] and initialized, or its error prefixed with
    "Failed to create MySQL Object ". *)
Theorem NewDB_mysql dir w cfg w1 r w2 :
  LoadDBConfig dir w = (Ok cfg, w1) -> Type' cfg = DB_TYPE_MYSQL ->
  NewUserRegistryMySQL (DataSource cfg) cfg w1 = (r, w2) ->
  NewDB dir w =
  (match r with
   | Ok h => Ok (MkSqlxDB (DB h) true DB_TYPE_MYSQL)
   | Err e => Err (str "Failed to create MySQL Object " ++ e)
   | Panic p => Panic p
   end, w2).
Proof.
  intros Hl Ht Hn. rewrite (NewDB_loaded _ _ _ _ Hl), bool_decide_true by done.
  unfold bindS, wrapS. rewrite Hn. by destruct r.
Qed.

(** C27: With the type [postgres], [NewDB] succeeds with a handle
    flagged initialized that holds no pool: [GetSqlxIns] on it fails
    and the handle is, for the state machine, already closed. *)
Theorem NewDB_postgres_stub dir w cfg w1 :
  LoadDBConfig dir w = (Ok cfg, w1) -> Type' cfg = DB_TYPE_POSTGRES ->
  exists h, NewDB dir w = (Ok h, w1) /\ IsDBInitialized h = true /\
            GetSqlxIns h = Err err_not_initialized /\ phase_of h = Closed.
Proof.
  intros Hl Ht. rewrite (NewDB_loaded _ _ _ _ Hl), bool_decide_false, bool_decide_true
    by (rewrite ?Ht; done). by eexists.
Qed.

(** C28: Any other type is rejected with a message naming it, after
    the configuration is loaded. *)
Theorem NewDB_invalid_type dir w cfg w1 :
  LoadDBConfig dir w = (Ok cfg, w1) ->
  Type' cfg <> DB_TYPE_MYSQL -> Type' cfg <> DB_TYPE_POSTGRES ->
  NewDB dir w = (Err (err_invalid_type (Type' cfg)), w1).
Proof.
  intros Hl Hm Hp. by rewrite (NewDB_loaded _ _ _ _ Hl), !bool_decide_false.
Qed.

Lemma wf_NewDB dir : preserves wf_world (NewDB dir).
Proof. unfold NewDB. solve_preserves. Qed.

(** C30: [NewDB] keeps the world well formed (no pool at or beyond the
    next identifier), and the handle it returns either holds a pool
    that is open in the world it leaves, or holds none (the
    [postgres] stub). *)
Theorem NewDB_handle_wf dir w h w' :
  wf_world w -> NewDB dir w = (Ok h, w') ->
  wf_world w' /\ match DB h with Some id => pool_open id w' = true | None => True end.
Proof.
  intros Hw E. split.
  { pose proof (wf_NewDB dir w Hw) as H'. by rewrite E in H'. }
  unfold NewDB in E. apply bindS_Ok_inv in E as (cfg & w1 & _ & E).
  case_bool_decide; [|case_bool_decide].
  - apply bindS_Ok_inv in E as (h0 & w2 & Hn & E). injection E as <- <-. simpl.
    apply wrapS_Ok_inv, NewUserRegistryMySQL_handle in Hn as (id & -> & Ho). done.
  - by injection E as <- <-.
  - done.
Qed.

End EntryProofs.

(** ** Witnesses

    The first run of [NewDB] in a directory without a configuration,
    against a server that is up, with the codec, crypto and driver of
    the other files; and a codec that reads any file as the defaults
    with another driver type. *)

Definition first_run_world : World := MkWorld ∅ ∅ 0 (Some 0%Z) ∅ ∅ ∅ ∅ 0 [].

Definition libs_with_type (t : bytes) : GoConfigLibs := {|
  filepath_Join := fun d f => d ++ str "/" ++ f;
  filepath_Abs := fun p => Ok p;
  toml_decode := fun _ => Ok (MkDataBaseConfig t DB_SOURCE DB_MAXIDLE DB_MAXOPEN DB_ISLOGER
                                (TLS default_config));
  toml_encode := fun _ => Ok []
|}.

Definition config_world : World :=
  set_fs {[str "/app/./configs/dao.toml" := FReg (str "type = x")]} first_run_world.

Lemma closed_handle_terminal_witness :
  run_handle [OpCloseDB; OpGetSqlxIns; OpCloseDB] (MkSqlxDB None true DB_TYPE_MYSQL) first_run_world
  = (Ok (MkSqlxDB None true DB_TYPE_MYSQL, replicate 3 (Some err_not_initialized)), first_run_world).
Proof. apply closed_handle_terminal. reflexivity. Defined.

Lemma CloseDB_twice_witness :
  exists w', run_handle [OpCloseDB; OpCloseDB] (MkSqlxDB (Some 0%nat) true DB_TYPE_MYSQL)
               (boot_world (Some 0%Z)) =
             (Ok (MkSqlxDB None true DB_TYPE_MYSQL, [None; Some err_not_initialized]), w') /\
             pool_open 0 w' = false.
Proof.
  apply (CloseDB_twice (MkSqlxDB (Some 0%nat) true DB_TYPE_MYSQL) 0
           (MkPool (str "root@/") false 0 0 None 0) (boot_world (Some 0%Z))); reflexivity.
Defined.

Lemma NewDB_mysql_witness :
  @NewDB demo_libs demo_crypto demo_driver (str "/app") first_run_world =
  (Ok (MkSqlxDB (Some 1%nat) true DB_TYPE_MYSQL),
   snd (@NewUserRegistryMySQL demo_crypto demo_driver DB_SOURCE default_config
          (snd (@LoadDBConfig demo_libs (str "/app") first_run_world)))).
Proof.
  apply (@NewDB_mysql demo_libs demo_crypto demo_driver _ _ default_config
           (snd (@LoadDBConfig demo_libs (str "/app") first_run_world))
           (Ok (MkSqlxDB (Some 1%nat) true []))); vm_compute; reflexivity.
Defined.

Lemma NewDB_postgres_stub_witness :
  exists h, @NewDB (libs_with_type DB_TYPE_POSTGRES) demo_crypto demo_driver (str "/app") config_world
              = (Ok h, config_world) /\ IsDBInitialized h = true /\
            GetSqlxIns h = Err err_not_initialized /\ phase_of h = Closed.
Proof.
  apply (@NewDB_postgres_stub (libs_with_type DB_TYPE_POSTGRES) demo_crypto demo_driver _ _
           (MkDataBaseConfig DB_TYPE_POSTGRES DB_SOURCE DB_MAXIDLE DB_MAXOPEN DB_ISLOGER
              (TLS default_config))); reflexivity.
Defined.

Lemma NewDB_invalid_type_witness :
  @NewDB (libs_with_type (str "sqlite")) demo_crypto demo_driver (str "/app") config_world
  = (Err (err_invalid_type (str "sqlite")), config_world).
Proof.
  apply (@NewDB_invalid_type (libs_with_type (str "sqlite")) demo_crypto demo_driver _ _
           (MkDataBaseConfig (str "sqlite") DB_SOURCE DB_MAXIDLE DB_MAXOPEN DB_ISLOGER
              (TLS default_config))); try reflexivity; vm_compute; discriminate.
Defined.

Lemma NewDB_handle_wf_witness :
  wf_world (snd (@NewDB demo_libs demo_crypto demo_driver (str "/app") first_run_world)) /\
  match DB (MkSqlxDB (Some 1%nat) true DB_TYPE_MYSQL) with
  | Some id => pool_open id (snd (@NewDB demo_libs demo_crypto demo_driver (str "/app") first_run_world)) = true
  | None => True
  end.
Proof.
  apply (@NewDB_handle_wf demo_libs demo_crypto demo_driver (str "/app") first_run_world).
  - intros id _. reflexivity.
  - vm_compute. reflexivity.
Defined.
