(* ===== verification/Sql.v ===== *)
(** * [database/sql], [sqlx] and the tables of the MySQL server

    What [src/main.go] calls on the pool [NewDB] returns: [Begin],
    [Exec], [NamedExec], [NamedQuery], [Queryx], [MustBegin] and,
    on a transaction, [Exec], [MustExec] and [Commit].  They are
    computations that may block: a request for a connection waits
    while the pool has [MaxOpen] connections in use, and nothing in a
    single-goroutine program can release one, so the wait is forever
    ([Blocked] in [dm]).  Underneath, a small MySQL server runs the
    statement shapes the demo sends ([DROP TABLE], [CREATE TABLE],
    [INSERT ... VALUES (?, ...)], [SELECT * ... [WHERE c=?]]) on the
    tables of the world, with MySQL's error numbers; [sqlx]'s named
    parameters are compiled by [compileNamedQuery], translated from
    [sqlx/named.go]. *)

From stdpp Require Import sorting.
From S2P Require Import Prelude GoStrings Strconv World.

(** ** Computations that may block

    A run ends with an outcome, or is blocked for ever in the state
    it has reached (what it printed so far is in that state's
    trace). *)

Inductive run (A : Type) : Type :=
| Done (o : outcome A) (w : World)
| Blocked (w : World).
Arguments Done {A} o w.
Arguments Blocked {A} w.

Definition dm (A : Type) := World -> run A.

Definition dret {A} (a : A) : dm A := fun w => Done (Ok a) w.

Definition dbind {A B} (m : dm A) (k : A -> dm B) : dm B := fun w =>
  match m w with
  | Done (Ok a) w' => k a w'
  | Done (Err e) w' => Done (Err e) w'
  | Done (Panic p) w' => Done (Panic p) w'
  | Blocked w' => Blocked w'
  end.

(** A call that never blocks. *)
Definition dlift {A} (m : M A) : dm A := fun w => let '(o, w') := m w in Done o w'.

Notation "'let!' x ':=' m 'in' k" := (dbind m (fun x => k))
  (at level 10, x name, m at level 100, k at level 200) : dao_scope.

(** [v, err := m; if err != nil { h(err); return }; k(v)]: the error
    branch runs [h] and ends the function. *)
Definition check {A} (m : dm A) (h : bytes -> dm unit) (k : A -> dm unit) : dm unit :=
  fun w =>
    match m w with
    | Done (Ok a) w' => k a w'
    | Done (Err e) w' => h e w'
    | Done (Panic p) w' => Done (Panic p) w'
    | Blocked w' => Blocked w'
    end.

(** [panic(err)] on an error, as the [Must] helpers of [sqlx] do. *)
Definition must {A} (m : dm A) : dm A := fun w =>
  match m w with
  | Done (Err e) w' => Done (Panic e) w'
  | r => r
  end.

(** ** Statements *)

Definition skip_ws (s : bytes) : bytes := drop (span is_space s) s.

(** A keyword, in any case, not followed by an identifier byte. *)
Definition keyword (k s : bytes) : option bytes :=
  let s := skip_ws s in
  if bool_decide (ToLower (take (length k) s) = k) then
    match drop (length k) s with
    | c :: _ => if ident_byte c then None else Some (drop (length k) s)
    | [] => Some []
    end
  else None.

Definition punct (c : ascii) (s : bytes) : option bytes :=
  match skip_ws s with
  | d :: r => if (c =? d)%char then Some r else None
  | [] => None
  end.

(** An unquoted identifier. *)
Definition ident (s : bytes) : option (bytes * bytes) :=
  let s := skip_ws s in
  let n := span ident_byte s in
  if valid_ident (take n s) then Some (take n s, drop n s) else None.

(** The end of a statement, with an optional [;]. *)
Definition stmt_end (s : bytes) : bool :=
  match skip_ws s with
  | [] => true
  | c :: r => (c =? ";")%char && bool_decide (skip_ws r = [])
  end.

Fixpoint ident_list (fuel : nat) (s : bytes) : option (list bytes * bytes) :=
  match fuel with
  | O => None
  | S f =>
      '(x, r) ← ident s;
      match punct "," r with
      | Some r' => '(xs, r'') ← ident_list f r'; Some (x :: xs, r'')
      | None => Some ([x], r)
      end
  end.

(** A list of [?] placeholders: how many. *)
Fixpoint qmarks (fuel : nat) (s : bytes) : option (nat * bytes) :=
  match fuel with
  | O => None
  | S f =>
      r ← punct "?" s;
      match punct "," r with
      | Some r' => '(n, r'') ← qmarks f r'; Some (S n, r'')
      | None => Some (1, r)
      end
  end.

(** The definitions between the parentheses of [CREATE TABLE], split
    at the commas outside nested parentheses, and what follows the
    closing one. *)
Fixpoint split_defs (depth : nat) (cur : bytes) (s : bytes) : option (list bytes * bytes) :=
  match s with
  | [] => None
  | c :: r =>
      if (c =? "(")%char then split_defs (S depth) (cur ++ [c]) r
      else if (c =? ")")%char then
        match depth with
        | O => Some ([cur], r)
        | S d => split_defs d (cur ++ [c]) r
        end
      else if (c =? ",")%char && bool_decide (depth = 0) then
        '(ds, r') ← split_defs 0 [] r; Some (cur :: ds, r')
      else split_defs depth (cur ++ [c]) r
  end.

Definition index_words : list bytes :=
  [str "primary"; str "key"; str "index"; str "unique"; str "constraint";
   str "foreign"; str "fulltext"; str "check"].

(** A column definition gives the column and whether it is the
    [AUTO_INCREMENT] one; an index or constraint gives nothing. *)
Definition column_def (d : bytes) : option (option (bytes * bool)) :=
  '(n, rest) ← ident d;
  if bool_decide (ToLower n ∈ index_words) then Some None
  else Some (Some (n, bool_decide (is_Some (find (str "auto_increment") (ToLower rest))))).

Inductive stmt :=
| SDrop (if_exists : bool) (t : bytes)
| SCreate (t : bytes) (cols : list (bytes * bool))
| SInsert (t : bytes) (cols : list bytes) (nparams : nat)
| SSelect (t : bytes) (where_col : option bytes).

Definition parse_drop (r : bytes) : option stmt :=
  r ← keyword (str "table") r;
  let '(ie, r) := match keyword (str "if") r ≫= keyword (str "exists") with
                  | Some r' => (true, r')
                  | None => (false, r)
                  end in
  '(t, r) ← ident r;
  if stmt_end r then Some (SDrop ie t) else None.

(** The table options after the column list are not interpreted. *)
Definition parse_create (r : bytes) : option stmt :=
  r ← keyword (str "table") r;
  '(t, r) ← ident r;
  r ← punct "(" r;
  '(defs, _) ← split_defs 0 [] r;
  cols ← mapM column_def defs;
  Some (SCreate t (omap id cols)).

Definition parse_insert (r : bytes) : option stmt :=
  r ← keyword (str "into") r;
  '(t, r) ← ident r;
  r ← punct "(" r;
  '(cols, r) ← ident_list (length r) r;
  r ← punct ")" r;
  r ← keyword (str "values") r;
  r ← punct "(" r;
  '(n, r) ← qmarks (length r) r;
  r ← punct ")" r;
  if stmt_end r then Some (SInsert t cols n) else None.

Definition parse_select (r : bytes) : option stmt :=
  r ← punct "*" r;
  r ← keyword (str "from") r;
  '(t, r) ← ident r;
  if stmt_end r then Some (SSelect t None)
  else
    r ← keyword (str "where") r;
    '(c, r) ← ident r;
    r ← punct "=" r;
    r ← punct "?" r;
    if stmt_end r then Some (SSelect t (Some c)) else None.

(** The statements the server model understands; anything else is a
    syntax error. *)
Definition parse_stmt (s : bytes) : option stmt :=
  match keyword (str "drop") s with
  | Some r => parse_drop r
  | None =>
  match keyword (str "create") s with
  | Some r => parse_create r
  | None =>
  match keyword (str "insert") s with
  | Some r => parse_insert r
  | None =>
  match keyword (str "select") s with
  | Some r => parse_select r
  | None => None
  end end end end.

Definition nparams (st : stmt) : nat :=
  match st with
  | SInsert _ _ n => n
  | SSelect _ (Some _) => 1
  | _ => 0
  end.

(** ** The server *)

(** Column names are compared without regard to case. *)
Definition col_eqb (a b : bytes) : bool := bool_decide (ToLower a = ToLower b).

Fixpoint assoc (k : bytes) (l : list (bytes * bytes)) : option bytes :=
  match l with
  | [] => None
  | (k', v) :: l' => if col_eqb k k' then Some v else assoc k l'
  end.

Fixpoint first_repeat (seen l : list bytes) : option bytes :=
  match l with
  | [] => None
  | x :: l' => if existsb (col_eqb x) seen then Some x else first_repeat (x :: seen) l'
  end.

(** Equality in the collation of the demo's table ([utf8_general_ci]
    on ASCII): case and trailing spaces do not count. *)
Definition rtrim_spaces (s : bytes) : bytes :=
  rev (drop (span (fun c => (c =? " ")%char) (rev s)) (rev s)).

Definition ci_eq (a b : bytes) : bool :=
  bool_decide (ToLower (rtrim_spaces a) = ToLower (rtrim_spaces b)).

Definition err_unknown_table (t : bytes) : bytes := str "Error 1051: Unknown table '" ++ t ++ str "'".
Definition err_no_table (t : bytes) : bytes := str "Error 1146: Table '" ++ t ++ str "' doesn't exist".
Definition err_table_exists (t : bytes) : bytes := str "Error 1050: Table '" ++ t ++ str "' already exists".
Definition err_unknown_col (c clause : bytes) : bytes :=
  str "Error 1054: Unknown column '" ++ c ++ str "' in '" ++ clause ++ str "'".
Definition err_col_twice (c : bytes) : bytes := str "Error 1110: Column '" ++ c ++ str "' specified twice".
Definition err_no_default (c : bytes) : bytes :=
  str "Error 1364: Field '" ++ c ++ str "' doesn't have a default value".
Definition err_col_count : bytes := str "Error 1136: Column count doesn't match value count at row 1".

(** What [SELECT *] returns for a row, column by column. *)
Definition row_value (r : Row) (c : bytes * bool) : bytes :=
  if c.2 then FormatInt (row_id r) else default [] (assoc c.1 (row_cols r)).

(** [INSERT INTO T (cols) VALUES (vals)] on a table.  Every column
    but the [AUTO_INCREMENT] one is required (the demo's are all
    [NOT NULL] without a default); naming the [AUTO_INCREMENT] column
    is outside the model and answered as a syntax error. *)
Definition insert_row (T : Table) (cols : list bytes) (n : nat) (vals : list bytes) : outcome Table :=
  let sch := tbl_schema T in
  if negb (bool_decide (length cols = n)) then Err err_col_count
  else match filter (fun c => negb (existsb (col_eqb c) (fst <$> sch)) = true) cols with
  | c :: _ => Err (err_unknown_col c (str "field list"))
  | [] =>
  match first_repeat [] cols with
  | Some c => Err (err_col_twice c)
  | None =>
  if existsb (fun c => existsb (col_eqb c) (fst <$> filter (fun c => c.2 = true) sch)) cols
  then Err err_syntax
  else match filter (fun c => c.2 = false /\ existsb (col_eqb c.1) cols = false) sch with
  | c :: _ => Err (err_no_default c.1)
  | [] =>
      let kv := zip cols vals in
      Ok (MkTable sch (tbl_auto T + 1)
            (tbl_rows T ++ [MkRow (tbl_auto T)
                              ((fun c => (c.1, default [] (assoc c.1 kv)))
                                 <$> filter (fun c => c.2 = false) sch)]))
  end end end.

Inductive sql_result :=
| Affected (n : Z)
| Rows (cols : list bytes) (rows : list (list bytes)).

(** [SELECT * FROM T [WHERE c = arg]], rows in identifier order. *)
Definition select_rows (T : Table) (wc : option bytes) (args : list bytes) : outcome sql_result :=
  let sch := tbl_schema T in
  let out r := row_value r <$> sch in
  match wc with
  | None => Ok (Rows (fst <$> sch) (out <$> tbl_rows T))
  | Some c =>
      match filter (fun x => col_eqb c x.1 = true) sch with
      | [] => Err (err_unknown_col c (str "where clause"))
      | col :: _ =>
          let arg := default [] (head args) in
          Ok (Rows (fst <$> sch) (out <$> filter (fun r => ci_eq (row_value r col) arg = true) (tbl_rows T)))
      end
  end.

(** One statement on the tables. *)
Definition table_exec (st : stmt) (args : list bytes) (ts : gmap bytes Table)
    : outcome sql_result * gmap bytes Table :=
  match st with
  | SDrop ie t =>
      match ts !! t with
      | Some _ => (Ok (Affected 0), delete t ts)
      | None => (if ie then Ok (Affected 0) else Err (err_unknown_table t), ts)
      end
  | SCreate t cols =>
      match ts !! t with
      | Some _ => (Err (err_table_exists t), ts)
      | None => (Ok (Affected 0), <[t := MkTable cols 1 []]> ts)
      end
  | SInsert t cols n =>
      match ts !! t with
      | None => (Err (err_no_table t), ts)
      | Some T =>
          match insert_row T cols n args with
          | Ok T' => (Ok (Affected 1), <[t := T']> ts)
          | Err e => (Err e, ts)
          | Panic p => (Panic p, ts)
          end
      end
  | SSelect t wc =>
      match ts !! t with
      | None => (Err (err_no_table t), ts)
      | Some T => (select_rows T wc args, ts)
      end
  end.

(** ** [database/sql] on the pool *)

Definition err_nargs (want got : nat) : bytes :=
  str "sql: expected " ++ FormatInt (Z.of_nat want) ++ str " arguments, got "
  ++ FormatInt (Z.of_nat got).

(** The server's answer to a statement and the tables it leaves.
    Without arguments the driver sends the text (a [?] in it is a
    syntax error); with arguments it prepares the statement and
    [database/sql] checks their number first. *)
Definition server_query (q : bytes) (args : list bytes) (ts : gmap bytes Table)
    : outcome sql_result * gmap bytes Table :=
  match parse_stmt q with
  | None => (Err err_syntax, ts)
  | Some st =>
      if bool_decide (args = []) && bool_decide (0 < nparams st) then (Err err_syntax, ts)
      else if bool_decide (args <> []) && negb (bool_decide (nparams st = length args))
      then (Err (err_nargs (nparams st) (length args)), ts)
      else table_exec st args ts
  end.

(** A statement on a connection the caller holds. *)
Definition conn_query (id : nat) (q : bytes) (args : list bytes) : M sql_result :=
  fun w =>
    let '(r, ts) := server_query q args (w_tables w) in
    (r, set_tables ts (log (EvExec id q) w)).

(** A request for a connection: [None] waits for ever (the pool has
    [MaxOpen] connections in use), [Some (Some e)] fails. *)
Definition conn_request (id : nat) (w : World) : option (option bytes) :=
  match w_pools w !! id with
  | Some p =>
      if pool_closed p then Some (Some err_closed)
      else if bool_decide (0 < pool_max_open p <= Z.of_nat (pool_in_use p))%Z then None
      else if server_up w then Some None else Some (Some err_refused)
  | None => Some (Some err_closed)
  end.

(** [m] on a connection taken from the pool and given back. *)
Definition with_conn {A} (id : nat) (m : M A) : dm A := fun w =>
  match conn_request id w with
  | None => Blocked w
  | Some (Some e) => Done (Err e) w
  | Some None => dlift m w
  end.

Definition set_in_use (id : nat) (f : nat -> nat) : M unit :=
  update_pool id (fun p => MkPool (pool_dsn p) (pool_closed p) (pool_max_idle p)
                                  (pool_max_open p) (pool_close_err p) (f (pool_in_use p))).

Definition affected (r : sql_result) : Z :=
  match r with Affected n => n | Rows _ _ => 0 end.

Definition rows_of (r : sql_result) : list bytes * list (list bytes) :=
  match r with Rows c rs => (c, rs) | Affected _ => ([], []) end.

(** [db.Exec(q, args...)] followed by [RowsAffected()] (which the
    MySQL driver never fails). *)
Definition DB_Exec (id : nat) (q : bytes) (args : list bytes) : dm Z :=
  with_conn id (let* r := conn_query id q args in retS (affected r)).

(** [db.Query(q, args...)] with all its rows read: the column names
    and the rows; the connection is given back when the last row has
    been read. *)
Definition DB_Query (id : nat) (q : bytes) (args : list bytes) : dm (list bytes * list (list bytes)) :=
  with_conn id (let* r := conn_query id q args in retS (rows_of r)).

(** [db.Begin()]: the transaction holds its connection. *)
Definition DB_Begin (id : nat) : dm nat :=
  with_conn id (let* _ := set_in_use id S in
                fun w => (Ok id, log (EvExec id (str "START TRANSACTION")) w)).

(** [tx.Exec(q, args...)] on the transaction's connection. *)
Definition Tx_Exec (tx : nat) (q : bytes) (args : list bytes) : M Z :=
  let* r := conn_query tx q args in retS (affected r).

(** [tx.Commit()]: the connection goes back to the pool. *)
Definition Tx_Commit (tx : nat) : M unit :=
  fun w => set_in_use tx pred (log (EvExec tx (str "COMMIT")) w).

(** ** Named parameters of [sqlx] *)

(** [unicode.IsOneOf(allowedBindRunes, rune(b))]: a letter or a digit,
    the byte taken as a Latin-1 code point ([ª], [µ], [º] and the
    letters from U+00C0 but [×] and [÷]). *)
Definition bind_rune (b : ascii) : bool :=
  let n := nat_of_ascii b in
  ascii_between "a" "z" b || ascii_between "A" "Z" b || ascii_between "0" "9" b
  || (n =? 170) || (n =? 181) || (n =? 186)
  || ((192 <=? n) && negb (n =? 215) && negb (n =? 247)).

(** The loop of [compileNamedQuery] with the [QUESTION] bind type (the
    one [sqlx] uses for [mysql]): byte [i] of the query, the previous
    byte, whether a name is being read, the name so far, the names
    found and the query rebuilt with [?] in place of each name. *)
Fixpoint compile_named (i : nat) (prev : option ascii) (qs : bytes) (inName : bool)
    (name : bytes) (names : list bytes) (rebound : bytes) : outcome (bytes * list bytes) :=
  match qs with
  | [] => Ok (rebound, names)
  | b :: rest =>
      let last := bool_decide (rest = []) in
      let go := compile_named (S i) (Some b) rest in
      if (b =? ":")%char then
        if inName && bool_decide (prev = Some ":"%char) then go false name names (rebound ++ [":"%char])
        else if inName then
          Err (str "unexpected `:` while reading named param at " ++ FormatInt (Z.of_nat i))
        else go true [] names rebound
      else if inName && bool_decide (is_Some prev) && (b =? "=")%char && bool_decide (name = [])
      then go false name names (rebound ++ str ":=")
      else if inName && (bind_rune b || (b =? "_")%char || (b =? ".")%char) && negb last
      then go true (name ++ [b]) names rebound
      else if inName then
        let name := if last && bind_rune b then name ++ [b] else name in
        go false name (names ++ [name])
           (rebound ++ ["?"%char] ++ (if negb last || negb (bind_rune b) then [b] else []))
      else go inName name names (rebound ++ [b])
  end.

(** [compileNamedQuery(qs, QUESTION)] (sqlx/named.go). *)
Definition compileNamedQuery (qs : bytes) : outcome (bytes * list bytes) :=
  compile_named 0 None qs false [] [] [].

Fixpoint bytes_leb (a b : bytes) : bool :=
  match a, b with
  | [], _ => true
  | _ :: _, [] => false
  | x :: a', y :: b' =>
      if nat_of_ascii x <? nat_of_ascii y then true
      else if (x =? y)%char then bytes_leb a' b' else false
  end.

Definition key_le (a b : bytes * bytes) : Prop := bytes_leb a.1 b.1 = true.

#[global] Instance key_le_dec : RelDecision key_le :=
  fun a b => decide (bytes_leb a.1 b.1 = true).

Fixpoint join_with (sep : bytes) (l : list bytes) : bytes :=
  match l with
  | [] => []
  | [x] => x
  | x :: l' => x ++ sep ++ join_with sep l'
  end.

(** [%#v] of a [map[string]interface{}] holding strings: the entries
    in key order. *)
Definition map_repr (m : gmap bytes bytes) : bytes :=
  str "map[string]interface {}{"
  ++ join_with (str ", ")
       ((fun kv => Quote kv.1 ++ str ":" ++ Quote kv.2)
          <$> merge_sort key_le (map_to_list m))
  ++ str "}".

(** [bindMapArgs]: the value of each name, in order. *)
Fixpoint bind_map_args (names : list bytes) (arg : gmap bytes bytes) : outcome (list bytes) :=
  match names with
  | [] => Ok []
  | n :: ns =>
      match arg !! n with
      | Some v => let? vs := bind_map_args ns arg in Ok (v :: vs)
      | None => Err (str "could not find name " ++ n ++ str " in " ++ map_repr arg)
      end
  end.

(** [bindNamedMapper] on a map argument: the rebound query and its
    arguments. *)
Definition bind_named (q : bytes) (arg : gmap bytes bytes) : outcome (bytes * list bytes) :=
  let? c := compileNamedQuery q in
  let? args := bind_map_args c.2 arg in
  Ok (c.1, args).

(** [db.NamedExec(q, arg)] followed by [RowsAffected()]. *)
Definition NamedExec (id : nat) (q : bytes) (arg : gmap bytes bytes) : dm Z :=
  let! c := dlift (liftO (bind_named q arg)) in DB_Exec id c.1 c.2.

(** [db.NamedQuery(q, arg)] with its rows read. *)
Definition NamedQuery (id : nat) (q : bytes) (arg : gmap bytes bytes)
    : dm (list bytes * list (list bytes)) :=
  let! c := dlift (liftO (bind_named q arg)) in DB_Query id c.1 c.2.

(** [db.MustBegin()] and [tx.MustExec(q, args...)]. *)
Definition MustBegin (id : nat) : dm nat := must (DB_Begin id).
Definition MustExec (tx : nat) (q : bytes) (args : list bytes) : dm Z := must (dlift (Tx_Exec tx q args)).

(** ** Lemmas *)

Lemma conn_request_ready id p w :
  w_pools w !! id = Some p -> pool_closed p = false ->
  ~ (0 < pool_max_open p <= Z.of_nat (pool_in_use p))%Z -> server_up w = true ->
  conn_request id w = Some None.
Proof. intros Hp Hc Hm Hu. unfold conn_request. rewrite Hp, Hc, Hu. by case_bool_decide. Qed.

Lemma conn_request_full id p w :
  w_pools w !! id = Some p -> pool_closed p = false ->
  (0 < pool_max_open p <= Z.of_nat (pool_in_use p))%Z -> conn_request id w = None.
Proof. intros Hp Hc Hm. unfold conn_request. rewrite Hp, Hc. by case_bool_decide. Qed.

Lemma dbind_Done {A B} (m : dm A) (k : A -> dm B) w a w' :
  m w = Done (Ok a) w' -> dbind m k w = k a w'.
Proof. unfold dbind. by intros ->. Qed.

Lemma check_Done {A} (m : dm A) h k w a w' :
  m w = Done (Ok a) w' -> check m h k w = k a w'.
Proof. unfold check. by intros ->. Qed.

Lemma dbind_Blocked {A B} (m : dm A) (k : A -> dm B) w w' :
  m w = Blocked w' -> dbind m k w = Blocked w'.
Proof. unfold dbind. by intros ->. Qed.

Lemma check_Blocked {A} (m : dm A) h k w w' :
  m w = Blocked w' -> check m h k w = Blocked w'.
Proof. unfold check. by intros ->. Qed.

Lemma NamedExec_bound id q arg q' args w :
  bind_named q arg = Ok (q', args) -> NamedExec id q arg w = DB_Exec id q' args w.
Proof. unfold NamedExec, dbind, dlift, liftO. by intros ->. Qed.

Lemma NamedQuery_bound id q arg q' args w :
  bind_named q arg = Ok (q', args) -> NamedQuery id q arg w = DB_Query id q' args w.
Proof. unfold NamedQuery, dbind, dlift, liftO. by intros ->. Qed.

(** The number of [?] placeholders in a byte string. *)
Definition count_q (l : bytes) : nat := length (filter (fun c => c = "?"%char) l).

Lemma count_q_app l1 l2 : count_q (l1 ++ l2) = count_q l1 + count_q l2.
Proof. unfold count_q. by rewrite filter_app, length_app. Qed.

Lemma count_q_cons c l : count_q (c :: l) = (if (c =? "?")%char then 1 else 0) + count_q l.
Proof.
  unfold count_q. rewrite filter_cons. destruct (decide (c = "?"%char)) as [->|Hne]; [done|].
  destruct (c =? "?")%char eqn:Ec; [apply Ascii.eqb_eq in Ec; congruence|done].
Qed.

Lemma bind_rune_not_q b : bind_rune b = true -> (b =? "?")%char = false.
Proof. intros Hb. apply Ascii.eqb_neq. intros ->. discriminate. Qed.

Lemma compile_named_count i prev qs inName name names rebound q' names' :
  compile_named i prev qs inName name names rebound = Ok (q', names') ->
  count_q q' + length names = count_q rebound + count_q qs + length names'.
Proof.
  revert i prev inName name names rebound.
  induction qs as [|b rest IH]; intros i prev inName name names rebound E; simpl in E.
  - injection E as <- <-. change (count_q []) with 0. lia.
  - rewrite count_q_cons. destruct (b =? ":")%char eqn:Hc.
    { assert ((b =? "?")%char = false) as ->
        by (apply Ascii.eqb_eq in Hc; subst; reflexivity).
      destruct inName; cbn [andb] in E.
      - destruct (bool_decide (prev = Some ":"%char)); [|discriminate].
        apply IH in E. rewrite count_q_app in E. change (count_q [":"%char]) with 0 in E. lia.
      - apply IH in E. lia. }
    destruct inName; cbn [andb] in E.
    + destruct (bool_decide (is_Some prev) && (b =? "=")%char && bool_decide (name = [])) eqn:Heq.
      { apply IH in E. rewrite count_q_app in E.
        assert ((b =? "?")%char = false) as ->.
        { apply andb_true_iff in Heq as [[_ Hb]%andb_true_iff _].
          apply Ascii.eqb_eq in Hb. by subst. }
        change (count_q (str ":=")) with 0 in E. lia. }
      destruct ((bind_rune b || (b =? "_")%char || (b =? ".")%char) && negb (bool_decide (rest = [])))
        eqn:Hn.
      { apply IH in E.
        assert ((b =? "?")%char = false) as ->.
        { apply andb_true_iff in Hn as [Hr _]. apply Ascii.eqb_neq. intros ->. discriminate. }
        lia. }
      apply IH in E. rewrite !count_q_app, length_app in E. cbn [length] in E.
      change (count_q ["?"%char]) with 1 in E.
      destruct (negb (bool_decide (rest = [])) || negb (bind_rune b)) eqn:Hl.
      * rewrite !count_q_cons in E. change (count_q []) with 0 in E. simpl in E. lia.
      * apply orb_false_iff in Hl as [_ Hb]. apply negb_false_iff in Hb.
        rewrite bind_rune_not_q by done. change (count_q ["?"%char]) with 1 in E. lia.
    + apply IH in E. rewrite count_q_app, count_q_cons in E. change (count_q []) with 0 in E. lia.
Qed.

(** [compileNamedQuery] puts exactly one [?] in the query for each
    name it returns, so [bindMapArgs] supplies one argument per
    placeholder it adds. *)
Lemma compileNamedQuery_placeholders q q' names :
  compileNamedQuery q = Ok (q', names) -> count_q q' = count_q q + length names.
Proof. intros E. apply compile_named_count in E. change (count_q []) with 0 in E. simpl in E. lia. Qed.
