(* ===== verification/Demo.v ===== *)
(** * The demonstration program (src/main.go)

    [main] opens the database with [NewDB("./")], defers [CloseDB],
    and runs four blocks on the pool: in a transaction it drops the
    table [users], then creates it again outside the transaction;
    it inserts one user through a named statement; it reads that
    user back through a named query; and in a second transaction it
    inserts 100 users before listing the whole table.  Each error
    ends [main] after printing it, except the [Must] helpers, which
    panic, and a failed [StructScan], which exits through
    [log.Fatalln] without running the deferred [CloseDB]. *)

From S2P Require Import Prelude GoStrings Strconv Regexp DSN World Config TLS MySQL DAO Sql.

(** ** Values of the program *)

(** [type Users struct] (lines 10-15). *)
Record Users := MkUsers {
  ID : Z;
  Name : bytes;
  F1 : bytes;
  F2 : bytes
}.

Definition zero_users : Users := MkUsers 0 [] [] [].

(** [fmt.Printf("%#v\n", user)]: the line it prints. *)
Definition users_gostring (u : Users) : bytes :=
  str "main.Users{ID:" ++ FormatInt (ID u) ++ str ", Name:" ++ Quote (Name u)
  ++ str ", F1:" ++ Quote (F1 u) ++ str ", F2:" ++ Quote (F2 u) ++ str "}".

(** The column each field receives under [sqlx]'s default mapper,
    [strings.ToLower] of the field name. *)
Definition users_fields : list bytes := [str "id"; str "name"; str "f1"; str "f2"].

Definition scan_err (i : nat) (c e : bytes) : bytes :=
  str "sql: Scan error on column index " ++ FormatInt (Z.of_nat i) ++ str ", name "
  ++ Quote c ++ str ": " ++ e.

(** [convertAssign] of a column's text into the field it maps to. *)
Definition set_field (i : nat) (c v : bytes) (u : Users) : outcome Users :=
  if bool_decide (c = str "id") then
    match ParseInt v with
    | Ok z => Ok (MkUsers z (Name u) (F1 u) (F2 u))
    | Err e | Panic e =>
        Err (scan_err i c (str "converting driver.Value type []uint8 (" ++ Quote v
                             ++ str ") to a int64: " ++ e))
    end
  else if bool_decide (c = str "name") then Ok (MkUsers (ID u) v (F1 u) (F2 u))
  else if bool_decide (c = str "f1") then Ok (MkUsers (ID u) (Name u) v (F2 u))
  else Ok (MkUsers (ID u) (Name u) (F1 u) v).

Fixpoint scan_fields (i : nat) (cols vals : list bytes) (u : Users) : outcome Users :=
  match cols, vals with
  | c :: cs, v :: vs => let? u := set_field i c v u in scan_fields (S i) cs vs u
  | _, _ => Ok u
  end.

(** [rows.StructScan(&user)]: every column needs a field; the fields
    of columns the row lacks keep their values. *)
Definition StructScan (cols vals : list bytes) (u : Users) : outcome Users :=
  match filter (fun c => c ∉ users_fields) cols with
  | c :: _ => Err (str "missing destination name " ++ c ++ str " in *main.Users")
  | [] => scan_fields 0 cols vals u
  end.

(** ** Output and process exit *)

(** [fmt.Println] of its operands joined by spaces. *)
Definition Println (line : bytes) : dm unit := fun w => Done (Ok tt) (log (EvPrint 1 line) w).

(** [log.Fatalln(err)]: the message on standard error, then
    [os.Exit(1)], the [Err] outcome of [main]. *)
Definition Fatalln (e : bytes) : dm unit := fun w => Done (Err e) (log (EvPrint 2 e) w).

(** [defer d] around [body]: [d] runs when [body] returns or panics
    (the panic goes on after it), not when [os.Exit] ends the process
    and not while [body] is blocked. *)
Definition with_defer (d : dm unit) (body : dm unit) : dm unit := fun w =>
  match body w with
  | Done (Ok _) w1 => d w1
  | Done (Panic p) w1 =>
      match d w1 with
      | Done (Panic p') w2 => Done (Panic p') w2
      | Done _ w2 => Done (Panic p) w2
      | Blocked w2 => Blocked w2
      end
  | r => r
  end.

(** [for rows.Next() { err := rows.StructScan(&user); if err != nil
    { log.Fatalln(err) }; fmt.Printf("%#v\n", user) }]: [user] is the
    one variable declared before the loop. *)
Fixpoint print_users (cols : list bytes) (rows : list (list bytes)) (u : Users) : dm unit :=
  match rows with
  | [] => dret tt
  | r :: rs =>
      match StructScan cols r u with
      | Ok u' => let! _ := Println (users_gostring u') in print_users cols rs u'
      | Err e => Fatalln e
      | Panic p => fun w => Done (Panic p) w
      end
  end.

(** ** The statements *)

Definition tabs : bytes := [ch_tab; ch_tab; ch_tab; ch_tab].

Definition drop_sql : bytes := str "drop table if exists users;".

Definition create_sql : bytes :=
  str "CREATE TABLE users (" ++ [ch_nl]
  ++ tabs ++ str "id bigint(20) unsigned NOT NULL AUTO_INCREMENT," ++ [ch_nl]
  ++ tabs ++ str "name varchar(50) NOT NULL," ++ [ch_nl]
  ++ tabs ++ str "f1 varchar(50) NOT NULL," ++ [ch_nl]
  ++ tabs ++ str "f2 varchar(50) NOT NULL," ++ [ch_nl]
  ++ tabs ++ str "PRIMARY KEY (id)" ++ [ch_nl]
  ++ tabs ++ str ") ENGINE=InnoDB AUTO_INCREMENT=1 DEFAULT CHARSET=utf8".

Definition insert_named_sql : bytes := str "INSERT INTO users (name, f1, f2) VALUES (:name, :f1, :f2)".
Definition select_named_sql : bytes := str "SELECT * FROM users WHERE name=:fn".
Definition insert_sql : bytes := str "INSERT INTO users (name, f1, f2) VALUES (?, ?, ?)".
Definition select_sql : bytes := str "SELECT * FROM users".

Definition bin_arg : gmap bytes bytes :=
  <[str "name" := str "Bin"]> (<[str "f1" := str "Smuth"]> {[str "f2" := str "bensmith@allblacks.nz"]}).
Definition fn_arg : gmap bytes bytes := {[str "fn" := str "Bin"]}.

(** ** [main] (lines 17-133), block by block; [k] is what follows *)

(** Lines 34-64. *)
Definition block_tx (db : nat) (k : dm unit) : dm unit :=
  check (DB_Begin db) Println (fun tx =>
  check (dlift (Tx_Exec tx drop_sql [])) Println (fun aff =>
  let! _ := Println (str "affected: " ++ FormatInt aff) in
  check (DB_Exec db create_sql []) Println (fun _ =>
  let! _ := dlift (Tx_Commit tx) in
  k))).

(** Lines 66-83. *)
Definition block_named_insert (db : nat) (k : dm unit) : dm unit :=
  check (NamedExec db insert_named_sql bin_arg) Println (fun aff =>
  let! _ := Println (str "MustExec affected: " ++ FormatInt aff) in
  k).

(** Lines 85-102. *)
Definition block_named_query (db : nat) (k : dm unit) : dm unit :=
  check (NamedQuery db select_named_sql fn_arg) Println (fun r =>
  let! _ := print_users r.1 r.2 zero_users in
  k).

(** The loop of lines 108-113, from [i] on, [n] iterations. *)
Fixpoint insert_loop (tx : nat) (i n : nat) : dm unit :=
  match n with
  | O => dret tt
  | S n' =>
      let j := FormatInt (Z.of_nat (i + 1)) in
      let! _ := MustExec tx insert_sql [str "Jason-" ++ j; str "Moiron-" ++ j; str "jmoiron-" ++ j] in
      insert_loop tx (S i) n'
  end.

(** Lines 104-132. *)
Definition block_bulk (db : nat) : dm unit :=
  let! _ := Println (str "###########################") in
  let! tx := MustBegin db in
  let! _ := insert_loop tx 0 100 in
  let! _ := dlift (Tx_Commit tx) in
  check (DB_Query db select_sql []) Println (fun r => print_users r.1 r.2 zero_users).

Section Main.
Context `{GoConfigLibs} `{CryptoLib} `{MySQLDriver}.

(** [main]: [Ok] when it returns, [Err] when [log.Fatalln] exits, a
    panic when a [Must] helper fails. *)
Definition main : dm unit :=
  check (dlift (NewDB (str "./"))) Println (fun db =>
  with_defer (let! _ := dlift (CloseDB db) in dret tt)
    (let! _ := Println (str "connect db success") in
     check (dlift (liftO (GetSqlxIns db))) Println (fun dbsqlx =>
     block_tx dbsqlx (block_named_insert dbsqlx (block_named_query dbsqlx (block_bulk dbsqlx)))))).

End Main.

(** ** Running [main]

    The statements [main] sends, as the server parses them, and what
    they do to the tables; the users the program writes; then the run
    of [main], block by block, on worlds written [world_after]. *)

Definition users_t : bytes := str "users".
(** The columns of [users] as [create_sql] defines them. *)
Definition users_schema : list (bytes * bool) :=
  [(str "id", true); (str "name", false); (str "f1", false); (str "f2", false)].
(** The row a [Users] value is stored as. *)
Definition row_of_users (u : Users) : Row :=
  MkRow (ID u) [(str "name", Name u); (str "f1", F1 u); (str "f2", F2 u)].

Definition with_in_use (f : nat -> nat) (p : Pool) : Pool :=
  MkPool (pool_dsn p) (pool_closed p) (pool_max_idle p) (pool_max_open p) (pool_close_err p)
         (f (pool_in_use p)).

Definition insert_cols : list bytes := [str "name"; str "f1"; str "f2"].
Definition select_where_sql : bytes := str "SELECT * FROM users WHERE name=?".

Lemma parse_drop_sql : parse_stmt drop_sql = Some (SDrop true users_t).
Proof. vm_compute. reflexivity. Qed.
Lemma parse_create_sql : parse_stmt create_sql = Some (SCreate users_t users_schema).
Proof. vm_compute. reflexivity. Qed.
Lemma parse_insert_sql : parse_stmt insert_sql = Some (SInsert users_t insert_cols 3).
Proof. vm_compute. reflexivity. Qed.
Lemma parse_select_sql : parse_stmt select_sql = Some (SSelect users_t None).
Proof. vm_compute. reflexivity. Qed.
Lemma parse_select_where_sql : parse_stmt select_where_sql = Some (SSelect users_t (Some (str "name"))).
Proof. vm_compute. reflexivity. Qed.

Lemma sq_drop ts : server_query drop_sql [] ts = (Ok (Affected 0), delete users_t ts).
Proof.
  unfold server_query. rewrite parse_drop_sql. simpl.
  destruct (ts !! users_t) eqn:E; [done|by rewrite delete_id].
Qed.

Lemma sq_create ts :
  ts !! users_t = None ->
  server_query create_sql [] ts = (Ok (Affected 0), <[users_t := MkTable users_schema 1 []]> ts).
Proof. intros E. unfold server_query. rewrite parse_create_sql. simpl. by rewrite E. Qed.

Lemma insert_row_users a rows x y z :
  insert_row (MkTable users_schema a rows) insert_cols 3 [x; y; z] =
  Ok (MkTable users_schema (a + 1) (rows ++ [MkRow a [(str "name", x); (str "f1", y); (str "f2", z)]])).
Proof. reflexivity. Qed.

Lemma sq_insert ts a rows x y z :
  server_query insert_sql [x; y; z] (<[users_t := MkTable users_schema a rows]> ts) =
  (Ok (Affected 1), <[users_t := MkTable users_schema (a + 1)
                       (rows ++ [MkRow a [(str "name", x); (str "f1", y); (str "f2", z)]])]> ts).
Proof.
  unfold server_query. rewrite parse_insert_sql. simpl.
  rewrite lookup_insert_eq, insert_row_users. by rewrite insert_insert_eq.
Qed.

Definition users_out (r : Row) : list bytes := row_value r <$> users_schema.

Lemma sq_select ts a rows :
  server_query select_sql [] (<[users_t := MkTable users_schema a rows]> ts) =
  (Ok (Rows (fst <$> users_schema) (users_out <$> rows)), <[users_t := MkTable users_schema a rows]> ts).
Proof. unfold server_query. rewrite parse_select_sql. simpl. by rewrite lookup_insert_eq. Qed.

(** The users of the loop of lines 108-113 and of the named insert. *)
Definition jason (i : nat) : Users :=
  let j := FormatInt (Z.of_nat i) in
  MkUsers (Z.of_nat i + 1) (str "Jason-" ++ j) (str "Moiron-" ++ j) (str "jmoiron-" ++ j).

Definition bin_user : Users := MkUsers 1 (str "Bin") (str "Smuth") (str "bensmith@allblacks.nz").

Lemma bind_named_insert : bind_named insert_named_sql bin_arg = Ok (insert_sql, [Name bin_user; F1 bin_user; F2 bin_user]).
Proof. vm_compute. reflexivity. Qed.

Lemma bind_named_select : bind_named select_named_sql fn_arg = Ok (select_where_sql, [str "Bin"]).
Proof. vm_compute. reflexivity. Qed.

Lemma sq_select_where ts :
  server_query select_where_sql [str "Bin"] (<[users_t := MkTable users_schema 2 [row_of_users bin_user]]> ts) =
  (Ok (Rows (fst <$> users_schema) [users_out (row_of_users bin_user)]),
   <[users_t := MkTable users_schema 2 [row_of_users bin_user]]> ts).
Proof. unfold server_query. rewrite parse_select_where_sql. simpl. by rewrite lookup_insert_eq. Qed.

Lemma users_out_row v : users_out (row_of_users v) = [FormatInt (ID v); Name v; F1 v; F2 v].
Proof. reflexivity. Qed.

Lemma StructScan_users vals u : StructScan (fst <$> users_schema) vals u = scan_fields 0 users_fields vals u.
Proof. reflexivity. Qed.

Lemma scan_users_row v u :
  (int64_min <= ID v < int64_min + int64_modulus)%Z ->
  StructScan (fst <$> users_schema) (users_out (row_of_users v)) u = Ok v.
Proof.
  intros Hv. rewrite StructScan_users, users_out_row. cbn [scan_fields users_fields].
  unfold set_field at 1. rewrite bool_decide_true, ParseInt_FormatInt by done.
  simpl. by destruct v.
Qed.

Definition demo_users : list Users := bin_user :: (jason <$> seq 1 100).

Lemma demo_users_int64 :
  Forall (fun v => int64_min <= ID v < int64_min + int64_modulus)%Z demo_users.
Proof. apply (bool_decide_unpack _). vm_compute. exact I. Qed.

Definition users_table (auto : Z) (us : list Users) : Table :=
  MkTable users_schema auto (row_of_users <$> us).

(** The run of [main] from the world [w0] left by [NewDB], whose pool
    [id] the handle holds.  [world_after evs ts p] is [w0] with the
    events [evs] appended to its trace, the tables [ts], and the pool
    [id] now [p]: the statements only add events, change tables and
    take or give back connections. *)
Section Run.
Variables (w0 : World) (id : nat).

Definition world_after (evs : list event) (ts : gmap bytes Table) (p : Pool) : World :=
  MkWorld (w_fs w0) (w_write_err w0) (w_now w0) (w_up_from w0) (w_dbs w0) ts (w_tls w0)
    (<[id := p]> (w_pools w0)) (w_next_pool w0) (w_trace w0 ++ evs).

Lemma log_at e evs ts p : log e (world_after evs ts p) = world_after (evs ++ [e]) ts p.
Proof. unfold log, world_after. simpl. by rewrite app_assoc. Qed.

Lemma Println_at l evs ts p : Println l (world_after evs ts p) = Done (Ok tt) (world_after (evs ++ [EvPrint 1 l]) ts p).
Proof. unfold Println. by rewrite log_at. Qed.

Lemma conn_query_at q args evs ts p :
  conn_query id q args (world_after evs ts p) =
  ((server_query q args ts).1, world_after (evs ++ [EvExec id q]) (server_query q args ts).2 p).
Proof. unfold conn_query. simpl. destruct (server_query q args ts). by rewrite log_at. Qed.

Lemma set_in_use_at f evs ts p :
  set_in_use id f (world_after evs ts p) = (Ok tt, world_after evs ts (with_in_use f p)).
Proof.
  unfold set_in_use. rewrite (update_pool_some _ _ p) by (simpl; by rewrite lookup_insert_eq).
  unfold world_after, set_pools. simpl. by rewrite insert_insert_eq.
Qed.

Lemma server_up_at evs ts p : server_up (world_after evs ts p) = server_up w0.
Proof. done. Qed.

Definition usable (p : Pool) : Prop :=
  pool_closed p = false /\ ~ (0 < pool_max_open p <= Z.of_nat (pool_in_use p))%Z.

Lemma with_conn_at {A} (m : M A) evs ts p :
  usable p -> server_up w0 = true -> with_conn id m (world_after evs ts p) = dlift m (world_after evs ts p).
Proof.
  intros [Hc Hm] Hu. unfold with_conn.
  rewrite (conn_request_ready _ p) by (simpl; rewrite ?lookup_insert_eq; done). done.
Qed.

Definition start_sql : bytes := str "START TRANSACTION".
Definition commit_sql : bytes := str "COMMIT".

Lemma Begin_at evs ts p :
  usable p -> server_up w0 = true ->
  DB_Begin id (world_after evs ts p) = Done (Ok id) (world_after (evs ++ [EvExec id start_sql]) ts (with_in_use S p)).
Proof.
  intros Hp Hu. unfold DB_Begin. rewrite with_conn_at by done.
  unfold dlift, bindS. rewrite set_in_use_at. simpl. by rewrite log_at.
Qed.

Lemma Tx_Exec_at q args evs ts p r ts' :
  server_query q args ts = (Ok r, ts') ->
  dlift (Tx_Exec id q args) (world_after evs ts p) = Done (Ok (affected r)) (world_after (evs ++ [EvExec id q]) ts' p).
Proof. intros E. unfold dlift, Tx_Exec, bindS. rewrite conn_query_at, E. done. Qed.

Lemma DB_Exec_at q args evs ts p r ts' :
  usable p -> server_up w0 = true -> server_query q args ts = (Ok r, ts') ->
  DB_Exec id q args (world_after evs ts p) = Done (Ok (affected r)) (world_after (evs ++ [EvExec id q]) ts' p).
Proof. intros Hp Hu E. unfold DB_Exec. rewrite with_conn_at by done. by apply Tx_Exec_at. Qed.

Lemma DB_Query_at q args evs ts p r ts' :
  usable p -> server_up w0 = true -> server_query q args ts = (Ok r, ts') ->
  DB_Query id q args (world_after evs ts p) = Done (Ok (rows_of r)) (world_after (evs ++ [EvExec id q]) ts' p).
Proof.
  intros Hp Hu E. unfold DB_Query. rewrite with_conn_at by done.
  unfold dlift, bindS. rewrite conn_query_at, E. done.
Qed.

Lemma Commit_at evs ts p :
  dlift (Tx_Commit id) (world_after evs ts p) =
  Done (Ok tt) (world_after (evs ++ [EvExec id commit_sql]) ts (with_in_use pred p)).
Proof. unfold dlift, Tx_Commit. by rewrite log_at, set_in_use_at. Qed.

Lemma with_in_use_S_pred p : with_in_use pred (with_in_use S p) = p.
Proof. by destruct p. Qed.

Lemma block_tx_at k evs ts p :
  pool_closed p = false -> pool_in_use p = 0 -> pool_max_open p <> 1%Z -> server_up w0 = true ->
  block_tx id k (world_after evs ts p) =
  k (world_after (evs ++ [EvExec id start_sql; EvExec id drop_sql; EvPrint 1 (str "affected: 0");
                  EvExec id create_sql; EvExec id commit_sql])
         (<[users_t := users_table 1 []]> (delete users_t ts)) p).
Proof.
  intros Hc Hi Hm Hu. unfold block_tx.
  rewrite (check_Done _ _ _ _ _ _ (Begin_at _ _ _ ltac:(split; [done|lia]) Hu)).
  rewrite (check_Done _ _ _ _ _ _ (Tx_Exec_at _ _ _ _ _ _ _ (sq_drop ts))).
  rewrite (dbind_Done _ _ _ _ _ (Println_at _ _ _ _)).
  rewrite (check_Done _ _ _ _ _ _ (DB_Exec_at _ _ _ _ (with_in_use S p) _ _ ltac:(split; simpl; [done|lia]) Hu
                                     (sq_create _ ltac:(apply lookup_delete_eq)))).
  rewrite (dbind_Done _ _ _ _ _ (Commit_at _ _ _)), with_in_use_S_pred.
  by rewrite <- !app_assoc.
Qed.

Lemma dlift_liftO {A} (o : outcome A) w : dlift (liftO o) w = Done o w.
Proof. by destruct o. Qed.

Lemma sq_insert_user ts a us x y z :
  server_query insert_sql [x; y; z] (<[users_t := users_table a us]> ts) =
  (Ok (Affected 1), <[users_t := users_table (a + 1) (us ++ [MkUsers a x y z])]> ts).
Proof. unfold users_table. rewrite sq_insert, fmap_app. done. Qed.

Lemma block_named_insert_at k evs ts p :
  usable p -> server_up w0 = true ->
  block_named_insert id k (world_after evs (<[users_t := users_table 1 []]> ts) p) =
  k (world_after (evs ++ [EvExec id insert_sql; EvPrint 1 (str "MustExec affected: 1")])
         (<[users_t := users_table 2 [bin_user]]> ts) p).
Proof.
  intros Hp Hu. unfold block_named_insert, NamedExec.
  rewrite (check_Done _ _ _ _ _ _ (eq_trans (NamedExec_bound _ _ _ _ _ _ bind_named_insert)
                                    (DB_Exec_at _ _ _ _ _ _ _ Hp Hu (sq_insert_user _ _ _ _ _ _)))).
  rewrite (dbind_Done _ _ _ _ _ (Println_at _ _ _ _)). by rewrite <- app_assoc.
Qed.

Lemma print_users_at us u evs ts p :
  Forall (fun v => int64_min <= ID v < int64_min + int64_modulus)%Z us ->
  print_users (fst <$> users_schema) (users_out <$> (row_of_users <$> us)) u (world_after evs ts p) =
  Done (Ok tt) (world_after (evs ++ ((fun v => EvPrint 1 (users_gostring v)) <$> us)) ts p).
Proof.
  revert u evs. induction us as [|v us IH]; intros u evs Hr; simpl.
  - by rewrite app_nil_r.
  - apply Forall_cons in Hr as [Hv Hr]. rewrite scan_users_row by done.
    rewrite (dbind_Done _ _ _ _ _ (Println_at _ _ _ _)), IH by done.
    by rewrite <- app_assoc.
Qed.

Lemma block_named_query_at k evs ts p :
  usable p -> server_up w0 = true ->
  block_named_query id k (world_after evs (<[users_t := users_table 2 [bin_user]]> ts) p) =
  k (world_after (evs ++ [EvExec id select_where_sql; EvPrint 1 (users_gostring bin_user)])
         (<[users_t := users_table 2 [bin_user]]> ts) p).
Proof.
  intros Hp Hu. unfold block_named_query, NamedQuery.
  rewrite (check_Done _ _ _ _ _ _ (eq_trans (NamedQuery_bound _ _ _ _ _ _ bind_named_select)
                                    (DB_Query_at _ _ _ _ _ _ _ Hp Hu (sq_select_where _)))).
  rewrite (dbind_Done _ _ _ _ _ (print_users_at [bin_user] _ _ _ _
    ltac:(constructor; [unfold int64_min, int64_modulus; simpl; lia|constructor]))).
  by rewrite <- app_assoc.
Qed.

Lemma MustExec_insert_at evs ts a us x y z p :
  MustExec id insert_sql [x; y; z] (world_after evs (<[users_t := users_table a us]> ts) p) =
  Done (Ok 1%Z) (world_after (evs ++ [EvExec id insert_sql])
                    (<[users_t := users_table (a + 1) (us ++ [MkUsers a x y z])]> ts) p).
Proof. unfold MustExec, must. by rewrite (Tx_Exec_at _ _ _ _ _ _ _ (sq_insert_user _ _ _ _ _ _)). Qed.

Lemma insert_loop_at i n evs ts us p :
  insert_loop id i n (world_after evs (<[users_t := users_table (Z.of_nat i + 2) us]> ts) p) =
  Done (Ok tt) (world_after (evs ++ replicate n (EvExec id insert_sql))
                   (<[users_t := users_table (Z.of_nat (i + n) + 2) (us ++ (jason <$> seq (S i) n))]> ts) p).
Proof.
  revert i evs us. induction n as [|n IH]; intros i evs us; cbn [insert_loop].
  - by rewrite Nat.add_0_r, !app_nil_r.
  - rewrite (dbind_Done _ _ _ _ _ (MustExec_insert_at _ _ _ _ _ _ _ _)).
    replace (Z.of_nat i + 2 + 1)%Z with (Z.of_nat (S i) + 2)%Z by lia.
    rewrite IH. replace (S i + n) with (i + S n) by lia.
    replace (MkUsers (Z.of_nat i + 2) _ _ _) with (jason (S i))
      by (unfold jason; f_equal; [lia|..]; by replace (i + 1) with (S i) by lia).
    by rewrite <- !app_assoc.
Qed.

Lemma sq_select_users ts a us :
  server_query select_sql [] (<[users_t := users_table a us]> ts) =
  (Ok (Rows (fst <$> users_schema) (users_out <$> (row_of_users <$> us))),
   <[users_t := users_table a us]> ts).
Proof. apply sq_select. Qed.

Lemma block_bulk_at evs ts p :
  usable p -> pool_in_use p = 0 -> server_up w0 = true ->
  block_bulk id (world_after evs (<[users_t := users_table 2 [bin_user]]> ts) p) =
  Done (Ok tt) (world_after (evs ++ [EvPrint 1 (str "###########################"); EvExec id start_sql]
                         ++ replicate 100 (EvExec id insert_sql)
                         ++ [EvExec id commit_sql; EvExec id select_sql]
                         ++ ((fun v => EvPrint 1 (users_gostring v)) <$> demo_users))
                   (<[users_t := users_table 102 demo_users]> ts) p).
Proof.
  intros Hp Hi Hu. unfold block_bulk.
  rewrite (dbind_Done _ _ _ _ _ (Println_at _ _ _ _)).
  unfold MustBegin, must at 1. rewrite dbind_Done with (a := id) (w' := world_after (_ ++ [EvExec id start_sql]) _ (with_in_use S p)) by (unfold must; by rewrite Begin_at).
  change 2%Z with (Z.of_nat 0 + 2)%Z. rewrite (dbind_Done _ _ _ _ _ (insert_loop_at _ _ _ _ _ _)).
  rewrite (dbind_Done _ _ _ _ _ (Commit_at _ _ _)), with_in_use_S_pred.
  rewrite (check_Done _ _ _ _ _ _ (DB_Query_at _ _ _ _ _ _ _ Hp Hu (sq_select_users _ _ _))).
  cbn [rows_of fst snd]. rewrite (print_users_at _ _ _ _ _ demo_users_int64).
  by rewrite <- !app_assoc.
Qed.

Definition closed_pool (p : Pool) : Pool :=
  MkPool (pool_dsn p) true (pool_max_idle p) (pool_max_open p) (pool_close_err p) (pool_in_use p).

Lemma defer_CloseDB_at h evs ts p :
  DB h = Some id -> IsDBInitialized h = true -> pool_closed p = false ->
  (let! _ := dlift (CloseDB h) in dret tt) (world_after evs ts p) =
  Done (Ok tt) (world_after (evs ++ [EvClose id]) ts (closed_pool p)).
Proof.
  intros Hd Hi Hc. unfold CloseDB. rewrite Hd, Hi. unfold dbind, dlift, bindS.
  rewrite (Close_open _ p) by (simpl; by rewrite ?lookup_insert_eq). simpl.
  unfold world_after, log, set_pools. simpl. rewrite insert_insert_eq, app_assoc.
  destruct (pool_close_err p) eqn:E; simpl; unfold closed_pool; rewrite E, <- ?app_assoc; reflexivity.
Qed.

Lemma with_conn_full_at {A} (m : M A) evs ts p :
  pool_closed p = false -> (0 < pool_max_open p <= Z.of_nat (pool_in_use p))%Z ->
  with_conn id m (world_after evs ts p) = Blocked (world_after evs ts p).
Proof.
  intros Hc Hm. unfold with_conn.
  by rewrite (conn_request_full _ p) by (simpl; rewrite ?lookup_insert_eq; done).
Qed.

Lemma block_tx_blocked k evs ts p :
  pool_closed p = false -> pool_in_use p = 0 -> pool_max_open p = 1%Z -> server_up w0 = true ->
  block_tx id k (world_after evs ts p) =
  Blocked (world_after (evs ++ [EvExec id start_sql; EvExec id drop_sql; EvPrint 1 (str "affected: 0")])
               (delete users_t ts) (with_in_use S p)).
Proof.
  intros Hc Hi Hm Hu. unfold block_tx.
  rewrite (check_Done _ _ _ _ _ _ (Begin_at _ _ _ ltac:(split; [done|lia]) Hu)).
  rewrite (check_Done _ _ _ _ _ _ (Tx_Exec_at _ _ _ _ _ _ _ (sq_drop ts))).
  rewrite (dbind_Done _ _ _ _ _ (Println_at _ _ _ _)).
  unfold DB_Exec. rewrite (check_Blocked _ _ _ _ _ (with_conn_full_at _ _ _ (with_in_use S p) Hc ltac:(simpl; lia))).
  by rewrite <- !app_assoc.
Qed.

End Run.


(** C20: A user inserted with [INSERT INTO users (name, f1, f2)
    VALUES (?, ?, ?)], whatever rows the table already holds, comes
    back as the last row of [SELECT * FROM users], and [StructScan]
    reads that row into the same [Users] value, its [ID] the table's
    next [AUTO_INCREMENT] value: the identifier the server prints is
    the one [database/sql] parses back. *)
Theorem insert_select_roundtrip ts a us x y z u :
  (int64_min <= a < int64_min + int64_modulus)%Z ->
  exists ts' rows r,
    server_query insert_sql [x; y; z] (<[users_t := users_table a us]> ts) = (Ok (Affected 1), ts') /\
    server_query select_sql [] ts' = (Ok (Rows users_fields (rows ++ [r])), ts') /\
    StructScan users_fields r u = Ok (MkUsers a x y z).
Proof.
  intros Ha. do 3 eexists. split; [apply sq_insert_user|]. split.
  - rewrite sq_select_users, !fmap_app. reflexivity.
  - by apply (scan_users_row (MkUsers a x y z)).
Qed.

(** Everything [main] does when every statement succeeds, in order. *)
Definition demo_events (id : nat) : list event :=
  [EvPrint 1 (str "connect db success");
   EvExec id start_sql; EvExec id drop_sql; EvPrint 1 (str "affected: 0");
   EvExec id create_sql; EvExec id commit_sql;
   EvExec id insert_sql; EvPrint 1 (str "MustExec affected: 1");
   EvExec id select_where_sql; EvPrint 1 (users_gostring bin_user);
   EvPrint 1 (str "###########################"); EvExec id start_sql]
  ++ replicate 100 (EvExec id insert_sql)
  ++ [EvExec id commit_sql; EvExec id select_sql]
  ++ ((fun v => EvPrint 1 (users_gostring v)) <$> demo_users)
  ++ [EvClose id].

Lemma world_after_start w id p : w_pools w !! id = Some p -> world_after w id [] (w_tables w) p = w.
Proof. intros Hp. destruct w; unfold world_after; simpl in *. by rewrite insert_id, app_nil_r. Qed.

Lemma with_defer_Ok d body w x w1 :
  body w = Done (Ok x) w1 -> with_defer d body w = d w1.
Proof. unfold with_defer. by intros ->. Qed.

Lemma with_defer_Blocked d body w w1 :
  body w = Blocked w1 -> with_defer d body w = Blocked w1.
Proof. unfold with_defer. by intros ->. Qed.

Lemma GetSqlxIns_ready h id :
  DB h = Some id -> IsDBInitialized h = true -> GetSqlxIns h = Ok id.
Proof. unfold GetSqlxIns. by intros -> ->. Qed.

Section MainProofs.
Context `{GoConfigLibs} `{CryptoLib} `{MySQLDriver}.

Lemma NewDB_initialized dir w h w' : NewDB dir w = (Ok h, w') -> IsDBInitialized h = true.
Proof.
  unfold NewDB. intros E. apply bindS_Ok_inv in E as (cfg & w1 & _ & E).
  case_bool_decide; [|case_bool_decide].
  - apply bindS_Ok_inv in E as (h0 & w2 & _ & E). by injection E as <- <-.
  - by injection E as <- <-.
  - done.
Qed.

Lemma main_NewDB_Ok w h w1 :
  NewDB (str "./") w = (Ok h, w1) ->
  main w = with_defer (let! _ := dlift (CloseDB h) in dret tt)
             (let! _ := Println (str "connect db success") in
              check (dlift (liftO (GetSqlxIns h))) Println (fun dbsqlx =>
              block_tx dbsqlx (block_named_insert dbsqlx (block_named_query dbsqlx (block_bulk dbsqlx))))) w1.
Proof. intros E. unfold main. erewrite check_Done; [reflexivity|]. unfold dlift. by rewrite E. Qed.

(** C8: When [NewDB] hands [main] a pool that is open with no
    connection in use, a server that is up, and an open-connection
    limit other than 1, [main] returns normally.  It prints "connect
    db success", "affected: 0", "MustExec affected: 1", the user Bin,
    the separator and the 101 users of the table.  It leaves the table
    [users] holding exactly those users (Bin with [ID] 1, Jason-i with
    [ID] i+1), whatever the tables held before.  Its deferred
    [CloseDB] closes the pool last.  Nothing else in the world
    changes. *)
Theorem main_completes w h w1 id p :
  NewDB (str "./") w = (Ok h, w1) -> DB h = Some id ->
  w_pools w1 !! id = Some p -> pool_closed p = false -> pool_in_use p = 0 ->
  pool_max_open p <> 1%Z -> server_up w1 = true ->
  main w = Done (Ok tt) (world_after w1 id (demo_events id)
                           (<[users_t := users_table 102 demo_users]> (w_tables w1)) (closed_pool p)).
Proof.
  intros E Hd Hp Hc Hi Hm Hu.
  assert (Hus : usable p) by (split; [done|lia]).
  rewrite (main_NewDB_Ok _ _ _ E), <- (world_after_start w1 id p Hp) at 1.
  erewrite with_defer_Ok.
  2:{ rewrite (dbind_Done _ _ _ _ _ (Println_at _ _ _ _ _ _)).
      rewrite (GetSqlxIns_ready h id Hd (NewDB_initialized _ _ _ _ E)).
      rewrite (check_Done _ _ _ _ _ _ (dlift_liftO _ _)).
      rewrite block_tx_at, block_named_insert_at, block_named_query_at, block_bulk_at by done.
      reflexivity. }
  rewrite defer_CloseDB_at by eauto using NewDB_initialized.
  rewrite insert_delete_eq. unfold demo_events. by rewrite <- !app_assoc.
Qed.

(** C9: With an open-connection limit of 1 (the [max_open] of the
    configuration), [main] never ends.  The transaction of line 35
    holds the only connection when [dbsqlx.Exec] of line 52 asks for
    another, and nothing can release it.  By then [main] has printed
    "connect db success" and "affected: 0" and dropped the table.  The
    deferred [CloseDB] never runs. *)
Theorem main_deadlock w h w1 id p :
  NewDB (str "./") w = (Ok h, w1) -> DB h = Some id ->
  w_pools w1 !! id = Some p -> pool_closed p = false -> pool_in_use p = 0 ->
  pool_max_open p = 1%Z -> server_up w1 = true ->
  main w = Blocked (world_after w1 id [EvPrint 1 (str "connect db success"); EvExec id start_sql;
                               EvExec id drop_sql; EvPrint 1 (str "affected: 0")]
                      (delete users_t (w_tables w1)) (with_in_use S p)).
Proof.
  intros E Hd Hp Hc Hi Hm Hu.
  rewrite (main_NewDB_Ok _ _ _ E), <- (world_after_start w1 id p Hp) at 1.
  apply with_defer_Blocked.
  rewrite (dbind_Done _ _ _ _ _ (Println_at _ _ _ _ _ _)).
  rewrite (GetSqlxIns_ready h id Hd (NewDB_initialized _ _ _ _ E)).
  rewrite (check_Done _ _ _ _ _ _ (dlift_liftO _ _)), block_tx_blocked by done.
  by rewrite <- !app_assoc.
Qed.

(** C31: With a handle that holds no pool (the [postgres] stub of
    [NewDB]), [main] prints "connect db success" and then "sqlx
    handle not initialized", and returns; the deferred [CloseDB]
    changes nothing. *)
Theorem main_stub_handle w h w1 :
  NewDB (str "./") w = (Ok h, w1) -> DB h = None ->
  main w = Done (Ok tt) (log (EvPrint 1 err_not_initialized) (log (EvPrint 1 (str "connect db success")) w1)).
Proof.
  intros E Hd. rewrite (main_NewDB_Ok _ _ _ E). unfold with_defer, dbind, check, Println, dlift, liftO.
  unfold GetSqlxIns, CloseDB. rewrite Hd. done.
Qed.

(** C32: When [NewDB] fails, [main] prints its error and returns
    without deferring anything. *)
Theorem main_NewDB_error w e w1 :
  NewDB (str "./") w = (Err e, w1) -> main w = Done (Ok tt) (log (EvPrint 1 e) w1).
Proof. intros E. unfold main, check, dlift. by rewrite E. Qed.

End MainProofs.

(** ** Witnesses

    [main] with the codec, crypto and driver of the other files: on
    the first run (no configuration file, so the defaults, with
    [max_open = 30]), and with a configuration file that sets
    [max_open = 1], or another driver type. *)

Definition demo_w1 : World :=
  snd (@NewDB demo_libs demo_crypto demo_driver (str "./") first_run_world).

Definition pool_at (id : nat) (w : World) : Pool :=
  default (MkPool [] true 0 0 None 0) (w_pools w !! id).

Lemma main_completes_witness :
  @main demo_libs demo_crypto demo_driver first_run_world =
  Done (Ok tt) (world_after demo_w1 1 (demo_events 1)
                  (<[users_t := users_table 102 demo_users]> (w_tables demo_w1))
                  (closed_pool (pool_at 1 demo_w1))).
Proof.
  apply (@main_completes demo_libs demo_crypto demo_driver _ (MkSqlxDB (Some 1%nat) true DB_TYPE_MYSQL));
    try (vm_compute; reflexivity).
  vm_compute. discriminate.
Defined.

(** A codec that reads any configuration file as the defaults with
    the given driver type and open-connection limit. *)
Definition libs_with (t : bytes) (max_open : Z) : GoConfigLibs := {|
  filepath_Join := fun d f => d ++ str "/" ++ f;
  filepath_Abs := fun p => Ok p;
  toml_decode := fun _ => Ok (MkDataBaseConfig t DB_SOURCE DB_MAXIDLE max_open DB_ISLOGER
                                (TLS default_config));
  toml_encode := fun _ => Ok []
|}.

Definition configured_world : World :=
  set_fs {[str ".//./configs/dao.toml" := FReg (str "max_open = 1")]} first_run_world.

Definition one_conn_w1 : World :=
  snd (@NewDB (libs_with DB_TYPE_MYSQL 1) demo_crypto demo_driver (str "./") configured_world).

Lemma main_deadlock_witness :
  @main (libs_with DB_TYPE_MYSQL 1) demo_crypto demo_driver configured_world =
  Blocked (world_after one_conn_w1 1 [EvPrint 1 (str "connect db success"); EvExec 1 start_sql;
                                      EvExec 1 drop_sql; EvPrint 1 (str "affected: 0")]
             (delete users_t (w_tables one_conn_w1)) (with_in_use S (pool_at 1 one_conn_w1))).
Proof.
  apply (@main_deadlock (libs_with DB_TYPE_MYSQL 1) demo_crypto demo_driver _
           (MkSqlxDB (Some 1%nat) true DB_TYPE_MYSQL)); vm_compute; reflexivity.
Defined.

Lemma main_stub_handle_witness :
  @main (libs_with DB_TYPE_POSTGRES 30) demo_crypto demo_driver configured_world =
  Done (Ok tt) (log (EvPrint 1 err_not_initialized) (log (EvPrint 1 (str "connect db success"))
                  configured_world)).
Proof.
  apply (@main_stub_handle (libs_with DB_TYPE_POSTGRES 30) demo_crypto demo_driver _
           (MkSqlxDB None true DB_TYPE_POSTGRES)); vm_compute; reflexivity.
Defined.

Lemma main_NewDB_error_witness :
  @main (libs_with (str "sqlite") 30) demo_crypto demo_driver configured_world =
  Done (Ok tt) (log (EvPrint 1 (err_invalid_type (str "sqlite"))) configured_world).
Proof.
  apply (@main_NewDB_error (libs_with (str "sqlite") 30) demo_crypto demo_driver).
  vm_compute. reflexivity.
Defined.

Lemma insert_select_roundtrip_witness :
  exists ts' rows r,
    server_query insert_sql [str "Ann"; str "Lee"; str "ann@example.org"]
      (<[users_t := users_table 7 [bin_user]]> ∅) = (Ok (Affected 1), ts') /\
    server_query select_sql [] ts' = (Ok (Rows users_fields (rows ++ [r])), ts') /\
    StructScan users_fields r zero_users = Ok (MkUsers 7 (str "Ann") (str "Lee") (str "ann@example.org")).
Proof.
  apply (insert_select_roundtrip ∅ 7 [bin_user]). unfold int64_min, int64_modulus. lia.
Defined.
